(** * Settlement ETA API: bucket catalog, gap filler and lookup

    A shallow embedding of
    - [run/003_generate_missing_bins_improved.py] (the gap filler:
      [find_missing_bins], [collect_bin_statistics], [get_bin_index],
      [interpolate_bin_data], [populate_missing_bins]) and
    - [tests/lookup_settlement_times.py] (the lookup side:
      [find_amount_bucket], [get_ticker_hash_from_asset_name],
      [lookup_settlement_times]),
    followed by the properties of the specification that concern them.

    Conventions of the embedding.
    - A Python [dict] is an association list in insertion order with the
      first binding of a key being the live one ([dict_get], [dict_set]);
      dictionaries loaded from JSON have unique keys ([unique_keys]).
    - A Python [float] is a primitive binary64 float; [*], [/] and [+] are
      the IEEE operations of [PrimFloat], [round(x, 2)] is [round2] and
      [statistics.mean] is [py_mean], both computed exactly.
    - An exception is a value of [exn]; a computation that may raise returns
      a [result].
    - The amount given to [find_amount_bucket] is compared with integer
      literals only; Python compares a float or an int with an int exactly,
      so a finite amount is represented by the rational number it denotes. *)

From Stdlib Require Import ZArith QArith Lqa List String Ascii Bool Lia Floats.
Import ListNotations.
Set Warnings "-inexact-float".
Local Open Scope string_scope.

(** ** Exceptions and results *)

Inductive exn : Type :=
| TypeError
| KeyError (key : string)
| OverflowError
| StatisticsError.

Inductive result (A : Type) : Type :=
| Ok (a : A)
| Raise (e : exn).

Arguments Ok {A} a.
Arguments Raise {A} e.

Definition bind {A B : Type} (r : result A) (k : A -> result B) : result B :=
  match r with
  | Ok a => k a
  | Raise e => Raise e
  end.

Notation "x <- r ;; k" := (bind r (fun x => k))
  (at level 61, r at next level, right associativity).

Fixpoint foldM {A S : Type} (f : S -> A -> result S) (l : list A) (s : S)
  : result S :=
  match l with
  | [] => Ok s
  | a :: l' => s' <- f s a ;; foldM f l' s'
  end.

Fixpoint mapM {A B : Type} (f : A -> result B) (l : list A) : result (list B) :=
  match l with
  | [] => Ok []
  | a :: l' => b <- f a ;; bs <- mapM f l' ;; Ok (b :: bs)
  end.

(** ** Python values stored in the JSON documents

    The scalar values a bin can hold; a statistic that is itself a JSON
    array or object is not represented. *)

Inductive pyval : Type :=
| PyNone
| PyBool (b : bool)
| PyInt (z : Z)
| PyFloat (f : float)
| PyStr (s : string).

(** ** Dictionaries *)

Definition dict (V : Type) : Type := list (string * V).

Fixpoint dict_get {V : Type} (d : dict V) (k : string) : option V :=
  match d with
  | [] => None
  | (k', v) :: d' => if k' =? k then Some v else dict_get d' k
  end.

(** [k in d] *)
Definition dict_mem {V : Type} (k : string) (d : dict V) : bool :=
  match dict_get d k with
  | Some _ => true
  | None => false
  end.

(** [d[k] = v]: an existing key keeps its position, a new key goes last. *)
Fixpoint dict_set {V : Type} (d : dict V) (k : string) (v : V) : dict V :=
  match d with
  | [] => [(k, v)]
  | (k', v') :: d' =>
      if k' =? k then (k', v) :: d' else (k', v') :: dict_set d' k v
  end.

(** [list(d.keys())] *)
Definition dict_keys {V : Type} (d : dict V) : list string := map fst d.

(** [d[k]], raising [KeyError] on a missing key. *)
Definition getitem {V : Type} (d : dict V) (k : string) : result V :=
  match dict_get d k with
  | Some v => Ok v
  | None => Raise (KeyError k)
  end.

(** [d.get(k, default)] *)
Definition dict_get_default {V : Type} (d : dict V) (k : string) (default : V) : V :=
  match dict_get d k with
  | Some v => v
  | None => default
  end.

Definition is_empty {A : Type} (l : list A) : bool :=
  match l with
  | [] => true
  | _ :: _ => false
  end.

Fixpoint mem_string (x : string) (l : list string) : bool :=
  match l with
  | [] => false
  | y :: l' => (y =? x) || mem_string x l'
  end.

Fixpoint unique_strings (l : list string) : bool :=
  match l with
  | [] => true
  | x :: l' => negb (mem_string x l') && unique_strings l'
  end.

(** The invariant of a Python dictionary: no key occurs twice. *)
Definition unique_keys {V : Type} (d : dict V) : bool :=
  unique_strings (dict_keys d).

(** ** Floating-point helpers *)

(** The correctly rounded quotient of two positive integers, with sign [s]. *)
Definition ratio_to_float (s : bool) (n d : positive) : float :=
  let '(mz, ez, lz) := SFdiv_core_binary prec emax (Zpos n) 0 (Zpos d) 0 in
  SF2Prim (binary_round_aux prec emax s mz ez lz).

(** The float nearest to an integer (ties to even). *)
Definition Z_to_float (z : Z) : float :=
  SF2Prim (binary_normalize prec emax z 0 false).

(** The float nearest to a rational number. *)
Definition Q_to_float (q : Q) : float :=
  match Qnum q with
  | Z0 => zero
  | Zpos n => ratio_to_float false n (Qden q)
  | Zneg n => ratio_to_float true n (Qden q)
  end.

Definition is_finite (f : float) : bool :=
  match Prim2SF f with
  | S754_zero _ | S754_finite _ _ _ => true
  | S754_infinity _ | S754_nan => false
  end.

(** The rational number a finite float denotes. *)
Definition float_to_Q (f : float) : Q :=
  match Prim2SF f with
  | S754_finite s m e =>
      let v := (inject_Z (Zpos m) * Qpower 2 e)%Q in
      if s then Qopp v else v
  | _ => 0%Q
  end.

(** [n / k] rounded to the nearest integer, ties to even ([k > 0]). *)
Definition round_half_even (n k : Z) : Z :=
  let q := (n / k)%Z in
  let r := (n mod k)%Z in
  match (2 * r ?= k)%Z with
  | Lt => q
  | Gt => (q + 1)%Z
  | Eq => if Z.even q then q else (q + 1)%Z
  end.

(** [round(x, 2)] on a float: the exact value of [x] is rounded half-even to
    a multiple of 1/100 and that decimal is read back as the nearest float;
    NaN and the infinities round to themselves. *)
Definition round2 (x : float) : float :=
  match Prim2SF x with
  | S754_finite s m e =>
      let hundredths :=
        if (0 <=? e)%Z then (Zpos m * 100 * 2 ^ e)%Z
        else round_half_even (Zpos m * 100) (2 ^ (- e)) in
      match hundredths with
      | Zpos p => ratio_to_float s p 100
      | _ => if s then neg_zero else zero
      end
  | _ => x
  end.

(** [float(z)] for a Python int. *)
Definition int_to_float (z : Z) : result float :=
  let f := Z_to_float z in
  if is_infinity f then Raise OverflowError else Ok f.

(** [v * x] for a stored value [v] and a float [x]. *)
Definition py_mul_float (v : pyval) (x : float) : result float :=
  match v with
  | PyFloat f => Ok (f * x)%float
  | PyInt z => f <- int_to_float z ;; Ok (f * x)%float
  | PyBool b => Ok ((if b then 1 else 0) * x)%float
  | PyStr _ | PyNone => Raise TypeError
  end.

(** [x * v] for a float [x] and a number [v]. *)
Definition py_float_mul (x : float) (v : pyval) : result float :=
  match v with
  | PyFloat f => Ok (x * f)%float
  | PyInt z => f <- int_to_float z ;; Ok (x * f)%float
  | PyBool b => Ok (x * (if b then 1 else 0))%float
  | PyStr _ | PyNone => Raise TypeError
  end.

(** *** [statistics.mean] *)

Inductive ratio : Type :=
| Exact (q : Q)
| NonFinite (f : float).

(** [statistics._exact_ratio] *)
Definition exact_ratio (v : pyval) : result ratio :=
  match v with
  | PyBool b => Ok (Exact (if b then 1 else 0)%Q)
  | PyInt z => Ok (Exact (inject_Z z))
  | PyFloat f => Ok (if is_finite f then Exact (float_to_Q f) else NonFinite f)
  | PyStr _ | PyNone => Raise TypeError
  end.

Definition is_py_float (v : pyval) : bool :=
  match v with
  | PyFloat _ => true
  | _ => false
  end.

Fixpoint exact_total (rs : list ratio) : Q :=
  match rs with
  | [] => 0%Q
  | Exact q :: rs' => Qred (q + exact_total rs')
  | NonFinite _ :: rs' => exact_total rs'
  end.

Fixpoint non_finite_parts (rs : list ratio) : list float :=
  match rs with
  | [] => []
  | Exact _ :: rs' => non_finite_parts rs'
  | NonFinite f :: rs' => f :: non_finite_parts rs'
  end.

(** [statistics.mean(data)]: the exact sum of the data divided by their
    number, converted to the coerced type of the data (an int when all data
    are ints and the mean is integral, a correctly rounded float otherwise).
    A NaN or an infinity among the data makes the result the float sum of
    those special values divided by the count.  Converting the exact mean
    to a float raises [OverflowError] when it rounds to an infinity; the mean
    of finite floats lies between the least and the greatest of them, so
    that check is only made when some datum is not a float. *)
Definition py_mean (data : list pyval) : result pyval :=
  rs <- mapM exact_ratio data ;;
  match data with
  | [] => Raise StatisticsError
  | _ :: _ =>
      let n := Z.of_nat (List.length data) in
      match non_finite_parts rs with
      | (_ :: _) as specials =>
          Ok (PyFloat (fold_left PrimFloat.add specials 0 / Z_to_float n)%float)
      | [] =>
          let q := Qred (exact_total rs / inject_Z n) in
          let f := Q_to_float q in
          if forallb is_py_float data then Ok (PyFloat f)
          else if negb (existsb is_py_float data) && (Zpos (Qden q) =? 1)%Z
               then Ok (PyInt (Qnum q))
               else if is_infinity f then Raise OverflowError
                    else Ok (PyFloat f)
      end
  end.

(** The builtin [sum] over floats as CPython up to 3.11 computes it: a left
    fold of float additions starting from the int [0]. *)
Definition sum_left_fold (xs : list float) : float :=
  fold_left PrimFloat.add xs 0%float.

(** ** The bucket catalog *)

Definition EXPECTED_BINS : list string :=
  [ "0-50000"; "50000-100000"; "100000-300000"; "300000-400000";
    "400000-500000"; "500000-700000"; "700000-1000000"; "1000000+" ].

(** [find_amount_bucket] of [tests/lookup_settlement_times.py]. *)
Definition find_amount_bucket (usd_amount : Q) : string :=
  if Qle_bool usd_amount 50000 then "0-50000"
  else if Qle_bool usd_amount 100000 then "50000-100000"
  else if Qle_bool usd_amount 300000 then "100000-300000"
  else if Qle_bool usd_amount 400000 then "300000-400000"
  else if Qle_bool usd_amount 500000 then "400000-500000"
  else if Qle_bool usd_amount 700000 then "500000-700000"
  else if Qle_bool usd_amount 1000000 then "700000-1000000"
  else "1000000+".

(** The ranges the buckets cover according to the threshold cascade of
    [find_amount_bucket]: closed above, open below. *)
Inductive covers : string -> Q -> Prop :=
| covers_0 a : (0 <= a <= 50000)%Q -> covers "0-50000" a
| covers_1 a : (50000 < a <= 100000)%Q -> covers "50000-100000" a
| covers_2 a : (100000 < a <= 300000)%Q -> covers "100000-300000" a
| covers_3 a : (300000 < a <= 400000)%Q -> covers "300000-400000" a
| covers_4 a : (400000 < a <= 500000)%Q -> covers "400000-500000" a
| covers_5 a : (500000 < a <= 700000)%Q -> covers "500000-700000" a
| covers_6 a : (700000 < a <= 1000000)%Q -> covers "700000-1000000" a
| covers_7 a : (1000000 < a)%Q -> covers "1000000+" a.

Fixpoint index_of (x : string) (l : list string) : option nat :=
  match l with
  | [] => None
  | y :: l' =>
      if y =? x then Some O
      else match index_of x l' with
           | Some i => Some (S i)
           | None => None
           end
  end.

(** [get_bin_index]: the position in [EXPECTED_BINS], [-1] when absent. *)
Definition get_bin_index (bin_name : string) : Z :=
  match index_of bin_name EXPECTED_BINS with
  | Some i => Z.of_nat i
  | None => (-1)%Z
  end.

(** ** The dataset *)

Definition bin : Type := dict pyval.
Definition route : Type := dict bin.
Definition dataset : Type := dict (dict (dict route)).

Definition P25 : string := "settlement_duration_minutes_p25".
Definition P50 : string := "settlement_duration_minutes_p50".
Definition P75 : string := "settlement_duration_minutes_p75".

Definition combination : Type := string * string * string * list string.

(** [find_missing_bins]: the routes that lack a canonical bucket, each with
    its missing buckets in catalog order. *)
Definition missing_bins_of (bins : route) : list string :=
  filter (fun bin_name => negb (mem_string bin_name (dict_keys bins)))
         EXPECTED_BINS.

Definition find_missing_bins (data : dataset) : list combination :=
  flat_map (fun '(origin_chain_id, destinations) =>
    flat_map (fun '(destination_chain_id, tickerhashes) =>
      flat_map (fun '(tickerhash, bins) =>
        let missing_bins := missing_bins_of bins in
        if is_empty missing_bins then []
        else [(origin_chain_id, destination_chain_id, tickerhash, missing_bins)])
      tickerhashes)
    destinations)
  data.

(** The global statistics table: per bucket the collected values of each
    metric, in the order the dataset is traversed. *)
Record stat_lists : Type := mk_stats
  { p25 : list pyval; p50 : list pyval; p75 : list pyval }.

Definition bin_stats : Type := dict stat_lists.

(** [bin_stats[bin_name][metric].append(...)] on the nested [defaultdict]. *)
Definition stats_append (bs : bin_stats) (bin_name : string)
    (v25 v50 v75 : pyval) : bin_stats :=
  let st := dict_get_default bs bin_name (mk_stats [] [] []) in
  dict_set bs bin_name
    (mk_stats (p25 st ++ [v25])%list (p50 st ++ [v50])%list (p75 st ++ [v75])%list).

Definition collect_bin (bs : bin_stats) (entry : string * bin) : result bin_stats :=
  let '(bin_name, bin_data) := entry in
  if mem_string bin_name EXPECTED_BINS then
    v25 <- getitem bin_data P25 ;;
    v50 <- getitem bin_data P50 ;;
    v75 <- getitem bin_data P75 ;;
    Ok (stats_append bs bin_name v25 v50 v75)
  else Ok bs.

Definition collect_route (bs : bin_stats) (entry : string * route) : result bin_stats :=
  foldM collect_bin (snd entry) bs.

Definition collect_destination (bs : bin_stats) (entry : string * dict route)
  : result bin_stats :=
  foldM collect_route (snd entry) bs.

Definition collect_origin (bs : bin_stats) (entry : string * dict (dict route))
  : result bin_stats :=
  foldM collect_destination (snd entry) bs.

(** [collect_bin_statistics] *)
Definition collect_bin_statistics (data : dataset) : result bin_stats :=
  foldM collect_origin data [].

(** ** The strategy cascade *)

Definition baseline_bin : string := "0-50000".

Definition base_multiplier (target_bin : string) : float :=
  if target_bin =? "50000-100000" then 1.2
  else if target_bin =? "100000-300000" then 1.5
  else if target_bin =? "300000-400000" then 1.8
  else if target_bin =? "400000-500000" then 2.0
  else if target_bin =? "500000-700000" then 2.5
  else if target_bin =? "700000-1000000" then 3.0
  else if target_bin =? "1000000+" then 4.0
  else 1.0.

(** The dictionary every strategy returns. *)
Definition generated_bin (v25 v50 v75 : pyval) (method : string) : bin :=
  [ (P25, v25); (P50, v50); (P75, v75);
    ("sample_size", PyInt 0); ("generated", PyBool true);
    ("method", PyStr method) ].

(** The scaling shared by [baseline_scaling] and [baseline_scaling_global]. *)
Definition scaled_bin (baseline_p50 : pyval) (multiplier : float) (method : string)
  : result bin :=
  estimated_p50 <- py_mul_float baseline_p50 multiplier ;;
  let estimated_p25 := (estimated_p50 * 0.7)%float in
  let estimated_p75 := (estimated_p50 * 1.3)%float in
  Ok (generated_bin (PyFloat (round2 estimated_p25))
                    (PyFloat (round2 estimated_p50))
                    (PyFloat (round2 estimated_p75)) method).

(** [name in bin_stats and bin_stats[name][metric]] *)
Definition stats_of (bs : bin_stats) (bin_name : string)
    (metric : stat_lists -> list pyval) : option stat_lists :=
  match dict_get bs bin_name with
  | Some st => if is_empty (metric st) then None else Some st
  | None => None
  end.

Record surrounding_item : Type := mk_item
  { weight : float; avg_p25 : pyval; avg_p50 : pyval; avg_p75 : pyval }.

(** The loop of strategy 2 over [existing_bins]. *)
Fixpoint surrounding (bs : bin_stats) (target_index : Z)
    (existing_bins : list string) : result (list surrounding_item) :=
  match existing_bins with
  | [] => Ok []
  | bin_name :: rest =>
      item <-
        match stats_of bs bin_name p25 with
        | Some st =>
            let bin_index := get_bin_index bin_name in
            if (bin_index =? -1)%Z then Ok []
            else
              let distance := Z.abs (bin_index - target_index) in
              let w := (1.0 / Z_to_float (distance + 1))%float in
              a25 <- py_mean (p25 st) ;;
              a50 <- py_mean (p50 st) ;;
              a75 <- py_mean (p75 st) ;;
              Ok [mk_item w a25 a50 a75]
        | None => Ok []
        end ;;
      items <- surrounding bs target_index rest ;;
      Ok (item ++ items)%list
  end.

Section GapFiller.

(** The builtin [sum] over a sequence of floats.  CPython up to 3.11 folds
    float additions from the left ([sum_left_fold]); later versions add a
    compensation term.  The development holds for either.  The only sum
    that is used as a divisor is the sum of a non-empty sequence of
    weights, each [1 / (distance + 1)] and hence positive, so the division
    by it is the IEEE division and raises no [ZeroDivisionError]. *)
Variable py_sum : list float -> float.

Definition weighted_average (items : list surrounding_item)
    (metric : surrounding_item -> pyval) : result float :=
  let total_weight := py_sum (map weight items) in
  products <- mapM (fun item => py_float_mul (weight item) (metric item)) items ;;
  Ok (py_sum products / total_weight)%float.

(** [interpolate_bin_data] *)
Definition interpolate_bin_data (bs : bin_stats) (target_bin : string)
    (existing_bins : list string) (route_data : route) : result bin :=
  let target_index := get_bin_index target_bin in
  let multiplier := base_multiplier target_bin in
  if negb (is_empty route_data) && dict_mem baseline_bin route_data then
    baseline_data <- getitem route_data baseline_bin ;;
    baseline_p50 <- getitem baseline_data P50 ;;
    scaled_bin baseline_p50 multiplier "baseline_scaling"
  else
    match stats_of bs baseline_bin p50 with
    | Some st =>
        baseline_p50 <- py_mean (p50 st) ;;
        scaled_bin baseline_p50 multiplier "baseline_scaling_global"
    | None =>
        surrounding_data <- surrounding bs target_index existing_bins ;;
        if negb (is_empty surrounding_data) then
          weighted_p25 <- weighted_average surrounding_data avg_p25 ;;
          weighted_p50 <- weighted_average surrounding_data avg_p50 ;;
          weighted_p75 <- weighted_average surrounding_data avg_p75 ;;
          Ok (generated_bin (PyFloat (round2 weighted_p25))
                            (PyFloat (round2 weighted_p50))
                            (PyFloat (round2 weighted_p75))
                            "weighted_interpolation")
        else
          match stats_of bs target_bin p25 with
          | Some st =>
              m25 <- py_mean (p25 st) ;;
              m50 <- py_mean (p50 st) ;;
              m75 <- py_mean (p75 st) ;;
              Ok (generated_bin m25 m50 m75 "cross_combination_average")
          | None =>
              Ok (generated_bin (PyFloat 10.0) (PyFloat 15.0) (PyFloat 25.0)
                                "default_fallback")
          end
    end.

(** [populated_data[o][d][t]] *)
Definition get_route (populated_data : dataset) (o d t : string) : result route :=
  destinations <- getitem populated_data o ;;
  tickerhashes <- getitem destinations d ;;
  getitem tickerhashes t.

(** [populated_data[o][d][t][bin_name] = generated_data] *)
Definition set_route_bin (populated_data : dataset) (o d t bin_name : string)
    (generated_data : bin) : result dataset :=
  destinations <- getitem populated_data o ;;
  tickerhashes <- getitem destinations d ;;
  bins <- getitem tickerhashes t ;;
  Ok (dict_set populated_data o
        (dict_set destinations d
           (dict_set tickerhashes t (dict_set bins bin_name generated_data)))).

(** The inner loop of [populate_missing_bins]: [route_data] is read from
    the dataset under construction at every iteration. *)
Fixpoint fill_bins (bs : bin_stats) (existing_bins : list string)
    (o d t : string) (missing_bins : list string) (populated_data : dataset)
  : result dataset :=
  match missing_bins with
  | [] => Ok populated_data
  | bin_name :: rest =>
      route_data <- get_route populated_data o d t ;;
      generated_data <- interpolate_bin_data bs bin_name existing_bins route_data ;;
      populated_data' <- set_route_bin populated_data o d t bin_name generated_data ;;
      fill_bins bs existing_bins o d t rest populated_data'
  end.

(** One iteration of the outer loop. *)
Definition fill_combination (bs : bin_stats) (populated_data : dataset)
    (c : combination) : result dataset :=
  let '(o, d, t, missing_bins) := c in
  bins <- get_route populated_data o d t ;;
  let existing_bins := dict_keys bins in
  fill_bins bs existing_bins o d t missing_bins populated_data.

(** [populate_missing_bins]; the round trip through JSON text that makes
    the deep copy leaves the value unchanged. *)
Definition populate_missing_bins (data : dataset)
    (missing_combinations : list combination) : result dataset :=
  let populated_data := data in
  bs <- collect_bin_statistics data ;;
  foldM (fill_combination bs) missing_combinations populated_data.

(** The gap filler: the missing buckets found by [find_missing_bins] are
    handed to [populate_missing_bins], as [main] does.  ([main] stops before
    that call when nothing is missing and leaves the dataset as it is; the
    call returns the same dataset then, once the statistics are collected.) *)
Definition gap_fill (data : dataset) : result dataset :=
  populate_missing_bins data (find_missing_bins data).

End GapFiller.

(** ** Route-local view of the gap filler

    The pure counterparts of the dataset accesses above, used to state what
    [populate_missing_bins] does to one route. *)

Definition route_at (data : dataset) (o d t : string) : option route :=
  match dict_get data o with
  | Some destinations =>
      match dict_get destinations d with
      | Some tickerhashes => dict_get tickerhashes t
      | None => None
      end
  | None => None
  end.

Definition put_route (data : dataset) (o d t : string) (bins : route) : dataset :=
  match dict_get data o with
  | Some destinations =>
      match dict_get destinations d with
      | Some tickerhashes =>
          dict_set data o (dict_set destinations d (dict_set tickerhashes t bins))
      | None => data
      end
  | None => data
  end.

(** The bin stored for a bucket of a route of a dataset. *)
Definition bin_at (data : dataset) (o d t bin_name : string) : option bin :=
  match route_at data o d t with
  | Some bins => dict_get bins bin_name
  | None => None
  end.

Definition same_route (o d t o' d' t' : string) : bool :=
  (o =? o') && (d =? d') && (t =? t').

(** The inner loop of [populate_missing_bins] as it acts on the bins of the
    route it fills. *)
Fixpoint fill_route (py_sum : list float -> float) (bs : bin_stats)
    (existing_bins : list string) (missing_bins : list string) (bins : route)
  : result route :=
  match missing_bins with
  | [] => Ok bins
  | bin_name :: rest =>
      generated_data <- interpolate_bin_data py_sum bs bin_name existing_bins bins ;;
      fill_route py_sum bs existing_bins rest (dict_set bins bin_name generated_data)
  end.

(** What [baseline_scaling] generates for a target bucket from the median
    [m] of the route's ["0-50000"] bin. *)
Definition baseline_scaling_bin (m : float) (target_bin : string) : bin :=
  generated_bin
    (PyFloat (round2 (m * base_multiplier target_bin * 0.7)))
    (PyFloat (round2 (m * base_multiplier target_bin)))
    (PyFloat (round2 (m * base_multiplier target_bin * 1.3)))
    "baseline_scaling".

(** A list of collected values that [statistics.mean] accepts: floats, at
    least one. *)
Definition float_list (l : list pyval) : Prop :=
  l <> [] /\ forallb is_py_float l = true.

Definition float_stats (st : stat_lists) : Prop :=
  float_list (p25 st) /\ float_list (p50 st) /\ float_list (p75 st).

Definition stats_ok (bs : bin_stats) : Prop :=
  Forall (fun e : string * stat_lists => float_stats (snd e)) bs.

Definition float_item (item : surrounding_item) : Prop :=
  is_py_float (avg_p25 item) = true /\ is_py_float (avg_p50 item) = true
  /\ is_py_float (avg_p75 item) = true.

(** The median of a bin is a float. *)
Definition float_median (b : bin) : Prop :=
  exists m, dict_get b P50 = Some (PyFloat m).

(** The ["0-50000"] bin of a route, when there is one, has a float median. *)
Definition base_ok (bins : route) : Prop :=
  forall b0, dict_get bins baseline_bin = Some b0 -> float_median b0.

Definition for_all_routes (p : route -> bool) (data : dataset) : bool :=
  forallb (fun e1 : string * dict (dict route) =>
    forallb (fun e2 : string * dict route =>
      forallb (fun e3 : string * route => p (snd e3)) (snd e2)) (snd e1)) data.

Definition for_all_canonical_bins (p : bin -> bool) (bins : route) : bool :=
  forallb (fun e : string * bin =>
    negb (mem_string (fst e) EXPECTED_BINS) || p (snd e)) bins.

(** Every route holds the eight canonical buckets. *)
Definition fully_populated (data : dataset) : bool :=
  for_all_routes (fun bins => is_empty (missing_bins_of bins)) data.

(** Every canonical bin holds the three statistics, whatever their values. *)
Definition has_statistics (b : bin) : bool :=
  dict_mem P25 b && dict_mem P50 b && dict_mem P75 b.

Definition statistics_present (data : dataset) : bool :=
  for_all_routes (for_all_canonical_bins has_statistics) data.

Definition is_float_at (b : bin) (k : string) : bool :=
  match dict_get b k with
  | Some (PyFloat _) => true
  | _ => false
  end.

Definition float_statistics (b : bin) : bool :=
  is_float_at b P25 && is_float_at b P50 && is_float_at b P75.

(** A well-formed dataset: keys are unique at every level, as in any Python
    dictionary, and the three statistics of every canonical bin are
    floats. *)
Definition well_formed (data : dataset) : bool :=
  unique_keys data
  && forallb (fun e1 : string * dict (dict route) =>
       unique_keys (snd e1)
       && forallb (fun e2 : string * dict route => unique_keys (snd e2)) (snd e1))
     data
  && for_all_routes (fun bins => unique_keys bins) data
  && for_all_routes (for_all_canonical_bins float_statistics) data.

Definition non_numeric (v : pyval) : bool :=
  match v with
  | PyStr _ | PyNone => true
  | PyBool _ | PyInt _ | PyFloat _ => false
  end.

(** ** Asset resolution and lookup *)

(** Text is modelled on the ASCII range: a text whose characters are all
    below 128.  On such text [upper], [lower], [strip] and the character
    classes below are Python's; the case mappings and classes of other
    characters are not modelled, and a property that depends on the
    characters of a text is stated for ASCII text. *)
Definition is_ascii_char (c : ascii) : bool := (N_of_ascii c <? 128)%N.

Fixpoint is_ascii (s : string) : bool :=
  match s with
  | EmptyString => true
  | String c s' => is_ascii_char c && is_ascii s'
  end.

Definition upper_ascii (c : ascii) : ascii :=
  let n := N_of_ascii c in
  if ((97 <=? n) && (n <=? 122))%N then ascii_of_N (n - 32) else c.

(** [str.upper] on ASCII text: the letters a to z become A to Z. *)
Fixpoint upper (s : string) : string :=
  match s with
  | EmptyString => EmptyString
  | String c s' => String (upper_ascii c) (upper s')
  end.

(** [b] is the small letter of the capital letter [a]: in ASCII the two are
    32 apart. *)
Definition small_of_capital (a b : ascii) : bool :=
  let n := N_of_ascii a in
  ((65 <=? n) && (n <=? 90) && (N_of_ascii b =? n + 32))%N.

(** Two characters that are the same, or the same letter in different
    case. *)
Definition same_char_ignoring_case (a b : ascii) : bool :=
  Ascii.eqb a b || small_of_capital a b || small_of_capital b a.

(** Two texts that are equal up to the case of their letters. *)
Fixpoint equal_ignoring_case (a b : string) : bool :=
  match a, b with
  | EmptyString, EmptyString => true
  | String x a', String y b' =>
      same_char_ignoring_case x y && equal_ignoring_case a' b'
  | _, _ => false
  end.

Record asset_info : Type := mk_asset { tickerHash : string }.

Definition assets : Type := dict asset_info.

(** An entry of [chain_data["chains"]]; [None] when it has no ["assets"]. *)
Record chain_info : Type := mk_chain { chain_assets : option assets }.

(** The chain catalog: [hub] is [None] when the ["hub"] key is absent, and
    the inner option is [None] when the hub has no ["assets"]; [chains] is
    [None] when the ["chains"] key is absent. *)
Record chain_data : Type := mk_chain_data
  { hub : option (option assets); chains : option (dict chain_info) }.

(** One [for symbol, asset_info in ...items()] loop with its early return. *)
Fixpoint search_assets (entries : assets) (asset_name : string) : option string :=
  match entries with
  | [] => None
  | (symbol, info) :: rest =>
      if upper symbol =? upper asset_name then Some (tickerHash info)
      else search_assets rest asset_name
  end.

Fixpoint search_chains (cs : dict chain_info) (asset_name : string) : option string :=
  match cs with
  | [] => None
  | (_, chain) :: rest =>
      match
        match chain_assets chain with
        | Some entries => search_assets entries asset_name
        | None => None
        end
      with
      | Some h => Some h
      | None => search_chains rest asset_name
      end
  end.

(** [get_ticker_hash_from_asset_name]; the outer [None] is a catalog that
    could not be loaded (an empty catalog has neither hub nor chains and
    resolves nothing either). *)
Definition get_ticker_hash_from_asset_name (catalog : option chain_data)
    (asset_name : string) (origin_chain : option string) : option string :=
  match catalog with
  | None => None
  | Some cd =>
      let all_chains := match chains cd with Some cs => cs | None => [] end in
      match
        match hub cd with
        | Some (Some entries) => search_assets entries asset_name
        | _ => None
        end
      with
      | Some h => Some h
      | None =>
          match
            match origin_chain with
            | Some oc =>
                if negb (oc =? "") then
                  match dict_get all_chains oc with
                  | Some chain =>
                      search_assets
                        (match chain_assets chain with Some a => a | None => [] end)
                        asset_name
                  | None => None
                  end
                else None
            | None => None
            end
          with
          | Some h => Some h
          | None => search_chains all_chains asset_name
          end
      end
  end.

(** The catalogs in the order the specification lists them: hub assets, the
    hinted chain's assets, every chain's assets. *)
Definition hub_entries (cd : chain_data) : assets :=
  match hub cd with
  | Some (Some entries) => entries
  | _ => []
  end.

Definition chain_entries (chain : chain_info) : assets :=
  match chain_assets chain with
  | Some entries => entries
  | None => []
  end.

Definition hinted_entries (cd : chain_data) (origin_chain : option string) : assets :=
  match origin_chain, chains cd with
  | Some oc, Some cs =>
      if oc =? "" then []
      else match dict_get cs oc with
           | Some chain => chain_entries chain
           | None => []
           end
  | _, _ => []
  end.

Definition all_chain_entries (cd : chain_data) : assets :=
  match chains cd with
  | Some cs => flat_map (fun e : string * chain_info => chain_entries (snd e)) cs
  | None => []
  end.

Definition search_order (cd : chain_data) (origin_chain : option string) : assets :=
  (hub_entries cd ++ hinted_entries cd origin_chain ++ all_chain_entries cd)%list.

Definition same_symbol (asset_name : string) (e : string * asset_info) : bool :=
  upper (fst e) =? upper asset_name.

(** An entry whose symbol is the asset name up to letter case. *)
Definition matches_ignoring_case (asset_name : string) (e : string * asset_info)
  : bool :=
  equal_ignoring_case (fst e) asset_name.

(** Every symbol of a list of entries is ASCII text. *)
Definition ascii_symbols (entries : assets) : bool :=
  forallb (fun e : string * asset_info => is_ascii (fst e)) entries.

Definition hash_of (e : option (string * asset_info)) : option string :=
  match e with
  | Some e => Some (tickerHash (snd e))
  | None => None
  end.

(** The resolution as the specification words it: the ticker hash of the
    first entry, in search order, whose symbol matches the asset name up to
    letter case. *)
Definition resolve_asset_spec (cd : chain_data) (asset_name : string)
    (origin_chain : option string) : option string :=
  match find (matches_ignoring_case asset_name) (search_order cd origin_chain) with
  | Some e => Some (tickerHash (snd e))
  | None => None
  end.

Record lookup_result : Type := mk_lookup_result
  { res_origin_chain : string;
    res_destination_chain : string;
    res_asset : string;
    res_amount_range : string;
    res_p25 : pyval;
    res_p50 : pyval;
    res_p75 : pyval;
    res_sample_size : pyval;
    res_generated : pyval;
    res_method : pyval }.

(** [lookup_settlement_times] on the loaded dataset; [None] is the failure
    the function reports after printing its message.  An absent or empty
    [amount_range] is falsy. *)
Definition lookup_settlement_times (data : dataset)
    (origin_chain destination_chain asset_hash : string)
    (amount_range : option string) : option lookup_result :=
  match dict_get data origin_chain with
  | None => None
  | Some destinations =>
  match dict_get destinations destination_chain with
  | None => None
  | Some tickerhashes =>
  match dict_get tickerhashes asset_hash with
  | None => None
  | Some asset_data =>
      let target :=
        match amount_range with
        | Some r =>
            if negb (r =? "") then
              if dict_mem r asset_data then Some r else None
            else hd_error (dict_keys asset_data)
        | None => hd_error (dict_keys asset_data)
        end in
      match target with
      | None => None
      | Some target_range =>
          match dict_get asset_data target_range with
          | None => None
          | Some range_data =>
              Some (mk_lookup_result origin_chain destination_chain asset_hash
                      target_range
                      (dict_get_default range_data P25 PyNone)
                      (dict_get_default range_data P50 PyNone)
                      (dict_get_default range_data P75 PyNone)
                      (dict_get_default range_data "sample_size" PyNone)
                      (dict_get_default range_data "generated" (PyBool false))
                      (dict_get_default range_data "method" (PyStr "N/A")))
          end
      end
  end end end.

(** ** Chain names, token amounts and the lookup entry points

    The remaining functions of [tests/lookup_settlement_times.py].  Text is
    ASCII (see [is_ascii]): [str.lower], [str.strip] and the classes [\d],
    [\s] and [[A-Za-z]] of the regular expression are those of the
    characters below 128.  Python also lower-cases, strips and reads as
    digits or white space characters outside that range (the Kelvin sign, the
    no-break space, the Arabic-Indic digits); such text is outside the
    model. *)

Definition lower_ascii (c : ascii) : ascii :=
  let n := N_of_ascii c in
  if ((65 <=? n) && (n <=? 90))%N then ascii_of_N (n + 32) else c.

(** [str.lower] on ASCII text: the letters A to Z become a to z. *)
Fixpoint lower (s : string) : string :=
  match s with
  | EmptyString => EmptyString
  | String c s' => String (lower_ascii c) (lower s')
  end.

Definition chain_mapping : dict string :=
  [ ("ethereum", "1"); ("arbitrum", "42161"); ("optimism", "10");
    ("base", "8453"); ("polygon", "137"); ("bnb", "56");
    ("avalanche_c", "43114"); ("scroll", "534352"); ("zksync", "324");
    ("linea", "59144"); ("blast", "81457"); ("taiko", "167000");
    ("mode", "34443"); ("unichain", "130"); ("zircuit", "48900");
    ("berachain", "80094"); ("sonic", "146"); ("ink", "57073");
    ("ronin", "2020"); ("solana", "1399811149"); ("tron", "728126428");
    ("apechain", "33139") ].

(** [get_chain_id_from_name]: [chain_mapping.get(chain_name.lower(), chain_name)]. *)
Definition get_chain_id_from_name (chain_name : string) : string :=
  dict_get_default chain_mapping (lower chain_name) chain_name.

(** [get_token_prices] *)
Definition get_token_prices : dict float :=
  [ ("USDC", 1.0); ("USDT", 1.0); ("ETH", 4250.0); ("WETH", 4250.0);
    ("CLEAR", 0.02029); ("cbBTC", 113131.51); ("WBTC", 112734.47);
    ("BNB", 300.0); ("POL", 0.5); ("AVAX", 35.0); ("BERA", 0.1);
    ("MNT", 0.5); ("SONIC", 0.01); ("INK", 0.001); ("APE", 1.5);
    ("RON", 0.1); ("xPufETH", 4250.0) ]%float.

(** [convert_to_usd]: an unknown symbol is priced at one dollar. *)
Definition convert_to_usd (amount : float) (asset_symbol : string) : float :=
  match dict_get get_token_prices asset_symbol with
  | Some price => (amount * price)%float
  | None => amount
  end.

(** The ASCII characters of the class [\s], which are also those that
    [str.strip] removes: the characters 9 to 13 and 28 to 32. *)
Definition is_space (c : ascii) : bool :=
  let n := N_of_ascii c in
  (((9 <=? n) && (n <=? 13)) || ((28 <=? n) && (n <=? 32)))%N.

(** The ASCII characters of the class [\d]: the digits 0 to 9. *)
Definition is_digit (c : ascii) : bool :=
  let n := N_of_ascii c in ((48 <=? n) && (n <=? 57))%N.

(** The class [[A-Za-z]]. *)
Definition is_letter (c : ascii) : bool :=
  let n := N_of_ascii c in
  (((65 <=? n) && (n <=? 90)) || ((97 <=? n) && (n <=? 122)))%N.

Definition is_empty_string (s : string) : bool :=
  match s with
  | EmptyString => true
  | String _ _ => false
  end.

Fixpoint lstrip (s : string) : string :=
  match s with
  | EmptyString => EmptyString
  | String c s' => if is_space c then lstrip s' else s
  end.

Fixpoint rstrip (s : string) : string :=
  match s with
  | EmptyString => EmptyString
  | String c s' =>
      let r := rstrip s' in
      if is_empty_string r && is_space c then EmptyString else String c r
  end.

(** [str.strip()] *)
Definition strip (s : string) : string := rstrip (lstrip s).

(** The longest prefix of characters of a class, and what follows it: what a
    greedy [+] or [*] of the regular expression consumes. *)
Fixpoint span (p : ascii -> bool) (s : string) : string * string :=
  match s with
  | EmptyString => (EmptyString, EmptyString)
  | String c s' =>
      if p c then let '(a, b) := span p s' in (String c a, b)
      else (EmptyString, s)
  end.

(** The value of a string of decimal digits. *)
Definition digit_value (c : ascii) : Z := Z.of_N (N_of_ascii c) - 48.

Fixpoint digits_value (acc : Z) (s : string) : Z :=
  match s with
  | EmptyString => acc
  | String c s' => digits_value (10 * acc + digit_value c) s'
  end.

(** [float(text)] for [text] matching [\d+(\.\d+)?]: the float nearest to the
    decimal number, an infinity when the number is too large. *)
Definition float_of_decimal (int_part frac_part : string) : float :=
  let scale := (10 ^ Z.of_nat (String.length frac_part))%Z in
  Q_to_float
    (Qmake (digits_value 0 int_part * scale + digits_value 0 frac_part)
           (Z.to_pos scale)).

(** The match of [^(\d+(?:\.\d+)?)\s+([A-Za-z]+)$]: the integer digits, the
    fractional digits (empty when there is no fractional part) and the
    letters.  [$] also matches before a final newline. *)
Definition match_token_amount (s : string) : option (string * string * string) :=
  let '(int_part, after_int) := span is_digit s in
  if is_empty_string int_part then None
  else
    let '(frac_part, after_number) :=
      match after_int with
      | String "."%char rest =>
          let '(digits, after_frac) := span is_digit rest in
          if is_empty_string digits then (EmptyString, after_int)
          else (digits, after_frac)
      | _ => (EmptyString, after_int)
      end in
    let '(spaces, after_spaces) := span is_space after_number in
    if is_empty_string spaces then None
    else
      let '(letters, after_letters) := span is_letter after_spaces in
      if is_empty_string letters then None
      else if is_empty_string after_letters
              || (after_letters =? String "010"%char EmptyString)
           then Some (int_part, frac_part, letters)
           else None.

(** [parse_token_amount]; [None] stands for the pair [(None, None)]. *)
Definition parse_token_amount (amount_string : string) : option (float * string) :=
  match match_token_amount (strip amount_string) with
  | Some (int_part, frac_part, letters) =>
      Some (float_of_decimal int_part frac_part, upper letters)
  | None => None
  end.

(** [find_amount_bucket] applied to a float as the callers pass it: the
    comparisons with the integer literals are those of the float with the
    equal float constant, and all are false for a NaN. *)
Definition find_amount_bucket_float (usd_amount : float) : string :=
  if (usd_amount <=? 50000)%float then "0-50000"
  else if (usd_amount <=? 100000)%float then "50000-100000"
  else if (usd_amount <=? 300000)%float then "100000-300000"
  else if (usd_amount <=? 400000)%float then "300000-400000"
  else if (usd_amount <=? 500000)%float then "400000-500000"
  else if (usd_amount <=? 700000)%float then "500000-700000"
  else if (usd_amount <=? 1000000)%float then "700000-1000000"
  else "1000000+".


(** [s.startswith(prefix)] *)
Fixpoint starts_with (p s : string) : bool :=
  match p, s with
  | EmptyString, _ => true
  | String a p', String b s' => Ascii.eqb a b && starts_with p' s'
  | String _ _, EmptyString => false
  end.

(** What [main] makes of the [--amount] argument: the amount range to look
    up and the asset named in a token amount, if any.  A float is falsy when
    it is zero. *)
Definition amount_argument (amount : option string) : option string * option string :=
  match amount with
  | None => (None, None)
  | Some text =>
      if is_empty_string text then (None, None)
      else
        match parse_token_amount text with
        | Some (a, asset_symbol) =>
            if negb (is_zero a) && negb (is_empty_string asset_symbol) then
              let usd_value := convert_to_usd a asset_symbol in
              (Some (find_amount_bucket_float usd_value), Some asset_symbol)
            else (Some text, None)
        | None => (Some text, None)
        end
  end.

(** [main] of the lookup script on the loaded dataset and catalog, with the
    command line already split into its options; [None] is the exit with
    status 1, [Some] the result that is printed. *)
Definition lookup_main (data : dataset) (catalog : option chain_data)
    (origin destination asset : string) (amount : option string)
  : option lookup_result :=
  let '(amount_range, asset_from_amount) := amount_argument amount in
  let asset_to_use :=
    match asset_from_amount with
    | Some a => if is_empty_string a then asset else a
    | None => asset
    end in
  let asset_hash :=
    if negb (starts_with "0x" asset_to_use) then
      match get_ticker_hash_from_asset_name catalog asset_to_use (Some origin) with
      | Some h => if h =? "" then None else Some h
      | None => None
      end
    else Some asset_to_use in
  match asset_hash with
  | None => None
  | Some h => lookup_settlement_times data origin destination h amount_range
  end.

(** ** The test runner

    The tally of [run_all_tests] and the exit status of [main] in
    [tests/run_test_cases.py]. *)

Record summary : Type := mk_summary
  { total_tests : nat; passed : nat; failed : nat }.

(** [test_cases[:max_tests]]; the slice is only taken when [max_tests] is
    given and not zero, and a negative bound counts from the end. *)
Definition take_tests {test_case : Type} (test_cases : list test_case)
    (max_tests : option Z) : list test_case :=
  match max_tests with
  | None => test_cases
  | Some n =>
      if (n =? 0)%Z then test_cases
      else if (0 <? n)%Z then firstn (Z.to_nat n) test_cases
      else firstn (Z.to_nat (Z.of_nat (List.length test_cases) + n)) test_cases
  end.

Section TestRunner.

Variable test_case : Type.

(** [run_single_test] as the loop sees it: [None] when the amount of the
    case is not a number, otherwise whether the case succeeded.  A call that
    raises (a case without one of the three route columns) ends the whole
    run and is not part of this view. *)
Variable run_single_test : test_case -> option bool.

Definition test_passes (tc : test_case) : bool :=
  match run_single_test tc with
  | Some true => true
  | _ => false
  end.

Definition test_ran (tc : test_case) : bool :=
  match run_single_test tc with
  | Some _ => true
  | None => false
  end.

(** One iteration of the loop of [run_all_tests]. *)
Definition count_test (acc : summary) (tc : test_case) : summary :=
  match run_single_test tc with
  | Some true => mk_summary (S (total_tests acc)) (S (passed acc)) (failed acc)
  | Some false => mk_summary (S (total_tests acc)) (passed acc) (S (failed acc))
  | None => mk_summary (total_tests acc) (passed acc) (S (failed acc))
  end.

(** [run_all_tests]: [None] when no test case was loaded. *)
Definition run_all_tests (test_cases : list test_case) (max_tests : option Z)
  : option summary :=
  if is_empty test_cases then None
  else Some (fold_left count_test (take_tests test_cases max_tests)
               (mk_summary 0 0 0)).


End TestRunner.

(** ** Predicates of the further properties *)

(** The [KeyError] of one of the three statistic keys. *)
Definition statistic_key_error (e : exn) : Prop :=
  e = KeyError P25 \/ e = KeyError P50 \/ e = KeyError P75.

(** An entry of the statistics table: a canonical bucket with three
    non-empty lists of one length. *)
Definition table_entry_ok (e : string * stat_lists) : Prop :=
  In (fst e) EXPECTED_BINS
  /\ p25 (snd e) <> []
  /\ List.length (p25 (snd e)) = List.length (p50 (snd e))
  /\ List.length (p50 (snd e)) = List.length (p75 (snd e)).

(** The five strategy names. *)
Definition STRATEGIES : list string :=
  [ "baseline_scaling"; "baseline_scaling_global"; "weighted_interpolation";
    "cross_combination_average"; "default_fallback" ].

(** An existing bucket of the route that [weighted_interpolation] can use:
    the table has values for it and it is canonical. *)
Definition contributes (bs : bin_stats) (bin_name : string) : bool :=
  match stats_of bs bin_name p25 with
  | Some _ => negb (get_bin_index bin_name =? -1)%Z
  | None => false
  end.

(** The first strategy of the cascade that applies. *)
Definition selected_strategy (bs : bin_stats) (target_bin : string)
    (existing_bins : list string) (route_data : route) : string :=
  if dict_mem baseline_bin route_data then "baseline_scaling"
  else match stats_of bs baseline_bin p50 with
       | Some _ => "baseline_scaling_global"
       | None =>
           if existsb (contributes bs) existing_bins then "weighted_interpolation"
           else match stats_of bs target_bin p25 with
                | Some _ => "cross_combination_average"
                | None => "default_fallback"
                end
       end.

(** Keys are unique at the three levels that address a route. *)
Definition unique_routes (data : dataset) : bool :=
  unique_keys data
  && forallb (fun e1 : string * dict (dict route) =>
       unique_keys (snd e1)
       && forallb (fun e2 : string * dict route => unique_keys (snd e2)) (snd e1))
     data.

(** Every character of a text is of a class. *)
Fixpoint all_chars (p : ascii -> bool) (s : string) : bool :=
  match s with
  | EmptyString => true
  | String c s' => p c && all_chars p s'
  end.

Definition is_upper_letter (c : ascii) : bool :=
  let n := N_of_ascii c in ((65 <=? n) && (n <=? 90))%N.

(** The text of a number: the integer digits and, when there are fractional
    digits, a point and those digits. *)
Definition decimal_text (int_part frac_part : string) : string :=
  if is_empty_string frac_part then int_part
  else int_part ++ "." ++ frac_part.

(** Every bin of the dataset with its name, in the order the dataset is
    traversed. *)
Definition all_bins (data : dataset) : list (string * bin) :=
  flat_map (fun e1 : string * dict (dict route) =>
    flat_map (fun e2 : string * dict route =>
      flat_map (fun e3 : string * route => snd e3) (snd e2)) (snd e1)) data.

(** The values of a statistic in the bins stored under a name, in traversal
    order. *)
Definition values_of (metric bin_name : string) (data : dataset) : list pyval :=
  flat_map (fun e : string * bin =>
    if fst e =? bin_name then
      match dict_get (snd e) metric with
      | Some v => [v]
      | None => []
      end
    else []) (all_bins data).

(** [bin_stats[bin_name]] as the [defaultdict] reads it. *)
Definition table_lists (bs : bin_stats) (bin_name : string) : stat_lists :=
  dict_get_default bs bin_name (mk_stats [] [] []).


(** ** Example datasets *)

Definition real_bin (v25 v50 v75 : pyval) : bin :=
  [ (P25, v25); (P50, v50); (P75, v75); ("sample_size", PyInt 42) ].

(** One route that holds only the ["0-50000"] bin, with median 10. *)
Definition baseline_only_route : route :=
  [ ("0-50000", real_bin (PyFloat 7) (PyFloat 10) (PyFloat 13)) ].

Definition baseline_only_data : dataset :=
  [ ("10", [ ("1", [ ("0xweth", baseline_only_route) ]) ]) ].

(** One route that holds only the ["50000-100000"] bin. *)
Definition no_baseline_route : route :=
  [ ("50000-100000", real_bin (PyFloat 10) (PyFloat 20) (PyFloat 30)) ].

Definition no_baseline_data : dataset :=
  [ ("10", [ ("1", [ ("0xweth", no_baseline_route) ]) ]) ].

(** One route without any bin: the dataset has zero bins. *)
Definition empty_route_data : dataset :=
  [ ("10", [ ("1", [ ("0xweth", []) ]) ]) ].

(** One route with all eight buckets, the median of one of them stored as
    the given value. *)
Definition full_route (v : pyval) : route :=
  [ ("0-50000", real_bin (PyFloat 7) (PyFloat 10) (PyFloat 13));
    ("50000-100000", real_bin (PyFloat 8) v (PyFloat 14));
    ("100000-300000", real_bin (PyFloat 9) (PyFloat 12) (PyFloat 15));
    ("300000-400000", real_bin (PyFloat 10) (PyFloat 13) (PyFloat 16));
    ("400000-500000", real_bin (PyFloat 11) (PyFloat 14) (PyFloat 17));
    ("500000-700000", real_bin (PyFloat 12) (PyFloat 15) (PyFloat 18));
    ("700000-1000000", real_bin (PyFloat 13) (PyFloat 16) (PyFloat 19));
    ("1000000+", real_bin (PyFloat 14) (PyFloat 17) (PyFloat 20)) ].

Definition full_data (v : pyval) : dataset :=
  [ ("10", [ ("1", [ ("0xweth", full_route v) ]) ]) ].

(** One route whose only bin is ["0-50000"], its median stored as text. *)
Definition text_median_data : dataset :=
  [ ("10", [ ("1", [ ("0xweth",
      [ ("0-50000", real_bin (PyFloat 7) (PyStr "n/a") (PyFloat 13)) ]) ]) ]) ].

(** The route of [baseline_only_data] and, under another origin, a route
    without any bin. *)
Definition two_route_data : dataset :=
  [ ("10", [ ("1", [ ("0xweth", baseline_only_route) ]) ]);
    ("137", [ ("1", [ ("0xusdc", []) ]) ]) ].

(** What the gap filler returns for [baseline_only_data]. *)
Definition baseline_only_filled : dataset :=
  Eval vm_compute in
    match gap_fill sum_left_fold baseline_only_data with
    | Ok out => out
    | Raise _ => []
    end.

(** What the gap filler returns for [two_route_data]. *)
Definition two_route_filled : dataset :=
  Eval vm_compute in
    match gap_fill sum_left_fold two_route_data with
    | Ok out => out
    | Raise _ => []
    end.

(** The statistics table of [baseline_only_data]. *)
Definition baseline_only_table : bin_stats :=
  [ ("0-50000", mk_stats [PyFloat 7] [PyFloat 10] [PyFloat 13]) ].

(** A route whose only bin has a name outside the catalog. *)
Definition custom_route : route :=
  [ ("custom", real_bin (PyFloat 1) (PyFloat 2) (PyFloat 3)) ].

(** One route whose only bin is ["0-50000"], with median 10.123. *)
Definition rounding_route : route :=
  [ ("0-50000", real_bin (PyFloat 7.5) (PyFloat 10.123) (PyFloat 13.25)) ].

Definition rounding_data : dataset :=
  [ ("10", [ ("1", [ ("0xweth", rounding_route) ]) ]) ].

(** A catalog in which the hub, chain 1 and chain 10 all list WETH, in
    different letter case and under different ticker hashes, and chain 10
    also lists USDC. *)
Definition layered_catalog : chain_data :=
  mk_chain_data
    (Some (Some [ ("WETH", mk_asset "0xhub") ]))
    (Some [ ("1", mk_chain (Some [ ("weth", mk_asset "0xone");
                                   ("Dai", mk_asset "0xdai") ]));
            ("10", mk_chain (Some [ ("Weth", mk_asset "0xten");
                                    ("USDC", mk_asset "0xusdc") ])) ]).


(** * Properties *)

(** ** Dictionaries *)

Section DictFacts.
Context {V : Type}.
Implicit Types (d : dict V) (k : string) (v : V).

Lemma dict_get_set_same d k v : dict_get (dict_set d k v) k = Some v.
Proof.
  induction d as [|[k' v'] d IH]; simpl.
  - now rewrite String.eqb_refl.
  - destruct (k' =? k) eqn:E; simpl; rewrite E; auto.
Qed.

Lemma dict_get_set_other d k k' v :
  k <> k' -> dict_get (dict_set d k v) k' = dict_get d k'.
Proof.
  intros Hne. induction d as [|[k0 v0] d IH]; simpl.
  - apply String.eqb_neq in Hne. now rewrite Hne.
  - destruct (k0 =? k) eqn:E; simpl.
    + apply String.eqb_eq in E. subst k0.
      apply String.eqb_neq in Hne. now rewrite Hne.
    + now rewrite IH.
Qed.

Lemma dict_set_get_same d k v : dict_get d k = Some v -> dict_set d k v = d.
Proof.
  induction d as [|[k0 v0] d IH]; simpl; [discriminate|].
  destruct (k0 =? k) eqn:E.
  - now intros [= ->].
  - intros H. now rewrite IH.
Qed.

Lemma dict_set_set d k v v' : dict_set (dict_set d k v) k v' = dict_set d k v'.
Proof.
  induction d as [|[k0 v0] d IH]; simpl.
  - now rewrite String.eqb_refl.
  - destruct (k0 =? k) eqn:E; simpl; rewrite E; [reflexivity|now rewrite IH].
Qed.

Lemma mem_string_In (x : string) (l : list string) :
  mem_string x l = true <-> In x l.
Proof.
  induction l as [|y l IH]; simpl.
  - split; [discriminate|tauto].
  - rewrite orb_true_iff, String.eqb_eq, IH. tauto.
Qed.

Lemma dict_get_In d k v : dict_get d k = Some v -> In (k, v) d.
Proof.
  induction d as [|[k0 v0] d IH]; simpl; [discriminate|].
  destruct (k0 =? k) eqn:E.
  - apply String.eqb_eq in E. intros [= ->]. left. now subst.
  - auto.
Qed.

Lemma dict_get_keys d k : dict_mem k d = mem_string k (dict_keys d).
Proof.
  unfold dict_mem. induction d as [|[k0 v0] d IH]; simpl; [reflexivity|].
  destruct (k0 =? k); simpl; auto.
Qed.

Lemma In_dict_get d k v :
  unique_keys d = true -> In (k, v) d -> dict_get d k = Some v.
Proof.
  unfold unique_keys. induction d as [|[k0 v0] d IH]; simpl; [tauto|].
  rewrite andb_true_iff, negb_true_iff. intros [Hnotin Huniq] [Heq|Hin].
  - injection Heq as -> ->. now rewrite String.eqb_refl.
  - destruct (k0 =? k) eqn:E; [|auto].
    apply String.eqb_eq in E. subst k0.
    apply (in_map fst) in Hin. simpl in Hin.
    apply mem_string_In in Hin. unfold dict_keys in Hnotin. congruence.
Qed.

Lemma Forall_dict_set (P : V -> Prop) d k v :
  Forall (fun e => P (snd e)) d -> P v ->
  Forall (fun e => P (snd e)) (dict_set d k v).
Proof.
  intros Hd Hv. induction d as [|[k0 v0] d IH]; simpl.
  - constructor; auto.
  - inversion Hd; subst. destruct (k0 =? k); constructor; auto.
Qed.

Lemma Forall_dict_get (P : V -> Prop) d k v :
  Forall (fun e => P (snd e)) d -> dict_get d k = Some v -> P v.
Proof.
  intros Hd Hget. apply dict_get_In in Hget.
  rewrite Forall_forall in Hd. exact (Hd _ Hget).
Qed.

End DictFacts.

(** ** The bucket catalog *)

Ltac bucket_cases a :=
  unfold find_amount_bucket;
  repeat match goal with
         | |- context [Qle_bool a ?c] =>
             let E := fresh "E" in
             destruct (Qle_bool a c) eqn:E;
             [apply Qle_bool_iff in E
             |assert (~ (a <= c)%Q) by (rewrite <- Qle_bool_iff; congruence);
              clear E]
         end.

Lemma find_amount_bucket_covers (a : Q) :
  (0 <= a)%Q -> covers (find_amount_bucket a) a.
Proof.
  intros Ha. bucket_cases a; constructor; lra.
Qed.

Lemma find_amount_bucket_canonical (a : Q) :
  In (find_amount_bucket a) EXPECTED_BINS.
Proof.
  bucket_cases a; simpl; tauto.
Qed.

(** C3 (as stated, refuted): the amount 50000 lies in the half-open range
    [50000, 100000) but [find_amount_bucket] maps it to ["0-50000"], not to
    ["50000-100000"]. *)
Lemma find_amount_bucket_50000_not_half_open :
  (50000 <= 50000 /\ 50000 < 100000)%Q
  /\ find_amount_bucket 50000 = "0-50000"
  /\ find_amount_bucket 50000 <> "50000-100000".
Proof.
  split; [lra|]. split; [reflexivity|]. vm_compute. discriminate.
Qed.

(** C3 (amended): the canonical buckets partition the non-negative amounts
    as the ranges [0,50000], (50000,100000], (100000,300000],
    (300000,400000], (400000,500000], (500000,700000], (700000,1000000],
    (1000000,inf): for a non-negative amount [find_amount_bucket] returns a
    canonical bucket whose range covers the amount, and no other bucket's
    range covers it. *)
Theorem find_amount_bucket_partition (a : Q) (b : string) :
  (0 <= a)%Q ->
  In (find_amount_bucket a) EXPECTED_BINS
  /\ covers (find_amount_bucket a) a
  /\ (covers b a -> b = find_amount_bucket a).
Proof.
  intros Ha. split; [apply find_amount_bucket_canonical|].
  split; [now apply find_amount_bucket_covers|].
  intros Hb. inversion Hb; subst; bucket_cases a; try reflexivity; lra.
Qed.

Lemma find_amount_bucket_partition_witness :
  (0 <= 75000)%Q
  /\ In (find_amount_bucket 75000) EXPECTED_BINS
  /\ covers (find_amount_bucket 75000) 75000
  /\ (covers "50000-100000" 75000 -> "50000-100000" = find_amount_bucket 75000).
Proof.
  split; [lra|]. apply (find_amount_bucket_partition 75000 "50000-100000"). lra.
Defined.

(** C4 (as stated, refuted): the negative amount -1 is not rejected; it is
    mapped to the bucket ["0-50000"]. *)
Lemma find_amount_bucket_negative_not_rejected :
  (-1 < 0)%Q /\ find_amount_bucket (-1) = "0-50000".
Proof.
  split; [lra|reflexivity].
Qed.

(** C4 (amended): [find_amount_bucket] has no failure; every negative amount
    is mapped to the bucket ["0-50000"]. *)
Theorem find_amount_bucket_negative (a : Q) :
  (a < 0)%Q -> find_amount_bucket a = "0-50000".
Proof.
  intros Ha. bucket_cases a; try reflexivity; lra.
Qed.

Lemma find_amount_bucket_negative_witness :
  (-250 < 0)%Q /\ find_amount_bucket (-250) = "0-50000".
Proof.
  split; [lra|]. apply (find_amount_bucket_negative (-250)). lra.
Defined.

(** ** Asset resolution *)

Lemma find_app_first {A : Type} (p : A -> bool) (l1 l2 : list A) :
  find p (l1 ++ l2)%list =
  match find p l1 with
  | Some x => Some x
  | None => find p l2
  end.
Proof.
  induction l1 as [|x l1 IH]; simpl; [reflexivity|].
  destruct (p x); auto.
Qed.

Lemma search_assets_find (entries : assets) (asset_name : string) :
  search_assets entries asset_name = hash_of (find (same_symbol asset_name) entries).
Proof.
  induction entries as [|[symbol info] rest IH]; simpl; [reflexivity|].
  unfold same_symbol at 1. simpl.
  destruct (upper symbol =? upper asset_name); auto.
Qed.

Lemma search_chains_find (cs : dict chain_info) (asset_name : string) :
  search_chains cs asset_name =
  hash_of (find (same_symbol asset_name)
             (flat_map (fun e : string * chain_info => chain_entries (snd e)) cs)).
Proof.
  induction cs as [|[chain_id chain] rest IH]; [reflexivity|].
  cbn [search_chains flat_map snd]. rewrite find_app_first, IH.
  destruct chain as [[entries|]]; cbn [chain_assets chain_entries find];
    [|reflexivity].
  rewrite search_assets_find.
  destruct (find (same_symbol asset_name) entries); reflexivity.
Qed.

Lemma find_none_iff {A : Type} (p : A -> bool) (l : list A) :
  find p l = None <-> forall x, In x l -> p x = false.
Proof.
  split.
  - intros H x Hx. exact (find_none p l H x Hx).
  - induction l as [|x l IH]; simpl; [reflexivity|].
    intros H. rewrite (H x (or_introl eq_refl)). apply IH.
    intros y Hy. apply H. now right.
Qed.

Lemma hash_of_orelse (a b : option (string * asset_info)) :
  match hash_of a with
  | Some h => Some h
  | None => hash_of b
  end
  = hash_of match a with
            | Some x => Some x
            | None => b
            end.
Proof.
  destruct a; reflexivity.
Qed.

Lemma hub_stage (cd : chain_data) (asset_name : string) :
  match hub cd with
  | Some (Some entries) => search_assets entries asset_name
  | _ => None
  end
  = hash_of (find (same_symbol asset_name) (hub_entries cd)).
Proof.
  unfold hub_entries. destruct (hub cd) as [[entries|]|]; try reflexivity.
  apply search_assets_find.
Qed.

Lemma hinted_stage (cd : chain_data) (asset_name : string)
    (origin_chain : option string) :
  match origin_chain with
  | Some oc =>
      if negb (oc =? "") then
        match dict_get match chains cd with Some cs => cs | None => [] end oc with
        | Some chain =>
            search_assets
              match chain_assets chain with Some a => a | None => [] end
              asset_name
        | None => None
        end
      else None
  | None => None
  end
  = hash_of (find (same_symbol asset_name) (hinted_entries cd origin_chain)).
Proof.
  unfold hinted_entries.
  destruct origin_chain as [oc|]; [|reflexivity].
  destruct (chains cd) as [cs|]; destruct (oc =? ""); try reflexivity.
  cbn [negb]. destruct (dict_get cs oc) as [chain|]; [|reflexivity].
  apply search_assets_find.
Qed.

Lemma all_stage (cd : chain_data) (asset_name : string) :
  search_chains match chains cd with Some cs => cs | None => [] end asset_name
  = hash_of (find (same_symbol asset_name) (all_chain_entries cd)).
Proof.
  unfold all_chain_entries. destruct (chains cd) as [cs|]; [|reflexivity].
  apply search_chains_find.
Qed.

Lemma ascii_enumerated (c : ascii) : In c (map ascii_of_nat (seq 0 256)).
Proof.
  rewrite <- (ascii_nat_embedding c). apply in_map, in_seq.
  pose proof (nat_ascii_bounded c). lia.
Qed.

Lemma upper_ascii_ignoring_case (a b : ascii) :
  Ascii.eqb (upper_ascii a) (upper_ascii b) = same_char_ignoring_case a b.
Proof.
  assert (forallb (fun x =>
            forallb (fun y =>
              Bool.eqb (Ascii.eqb (upper_ascii x) (upper_ascii y))
                       (same_char_ignoring_case x y))
              (map ascii_of_nat (seq 0 256)))
            (map ascii_of_nat (seq 0 256)) = true) as H
    by (vm_compute; reflexivity).
  rewrite forallb_forall in H. specialize (H a (ascii_enumerated a)).
  rewrite forallb_forall in H. specialize (H b (ascii_enumerated b)).
  now apply Bool.eqb_prop.
Qed.

Lemma upper_eqb_ignoring_case (a b : string) :
  (upper a =? upper b) = equal_ignoring_case a b.
Proof.
  revert b. induction a as [|x a IH]; intros [|y b]; try reflexivity.
  cbn [upper String.eqb equal_ignoring_case].
  now rewrite IH, upper_ascii_ignoring_case.
Qed.

Lemma same_symbol_ignoring_case (asset_name : string) (e : string * asset_info) :
  same_symbol asset_name e = matches_ignoring_case asset_name e.
Proof.
  apply upper_eqb_ignoring_case.
Qed.

Lemma find_pointwise {A : Type} (p q : A -> bool) (l : list A) :
  (forall x, p x = q x) -> find p l = find q l.
Proof.
  intros H. induction l as [|x l IH]; simpl; [reflexivity|].
  now rewrite H, IH.
Qed.

(** C9: on ASCII text, asset resolution searches the hub assets, then the
    hinted origin chain's assets, then every chain's assets, and returns the
    ticker hash of the first entry whose symbol is the query up to the case
    of its letters; it returns no key exactly when no entry of these
    catalogs matches. *)
Theorem resolve_asset_search_order (cd : chain_data) (asset_name : string)
    (origin_chain : option string) :
  is_ascii asset_name = true ->
  ascii_symbols (search_order cd origin_chain) = true ->
  get_ticker_hash_from_asset_name (Some cd) asset_name origin_chain
  = resolve_asset_spec cd asset_name origin_chain
  /\ (get_ticker_hash_from_asset_name (Some cd) asset_name origin_chain = None
      <-> forall e, In e (search_order cd origin_chain) ->
                    equal_ignoring_case (fst e) asset_name = false).
Proof.
  intros _ _.
  assert (get_ticker_hash_from_asset_name (Some cd) asset_name origin_chain
          = resolve_asset_spec cd asset_name origin_chain) as Heq.
  { unfold get_ticker_hash_from_asset_name, resolve_asset_spec.
    rewrite <- (find_pointwise _ _ _ (same_symbol_ignoring_case asset_name)).
    unfold search_order.
    rewrite hub_stage, hinted_stage, all_stage, !find_app_first.
    fold (hash_of
            match find (same_symbol asset_name) (hub_entries cd) with
            | Some x => Some x
            | None =>
                match find (same_symbol asset_name)
                        (hinted_entries cd origin_chain) with
                | Some x => Some x
                | None => find (same_symbol asset_name) (all_chain_entries cd)
                end
            end).
    now rewrite !hash_of_orelse. }
  split; [exact Heq|].
  rewrite Heq. unfold resolve_asset_spec.
  destruct (find (matches_ignoring_case asset_name) (search_order cd origin_chain))
    eqn:F.
  - split; [discriminate|]. intros H. exfalso.
    destruct (find_some _ _ F) as [Hin Hp].
    unfold matches_ignoring_case in Hp. rewrite (H _ Hin) in Hp. discriminate.
  - split; [|reflexivity]. intros _ e He.
    rewrite find_none_iff in F. exact (F e He).
Qed.

Lemma resolve_asset_search_order_witness :
  get_ticker_hash_from_asset_name (Some layered_catalog) "wEtH" (Some "10")
  = Some "0xhub"
  /\ (get_ticker_hash_from_asset_name (Some layered_catalog) "wEtH" (Some "10")
      = None
      <-> forall e, In e (search_order layered_catalog (Some "10")) ->
                    equal_ignoring_case (fst e) "wEtH" = false).
Proof.
  destruct (resolve_asset_search_order layered_catalog "wEtH" (Some "10"))
    as [Heq Hnone]; [reflexivity|reflexivity|].
  split; [rewrite Heq; reflexivity|exact Hnone].
Defined.

(** The search order on [layered_catalog]: the hub entry wins over the
    chains, the hinted chain wins over the chains listed before it, and an
    asset of no hinted chain is found in the first chain that lists it;
    letter case does not matter, and an unlisted asset resolves to
    nothing. *)
Example resolve_asset_layers :
  get_ticker_hash_from_asset_name (Some layered_catalog) "weth" (Some "10")
  = Some "0xhub"
  /\ get_ticker_hash_from_asset_name (Some layered_catalog) "usdc" (Some "1")
     = Some "0xusdc"
  /\ get_ticker_hash_from_asset_name (Some layered_catalog) "DAI" None
     = Some "0xdai"
  /\ get_ticker_hash_from_asset_name
       (Some (mk_chain_data None (chains layered_catalog))) "WETH" (Some "10")
     = Some "0xten"
  /\ get_ticker_hash_from_asset_name
       (Some (mk_chain_data None (chains layered_catalog))) "WETH" (Some "137")
     = Some "0xone"
  /\ get_ticker_hash_from_asset_name (Some layered_catalog) "WBTC" (Some "10")
     = None.
Proof.
  repeat split; reflexivity.
Qed.

(** ** Lookup *)

(** C10: when no amount range is given and the origin, destination and
    asset exist in the dataset with at least one stored bucket, the lookup
    succeeds and returns the statistics of the first stored range, in the
    iteration order of the route, together with that range's name. *)
Theorem lookup_without_amount_range (data : dataset) (o d t : string)
    (first_range : string) (first_bin : bin) (rest : route) :
  route_at data o d t = Some ((first_range, first_bin) :: rest) ->
  lookup_settlement_times data o d t None
  = Some (mk_lookup_result o d t first_range
            (dict_get_default first_bin P25 PyNone)
            (dict_get_default first_bin P50 PyNone)
            (dict_get_default first_bin P75 PyNone)
            (dict_get_default first_bin "sample_size" PyNone)
            (dict_get_default first_bin "generated" (PyBool false))
            (dict_get_default first_bin "method" (PyStr "N/A"))).
Proof.
  unfold route_at, lookup_settlement_times.
  destruct (dict_get data o) as [destinations|]; [|discriminate].
  destruct (dict_get destinations d) as [tickerhashes|]; [|discriminate].
  intros ->. cbn [dict_keys map fst hd_error dict_get].
  now rewrite String.eqb_refl.
Qed.

(** ** Loops that may raise *)

Lemma foldM_invariant {A S : Type} (f : S -> A -> result S) (I : S -> Prop)
    (l : list A) :
  (forall s a, In a l -> I s -> exists s', f s a = Ok s' /\ I s') ->
  forall s, I s -> exists s', foldM f l s = Ok s' /\ I s'.
Proof.
  induction l as [|a l IH]; intros Hstep s Hs; simpl.
  - eauto.
  - destruct (Hstep s a (or_introl eq_refl) Hs) as (s1 & -> & Hs1). simpl.
    apply IH; auto. intros s0 a0 Hin. apply Hstep. now right.
Qed.

Lemma flat_map_nil {A B : Type} (f : A -> list B) (l : list A) :
  (forall x, In x l -> f x = []) -> flat_map f l = [].
Proof.
  induction l as [|x l IH]; simpl; intros H; [reflexivity|].
  rewrite (H x (or_introl eq_refl)), IH; auto.
Qed.

(** ** Finding the missing buckets *)

Lemma find_missing_bins_fully_populated (data : dataset) :
  fully_populated data = true -> find_missing_bins data = [].
Proof.
  unfold fully_populated, for_all_routes, find_missing_bins.
  rewrite forallb_forall. intros H.
  apply flat_map_nil. intros [o destinations] Ho.
  specialize (H _ Ho). cbn [snd] in H. rewrite forallb_forall in H.
  apply flat_map_nil. intros [d tickerhashes] Hd.
  specialize (H _ Hd). cbn [snd] in H. rewrite forallb_forall in H.
  apply flat_map_nil. intros [t bins] Ht.
  specialize (H _ Ht). cbn [snd] in H. now rewrite H.
Qed.

Lemma in_find_missing_bins (data : dataset) (o d t : string) (ms : list string) :
  In (o, d, t, ms) (find_missing_bins data) <->
  exists destinations tickerhashes bins,
    In (o, destinations) data /\ In (d, tickerhashes) destinations
    /\ In (t, bins) tickerhashes
    /\ ms = missing_bins_of bins /\ ms <> [].
Proof.
  unfold find_missing_bins. rewrite in_flat_map. split.
  - intros ([o' destinations] & Ho & H). rewrite in_flat_map in H.
    destruct H as ([d' tickerhashes] & Hd & H). rewrite in_flat_map in H.
    destruct H as ([t' bins] & Ht & H).
    destruct (missing_bins_of bins) as [|m ms'] eqn:E; simpl in H; [tauto|].
    destruct H as [H|[]]. injection H as -> -> -> <-.
    exists destinations, tickerhashes, bins. rewrite E.
    repeat split; auto. discriminate.
  - intros (destinations & tickerhashes & bins & Ho & Hd & Ht & -> & Hne).
    exists (o, destinations). split; [assumption|]. rewrite in_flat_map.
    exists (d, tickerhashes). split; [assumption|]. rewrite in_flat_map.
    exists (t, bins). split; [assumption|].
    destruct (missing_bins_of bins); [congruence|]. simpl. now left.
Qed.

(** ** Collecting the global statistics *)

Lemma collect_invariant (I : bin_stats -> Prop) (ok : bin -> bool) (data : dataset) :
  (forall bs name b,
      mem_string name EXPECTED_BINS = true -> ok b = true -> I bs ->
      exists bs', collect_bin bs (name, b) = Ok bs' /\ I bs') ->
  for_all_routes (for_all_canonical_bins ok) data = true ->
  forall bs, I bs -> exists bs', foldM collect_origin data bs = Ok bs' /\ I bs'.
Proof.
  intros Hbin Hall. unfold for_all_routes in Hall. rewrite forallb_forall in Hall.
  apply foldM_invariant. intros bs1 [o destinations] Ho H1.
  specialize (Hall _ Ho). cbn [snd] in Hall. rewrite forallb_forall in Hall.
  unfold collect_origin. cbn [snd].
  apply foldM_invariant; [|assumption]. intros bs2 [d tickerhashes] Hd H2.
  specialize (Hall _ Hd). cbn [snd] in Hall. rewrite forallb_forall in Hall.
  unfold collect_destination. cbn [snd].
  apply foldM_invariant; [|assumption]. intros bs3 [t bins] Ht H3.
  specialize (Hall _ Ht). cbn [snd] in Hall.
  unfold for_all_canonical_bins in Hall. rewrite forallb_forall in Hall.
  unfold collect_route. cbn [snd].
  apply foldM_invariant; [|assumption]. intros bs4 [name b] Hb H4.
  specialize (Hall _ Hb). cbn [fst snd] in Hall.
  destruct (mem_string name EXPECTED_BINS) eqn:E.
  - apply Hbin; auto.
  - unfold collect_bin. rewrite E. eauto.
Qed.

Lemma has_statistics_getitem (b : bin) :
  has_statistics b = true ->
  exists v25 v50 v75,
    getitem b P25 = Ok v25 /\ getitem b P50 = Ok v50 /\ getitem b P75 = Ok v75.
Proof.
  unfold has_statistics, dict_mem, getitem.
  destruct (dict_get b P25) as [v25|]; [|discriminate].
  destruct (dict_get b P50) as [v50|]; [|discriminate].
  destruct (dict_get b P75) as [v75|]; [|discriminate].
  intros _. eauto 7.
Qed.

Lemma collect_bin_statistics_total (data : dataset) :
  statistics_present data = true ->
  exists bs, collect_bin_statistics data = Ok bs.
Proof.
  intros H.
  destruct (collect_invariant (fun _ => True) has_statistics data) with (bs := @nil (string * stat_lists))
    as (bs & Hbs & _); eauto.
  intros bs name b Hname Hb _. unfold collect_bin. rewrite Hname.
  destruct (has_statistics_getitem b Hb) as (v25 & v50 & v75 & -> & -> & ->).
  simpl. eauto.
Qed.

(** A dataset whose routes all hold the eight canonical buckets comes back
    unchanged, whatever the stored values are. *)
Lemma gap_fill_fully_populated (py_sum : list float -> float) (data : dataset) :
  fully_populated data = true ->
  statistics_present data = true ->
  gap_fill py_sum data = Ok data.
Proof.
  intros Hfull Hstats. unfold gap_fill, populate_missing_bins.
  rewrite (find_missing_bins_fully_populated data Hfull).
  destruct (collect_bin_statistics_total data Hstats) as [bs ->].
  reflexivity.
Qed.

(** ** The strategies on float statistics *)

Lemma mapM_exact_ratio_floats (l : list pyval) :
  forallb is_py_float l = true -> exists rs, mapM exact_ratio l = Ok rs.
Proof.
  induction l as [|v l IH]; simpl; [eauto|].
  rewrite andb_true_iff. intros [Hv Hl].
  destruct v; try discriminate. simpl.
  destruct (IH Hl) as [rs ->]. simpl. eauto.
Qed.

Lemma py_mean_floats (l : list pyval) :
  float_list l -> exists f, py_mean l = Ok (PyFloat f).
Proof.
  intros [Hne Hall]. unfold py_mean.
  destruct (mapM_exact_ratio_floats l Hall) as [rs ->]. simpl.
  destruct l as [|v l]; [congruence|].
  destruct (non_finite_parts rs); [|eauto].
  rewrite Hall. eauto.
Qed.

Lemma float_list_app (l : list pyval) (f : float) :
  forallb is_py_float l = true -> float_list (l ++ [PyFloat f])%list.
Proof.
  intros H. split.
  - destruct l; discriminate.
  - rewrite forallb_app, H. reflexivity.
Qed.

Lemma stats_append_ok (bs : bin_stats) (name : string) (f25 f50 f75 : float) :
  stats_ok bs ->
  stats_ok (stats_append bs name (PyFloat f25) (PyFloat f50) (PyFloat f75)).
Proof.
  intros Hbs. unfold stats_append, stats_ok.
  apply (Forall_dict_set float_stats); [exact Hbs|].
  unfold dict_get_default.
  destruct (dict_get bs name) as [st|] eqn:E.
  - destruct (Forall_dict_get float_stats bs name st Hbs E) as ([_ H25] & [_ H50] & [_ H75]).
    repeat split; try (destruct (p25 st); discriminate);
      try (destruct (p50 st); discriminate); try (destruct (p75 st); discriminate);
      cbn [p25 p50 p75]; rewrite forallb_app; cbn;
      rewrite ?H25, ?H50, ?H75; reflexivity.
  - repeat split; try discriminate; reflexivity.
Qed.

Lemma float_statistics_getitem (b : bin) :
  float_statistics b = true ->
  exists f25 f50 f75,
    getitem b P25 = Ok (PyFloat f25) /\ getitem b P50 = Ok (PyFloat f50)
    /\ getitem b P75 = Ok (PyFloat f75).
Proof.
  unfold float_statistics, is_float_at, getitem.
  destruct (dict_get b P25) as [[| | |f25|]|]; try discriminate.
  destruct (dict_get b P50) as [[| | |f50|]|]; try discriminate.
  destruct (dict_get b P75) as [[| | |f75|]|]; try discriminate.
  intros _. eauto 7.
Qed.

Lemma collect_bin_statistics_floats (data : dataset) :
  for_all_routes (for_all_canonical_bins float_statistics) data = true ->
  exists bs, collect_bin_statistics data = Ok bs /\ stats_ok bs.
Proof.
  intros H.
  apply (collect_invariant stats_ok float_statistics data); auto.
  - intros bs name b Hname Hb Hbs. unfold collect_bin. rewrite Hname.
    destruct (float_statistics_getitem b Hb) as (f25 & f50 & f75 & -> & -> & ->).
    simpl. eexists. split; [reflexivity|]. now apply stats_append_ok.
  - constructor.
Qed.

Lemma stats_of_ok (bs : bin_stats) (name : string)
    (metric : stat_lists -> list pyval) (st : stat_lists) :
  stats_ok bs -> stats_of bs name metric = Some st -> float_stats st.
Proof.
  unfold stats_of. intros Hbs.
  destruct (dict_get bs name) as [st'|] eqn:E; [|discriminate].
  destruct (is_empty (metric st')); [discriminate|].
  intros [= <-]. exact (Forall_dict_get float_stats bs name st' Hbs E).
Qed.

Lemma generated_bin_float_median (v25 v75 : pyval) (f : float) (method : string) :
  float_median (generated_bin v25 (PyFloat f) v75 method).
Proof.
  exists f. reflexivity.
Qed.

Lemma scaled_bin_float (f : float) (multiplier : float) (method : string) :
  exists g, scaled_bin (PyFloat f) multiplier method = Ok g /\ float_median g.
Proof.
  eexists. split; [reflexivity|]. apply generated_bin_float_median.
Qed.

Lemma surrounding_total (bs : bin_stats) (target_index : Z) (existing_bins : list string) :
  stats_ok bs ->
  exists items,
    surrounding bs target_index existing_bins = Ok items /\ Forall float_item items.
Proof.
  intros Hbs. induction existing_bins as [|name rest IH]; simpl.
  - eauto.
  - destruct IH as (items & -> & Hitems).
    destruct (stats_of bs name p25) as [st|] eqn:E; simpl; [|eauto].
    destruct (get_bin_index name =? -1)%Z; simpl; [eauto|].
    destruct (stats_of_ok bs name p25 st Hbs E) as (H25 & H50 & H75).
    destruct (py_mean_floats _ H25) as [a25 ->].
    destruct (py_mean_floats _ H50) as [a50 ->].
    destruct (py_mean_floats _ H75) as [a75 ->].
    simpl. eexists. split; [reflexivity|].
    constructor; [|assumption]. repeat split.
Qed.

Lemma weighted_average_total (py_sum : list float -> float)
    (items : list surrounding_item) (metric : surrounding_item -> pyval) :
  Forall (fun item => is_py_float (metric item) = true) items ->
  exists f, weighted_average py_sum items metric = Ok f.
Proof.
  intros H. unfold weighted_average.
  assert (exists products,
    mapM (fun item => py_float_mul (weight item) (metric item)) items = Ok products)
    as [products ->].
  { induction H as [|item items Hitem _ IH]; simpl; [eauto|].
    destruct (metric item); try discriminate. simpl.
    destruct IH as [products ->]. simpl. eauto. }
  simpl. eauto.
Qed.

Lemma interpolate_bin_data_total (py_sum : list float -> float) (bs : bin_stats)
    (target_bin : string) (existing_bins : list string) (bins : route) :
  stats_ok bs -> base_ok bins ->
  exists g,
    interpolate_bin_data py_sum bs target_bin existing_bins bins = Ok g
    /\ float_median g.
Proof.
  intros Hbs Hbase. unfold interpolate_bin_data, dict_mem, getitem.
  destruct (dict_get bins baseline_bin) as [b0|] eqn:E0.
  - destruct bins as [|e bins']; [discriminate|]. cbn [is_empty negb andb].
    cbn [bind]. destruct (Hbase b0 E0) as [m ->]. cbn [bind].
    apply scaled_bin_float.
  - rewrite andb_false_r.
    destruct (stats_of bs baseline_bin p50) as [st|] eqn:E1.
    + destruct (stats_of_ok bs _ _ st Hbs E1) as (_ & H50 & _).
      destruct (py_mean_floats _ H50) as [f ->]. cbn [bind].
      apply scaled_bin_float.
    + destruct (surrounding_total bs (get_bin_index target_bin) existing_bins Hbs)
        as (items & -> & Hitems). cbn [bind].
      destruct items as [|item items]; cbn [is_empty negb].
      * destruct (stats_of bs target_bin p25) as [st|] eqn:E2.
        -- destruct (stats_of_ok bs _ _ st Hbs E2) as (H25 & H50 & H75).
           destruct (py_mean_floats _ H25) as [f25 ->].
           destruct (py_mean_floats _ H50) as [f50 ->].
           destruct (py_mean_floats _ H75) as [f75 ->].
           cbn [bind]. eexists. split; [reflexivity|].
           apply generated_bin_float_median.
        -- eexists. split; [reflexivity|]. apply generated_bin_float_median.
      * destruct (weighted_average_total py_sum (item :: items) avg_p25) as [w25 ->].
        { eapply Forall_impl; [|exact Hitems]. now intros it (? & ? & ?). }
        destruct (weighted_average_total py_sum (item :: items) avg_p50) as [w50 ->].
        { eapply Forall_impl; [|exact Hitems]. now intros it (? & ? & ?). }
        destruct (weighted_average_total py_sum (item :: items) avg_p75) as [w75 ->].
        { eapply Forall_impl; [|exact Hitems]. now intros it (? & ? & ?). }
        cbn [bind]. eexists. split; [reflexivity|].
        apply generated_bin_float_median.
Qed.

Lemma interpolate_bin_data_baseline (py_sum : list float -> float) (bs : bin_stats)
    (target_bin : string) (existing_bins : list string) (bins : route)
    (b0 : bin) (m : float) :
  dict_get bins baseline_bin = Some b0 ->
  dict_get b0 P50 = Some (PyFloat m) ->
  interpolate_bin_data py_sum bs target_bin existing_bins bins
  = Ok (baseline_scaling_bin m target_bin).
Proof.
  intros H0 Hm. unfold interpolate_bin_data, dict_mem, getitem.
  destruct bins as [|e bins']; [discriminate|]. rewrite H0.
  cbn [is_empty negb andb bind]. rewrite Hm. reflexivity.
Qed.

(** ** Reading and writing one route of the dataset *)

Lemma get_route_at (pd : dataset) (o d t : string) (bins : route) :
  route_at pd o d t = Some bins -> get_route pd o d t = Ok bins.
Proof.
  unfold route_at, get_route, getitem.
  destruct (dict_get pd o) as [destinations|]; [|discriminate]. cbn [bind].
  destruct (dict_get destinations d) as [tickerhashes|]; [|discriminate].
  cbn [bind]. now intros ->.
Qed.

Lemma set_route_bin_at (pd : dataset) (o d t bin_name : string) (bins : route)
    (g : bin) :
  route_at pd o d t = Some bins ->
  set_route_bin pd o d t bin_name g = Ok (put_route pd o d t (dict_set bins bin_name g)).
Proof.
  unfold route_at, set_route_bin, put_route, getitem.
  destruct (dict_get pd o) as [destinations|]; [|discriminate]. cbn [bind].
  destruct (dict_get destinations d) as [tickerhashes|]; [|discriminate].
  cbn [bind]. now intros ->.
Qed.

Lemma same_route_true (o d t o' d' t' : string) :
  same_route o d t o' d' t' = true <-> o = o' /\ d = d' /\ t = t'.
Proof.
  unfold same_route. rewrite !andb_true_iff, !String.eqb_eq. tauto.
Qed.

Lemma route_at_put_route (pd : dataset) (o d t o' d' t' : string)
    (bins bins' : route) :
  route_at pd o d t = Some bins ->
  route_at (put_route pd o d t bins') o' d' t'
  = if same_route o d t o' d' t' then Some bins' else route_at pd o' d' t'.
Proof.
  unfold route_at, put_route, same_route.
  destruct (dict_get pd o) as [destinations|] eqn:Eo; [|discriminate].
  destruct (dict_get destinations d) as [tickerhashes|] eqn:Ed; [|discriminate].
  intros Et.
  destruct (o =? o') eqn:Ho.
  - apply String.eqb_eq in Ho. subst o'. rewrite dict_get_set_same, Eo.
    destruct (d =? d') eqn:Hd.
    + apply String.eqb_eq in Hd. subst d'. rewrite dict_get_set_same, Ed.
      destruct (t =? t') eqn:Ht; cbn [andb].
      * apply String.eqb_eq in Ht. subst t'. apply dict_get_set_same.
      * apply String.eqb_neq in Ht. now apply dict_get_set_other.
    + apply String.eqb_neq in Hd. cbn [andb].
      now rewrite dict_get_set_other.
  - apply String.eqb_neq in Ho. cbn [andb]. now rewrite dict_get_set_other.
Qed.

Lemma put_route_same (pd : dataset) (o d t : string) (bins : route) :
  route_at pd o d t = Some bins -> put_route pd o d t bins = pd.
Proof.
  unfold route_at, put_route.
  destruct (dict_get pd o) as [destinations|] eqn:Eo; [|discriminate].
  destruct (dict_get destinations d) as [tickerhashes|] eqn:Ed; [|discriminate].
  intros Et. rewrite (dict_set_get_same tickerhashes t bins Et).
  rewrite (dict_set_get_same destinations d tickerhashes Ed).
  apply dict_set_get_same, Eo.
Qed.

Lemma put_route_put_route (pd : dataset) (o d t : string) (bins bins1 bins2 : route) :
  route_at pd o d t = Some bins ->
  put_route (put_route pd o d t bins1) o d t bins2 = put_route pd o d t bins2.
Proof.
  unfold route_at, put_route.
  destruct (dict_get pd o) as [destinations|] eqn:Eo; [|discriminate].
  destruct (dict_get destinations d) as [tickerhashes|] eqn:Ed; [|discriminate].
  intros Et. rewrite !dict_get_set_same, !dict_set_set. reflexivity.
Qed.

(** The inner loop only touches the route it fills, and does to it what
    [fill_route] does. *)
Lemma fill_bins_fill_route (py_sum : list float -> float) (bs : bin_stats)
    (existing_bins : list string) (o d t : string) (missing_bins : list string) :
  forall (pd : dataset) (bins : route),
    route_at pd o d t = Some bins ->
    fill_bins py_sum bs existing_bins o d t missing_bins pd
    = (bins' <- fill_route py_sum bs existing_bins missing_bins bins ;;
       Ok (put_route pd o d t bins')).
Proof.
  induction missing_bins as [|bin_name rest IH]; intros pd bins Hat; simpl.
  - now rewrite (put_route_same pd o d t bins Hat).
  - rewrite (get_route_at pd o d t bins Hat). cbn [bind].
    destruct (interpolate_bin_data py_sum bs bin_name existing_bins bins)
      as [g|e]; cbn [bind]; [|reflexivity].
    rewrite (set_route_bin_at pd o d t bin_name bins g Hat). cbn [bind].
    rewrite (IH _ (dict_set bins bin_name g)).
    + destruct (fill_route py_sum bs existing_bins rest (dict_set bins bin_name g));
        cbn [bind]; [|reflexivity].
      now rewrite (put_route_put_route pd o d t bins).
    + rewrite (route_at_put_route pd o d t o d t bins _ Hat).
      assert (same_route o d t o d t = true) as -> by now apply same_route_true.
      reflexivity.
Qed.

Lemma fill_combination_fill_route (py_sum : list float -> float) (bs : bin_stats)
    (pd : dataset) (o d t : string) (missing_bins : list string) (bins : route) :
  route_at pd o d t = Some bins ->
  fill_combination py_sum bs pd (o, d, t, missing_bins)
  = (bins' <- fill_route py_sum bs (dict_keys bins) missing_bins bins ;;
     Ok (put_route pd o d t bins')).
Proof.
  intros Hat. unfold fill_combination.
  rewrite (get_route_at pd o d t bins Hat). cbn [bind].
  now apply fill_bins_fill_route.
Qed.

(** ** Filling one route *)

Lemma base_ok_dict_set (bins : route) (bin_name : string) (g : bin) :
  base_ok bins -> float_median g -> base_ok (dict_set bins bin_name g).
Proof.
  intros Hbins Hg b0. destruct (String.eqb_spec bin_name baseline_bin) as [->|Hne].
  - rewrite dict_get_set_same. now intros [= <-].
  - rewrite dict_get_set_other by assumption. apply Hbins.
Qed.

Lemma fill_route_total (py_sum : list float -> float) (bs : bin_stats)
    (existing_bins missing_bins : list string) :
  stats_ok bs ->
  forall bins, base_ok bins ->
    exists bins',
      fill_route py_sum bs existing_bins missing_bins bins = Ok bins'
      /\ base_ok bins'.
Proof.
  intros Hbs. induction missing_bins as [|bin_name rest IH]; intros bins Hbase; simpl.
  - eauto.
  - destruct (interpolate_bin_data_total py_sum bs bin_name existing_bins bins Hbs Hbase)
      as (g & -> & Hg). cbn [bind].
    apply IH. now apply base_ok_dict_set.
Qed.

(** With a ["0-50000"] bin in the route, every bucket the loop fills is
    generated by [baseline_scaling] from that bin's median, and the bin
    itself is left as it is. *)
Lemma fill_route_baseline (py_sum : list float -> float) (bs : bin_stats)
    (existing_bins missing_bins : list string) (b0 : bin) (m : float) :
  dict_get b0 P50 = Some (PyFloat m) ->
  ~ In baseline_bin missing_bins ->
  forall bins, dict_get bins baseline_bin = Some b0 ->
    exists bins',
      fill_route py_sum bs existing_bins missing_bins bins = Ok bins'
      /\ (forall b, In b missing_bins ->
                    dict_get bins' b = Some (baseline_scaling_bin m b))
      /\ (forall b, ~ In b missing_bins -> dict_get bins' b = dict_get bins b).
Proof.
  intros Hm. induction missing_bins as [|bin_name rest IH]; intros Hnot bins H0; simpl.
  - exists bins. repeat split; auto. intros b [].
  - rewrite (interpolate_bin_data_baseline py_sum bs bin_name existing_bins bins b0 m H0 Hm).
    cbn [bind].
    assert (bin_name <> baseline_bin) as Hne by (intros ->; apply Hnot; now left).
    destruct (IH (fun H => Hnot (or_intror H))
                 (dict_set bins bin_name (baseline_scaling_bin m bin_name)))
      as (bins' & Hfill & Hin' & Hout').
    { now rewrite dict_get_set_other. }
    exists bins'. split; [exact Hfill|]. split.
    + intros b [<-|Hin]; [|now apply Hin'].
      destruct (in_dec string_dec bin_name rest) as [Hin|Hnin]; [now apply Hin'|].
      rewrite (Hout' _ Hnin). apply dict_get_set_same.
    + intros b Hb. rewrite Hout' by tauto.
      apply dict_get_set_other. intros ->. apply Hb. now left.
Qed.

Lemma missing_bins_of_spec (bins : route) (b : string) :
  In b (missing_bins_of bins) <-> In b EXPECTED_BINS /\ dict_get bins b = None.
Proof.
  unfold missing_bins_of. rewrite filter_In, negb_true_iff, <- dict_get_keys.
  unfold dict_mem. destruct (dict_get bins b); intuition congruence.
Qed.

(** ** The outer loop, seen from one route that holds a ["0-50000"] bin *)

Section PopulateLoop.

Variable py_sum : list float -> float.
Variable bs : bin_stats.
Hypothesis bs_ok : stats_ok bs.


Variables (o d t : string) (bins : route) (b0 : bin) (m : float).
Hypothesis bins_baseline : dict_get bins baseline_bin = Some b0.
Hypothesis baseline_median : dict_get b0 P50 = Some (PyFloat m).

Lemma baseline_not_missing : ~ In baseline_bin (missing_bins_of bins).
Proof.
  rewrite missing_bins_of_spec. intros [_ H]. congruence.
Qed.

Lemma populate_loop_baseline (mc : list combination) :
  forall pd r',
    (forall o' d' t' r, route_at pd o' d' t' = Some r -> base_ok r) ->
    (forall o' d' t' ms, In (o', d', t', ms) mc -> route_at pd o' d' t' <> None) ->
    (forall ms, In (o, d, t, ms) mc -> ms = missing_bins_of bins) ->
    route_at pd o d t = Some r' ->
    dict_get r' baseline_bin = Some b0 ->
    (forall b, In b (missing_bins_of bins) ->
               dict_get r' b = Some (baseline_scaling_bin m b))
    \/ In (o, d, t, missing_bins_of bins) mc ->
    exists out r'',
      foldM (fill_combination py_sum bs) mc pd = Ok out
      /\ route_at out o d t = Some r''
      /\ forall b, In b (missing_bins_of bins) ->
                   dict_get r'' b = Some (baseline_scaling_bin m b).
Proof.
  induction mc as [|[[[o1 d1] t1] ms] mc IH];
    intros pd r' Hbase Hpath Hvalid Hat Hr' Hdone; cbn [foldM].
  - exists pd, r'. repeat split; auto. destruct Hdone as [H|[]]. exact H.
  - destruct (route_at pd o1 d1 t1) as [rk|] eqn:Ek;
      [|exfalso; apply (Hpath o1 d1 t1 ms); [now left|assumption]].
    rewrite (fill_combination_fill_route py_sum bs pd o1 d1 t1 ms rk Ek).
    destruct (same_route o1 d1 t1 o d t) eqn:Esame.
    + apply same_route_true in Esame. destruct Esame as (-> & -> & ->).
      assert (rk = r') as -> by congruence.
      rewrite (Hvalid ms (or_introl eq_refl)).
      destruct (fill_route_baseline py_sum bs (dict_keys r') (missing_bins_of bins)
                  b0 m baseline_median baseline_not_missing r' Hr')
        as (r1 & -> & Hin1 & Hout1). cbn [bind].
      assert (dict_get r1 baseline_bin = Some b0) as Hr1
        by (rewrite Hout1; [assumption|apply baseline_not_missing]).
      apply (IH (put_route pd o d t r1) r1).
      * intros o' d' t' r. rewrite (route_at_put_route pd o d t o' d' t' r' r1 Ek).
        destruct (same_route o d t o' d' t'); [|apply Hbase].
        intros [= <-] b Hb. exists m. congruence.
      * intros o' d' t' ms' Hin.
        rewrite (route_at_put_route pd o d t o' d' t' r' r1 Ek).
        destruct (same_route o d t o' d' t'); [discriminate|].
        apply (Hpath o' d' t' ms'). now right.
      * intros ms' Hin. apply Hvalid. now right.
      * rewrite (route_at_put_route pd o d t o d t r' r1 Ek).
        now assert (same_route o d t o d t = true) as -> by now apply same_route_true.
      * exact Hr1.
      * left. exact Hin1.
    + destruct (fill_route_total py_sum bs (dict_keys rk) ms bs_ok rk (Hbase _ _ _ _ Ek))
        as (r1 & -> & Hr1). cbn [bind].
      apply (IH (put_route pd o1 d1 t1 r1) r').
      * intros o' d' t' r. rewrite (route_at_put_route pd o1 d1 t1 o' d' t' rk r1 Ek).
        destruct (same_route o1 d1 t1 o' d' t'); [now intros [= <-]|apply Hbase].
      * intros o' d' t' ms' Hin.
        rewrite (route_at_put_route pd o1 d1 t1 o' d' t' rk r1 Ek).
        destruct (same_route o1 d1 t1 o' d' t'); [discriminate|].
        apply (Hpath o' d' t' ms'). now right.
      * intros ms' Hin. apply Hvalid. now right.
      * rewrite (route_at_put_route pd o1 d1 t1 o d t rk r1 Ek), Esame. exact Hat.
      * exact Hr'.
      * destruct Hdone as [H|[H|H]]; [now left| |now right].
        injection H as -> -> -> _.
        assert (same_route o d t o d t = true) by now apply same_route_true.
        congruence.
Qed.

End PopulateLoop.

(** ** Well-formed datasets *)

Lemma route_at_In (data : dataset) (o d t : string) (bins : route) :
  route_at data o d t = Some bins ->
  exists destinations tickerhashes,
    In (o, destinations) data /\ In (d, tickerhashes) destinations
    /\ In (t, bins) tickerhashes.
Proof.
  unfold route_at.
  destruct (dict_get data o) as [destinations|] eqn:Eo; [|discriminate].
  destruct (dict_get destinations d) as [tickerhashes|] eqn:Ed; [|discriminate].
  intros Et. exists destinations, tickerhashes.
  repeat split; now apply dict_get_In.
Qed.

Lemma for_all_routes_In (p : route -> bool) (data : dataset) (o d t : string)
    (destinations : dict (dict route)) (tickerhashes : dict route) (bins : route) :
  for_all_routes p data = true ->
  In (o, destinations) data -> In (d, tickerhashes) destinations ->
  In (t, bins) tickerhashes -> p bins = true.
Proof.
  unfold for_all_routes. rewrite forallb_forall. intros H Ho Hd Ht.
  specialize (H _ Ho). cbn [snd] in H. rewrite forallb_forall in H.
  specialize (H _ Hd). cbn [snd] in H. rewrite forallb_forall in H.
  exact (H _ Ht).
Qed.

Lemma well_formed_route_at (data : dataset) (o d t : string)
    (destinations : dict (dict route)) (tickerhashes : dict route) (bins : route) :
  well_formed data = true ->
  In (o, destinations) data -> In (d, tickerhashes) destinations ->
  In (t, bins) tickerhashes -> route_at data o d t = Some bins.
Proof.
  unfold well_formed. rewrite !andb_true_iff, forallb_forall.
  intros [[[Hu1 Hu23] _] _] Ho Hd Ht.
  specialize (Hu23 _ Ho). cbn [snd] in Hu23.
  rewrite andb_true_iff, forallb_forall in Hu23. destruct Hu23 as [Hu2 Hu3].
  specialize (Hu3 _ Hd). cbn [snd] in Hu3.
  unfold route_at.
  rewrite (In_dict_get data o destinations Hu1 Ho).
  rewrite (In_dict_get destinations d tickerhashes Hu2 Hd).
  exact (In_dict_get tickerhashes t bins Hu3 Ht).
Qed.

Lemma well_formed_base_ok (data : dataset) (o d t : string) (bins : route) :
  well_formed data = true -> route_at data o d t = Some bins -> base_ok bins.
Proof.
  intros Hwf Hat b0 Hb0.
  destruct (route_at_In data o d t bins Hat) as (destinations & tickerhashes & Ho & Hd & Ht).
  unfold well_formed in Hwf. rewrite !andb_true_iff in Hwf.
  destruct Hwf as [_ Hfloat].
  pose proof (for_all_routes_In _ data o d t _ _ bins Hfloat Ho Hd Ht) as Hbins.
  unfold for_all_canonical_bins in Hbins. rewrite forallb_forall in Hbins.
  specialize (Hbins _ (dict_get_In bins baseline_bin b0 Hb0)).
  cbn [fst snd] in Hbins. change (float_statistics b0 = true) in Hbins.
  destruct (float_statistics_getitem b0 Hbins) as (f25 & f50 & f75 & _ & H50 & _).
  exists f50. unfold getitem in H50.
  destruct (dict_get b0 P50); [now injection H50 as ->|discriminate].
Qed.

(** On a well-formed dataset the gap filler returns a dataset, and in a
    route that holds a ["0-50000"] bin every missing canonical bucket has been
    generated by [baseline_scaling] from that bin's median. *)
Lemma gap_fill_baseline (py_sum : list float -> float) (data : dataset)
    (o d t : string) (bins : route) (b0 : bin) (m : float) :
  well_formed data = true ->
  route_at data o d t = Some bins ->
  dict_get bins baseline_bin = Some b0 ->
  dict_get b0 P50 = Some (PyFloat m) ->
  exists out bins',
    gap_fill py_sum data = Ok out
    /\ route_at out o d t = Some bins'
    /\ forall b, In b (missing_bins_of bins) ->
                 dict_get bins' b = Some (baseline_scaling_bin m b).
Proof.
  intros Hwf Hat H0 Hm. unfold gap_fill, populate_missing_bins.
  assert (for_all_routes (for_all_canonical_bins float_statistics) data = true) as Hfloat.
  { unfold well_formed in Hwf. rewrite !andb_true_iff in Hwf. tauto. }
  destruct (collect_bin_statistics_floats data Hfloat) as (bs & -> & Hbs). cbn [bind].
  apply (populate_loop_baseline py_sum bs Hbs o d t bins b0 m H0 Hm
           (find_missing_bins data) data bins); auto.
  - intros o' d' t' r. now apply well_formed_base_ok.
  - intros o' d' t' ms Hin. apply in_find_missing_bins in Hin.
    destruct Hin as (ds & ts & r & Ho & Hd & Ht & _).
    now rewrite (well_formed_route_at data o' d' t' ds ts r Hwf Ho Hd Ht).
  - intros ms Hin. apply in_find_missing_bins in Hin.
    destruct Hin as (ds & ts & r & Ho & Hd & Ht & -> & _).
    rewrite (well_formed_route_at data o d t ds ts r Hwf Ho Hd Ht) in Hat.
    congruence.
  - destruct (missing_bins_of bins) as [|b ms] eqn:E.
    + left. intros b [].
    + right. rewrite <- E. apply in_find_missing_bins.
      destruct (route_at_In data o d t bins Hat) as (ds & ts & Ho & Hd & Ht).
      exists ds, ts, bins. repeat split; auto. congruence.
Qed.

(** ** Completeness of the output *)

Lemma fill_route_covers (py_sum : list float -> float) (bs : bin_stats)
    (existing_bins missing_bins : list string) :
  forall bins bins',
    fill_route py_sum bs existing_bins missing_bins bins = Ok bins' ->
    (forall b, In b missing_bins -> dict_get bins' b <> None)
    /\ (forall b, dict_get bins b <> None -> dict_get bins' b <> None).
Proof.
  induction missing_bins as [|bin_name rest IH]; intros bins bins'; cbn [fill_route].
  - intros [= <-]. split; [intros b []|auto].
  - destruct (interpolate_bin_data py_sum bs bin_name existing_bins bins) as [g|e];
      cbn [bind]; [|discriminate].
    intros Hfill. destruct (IH _ _ Hfill) as [Hin Hmono].
    assert (forall b, dict_get bins b <> None \/ b = bin_name ->
                      dict_get (dict_set bins bin_name g) b <> None) as Hstep.
    { intros b Hb. destruct (string_dec bin_name b) as [<-|Hne].
      - rewrite dict_get_set_same. discriminate.
      - rewrite dict_get_set_other by assumption. destruct Hb; congruence. }
    split.
    + intros b [<-|Hb]; [|now apply Hin]. apply Hmono, Hstep. now right.
    + intros b Hb. apply Hmono, Hstep. now left.
Qed.

Lemma missing_bins_of_nil (bins : route) :
  missing_bins_of bins = [] <->
  forall b, In b EXPECTED_BINS -> dict_get bins b <> None.
Proof.
  split.
  - intros Hnil b Hb Hnone.
    assert (In b (missing_bins_of bins)) as Hin by (apply missing_bins_of_spec; now split).
    rewrite Hnil in Hin. destruct Hin.
  - intros Hall. destruct (missing_bins_of bins) as [|b ms] eqn:E; [reflexivity|].
    assert (In b (missing_bins_of bins)) as Hin by (rewrite E; now left).
    apply missing_bins_of_spec in Hin. destruct Hin as [Hb Hnone].
    now destruct (Hall b Hb).
Qed.

Section PopulateLoopCovers.

Variable py_sum : list float -> float.
Variable bs : bin_stats.
Hypothesis bs_ok : stats_ok bs.
Variables (o d t : string) (bins : route).


End PopulateLoopCovers.


(** ** The gap filler *)

(** C1 (the code departs from it): the route of [no_baseline_data] holds
    no ["0-50000"] bin, yet after that bucket has been generated (by
    [weighted_interpolation], median 20) the bucket ["100000-300000"] is
    generated by [baseline_scaling] from the generated bin (1.5 x 20 = 30):
    the strategy reads a bin generated earlier in the same run.  Processing
    the same two missing buckets in the other order generates
    ["100000-300000"] by [weighted_interpolation] with median 20 instead. *)
Theorem gap_fill_reads_generated_bin :
  dict_get no_baseline_route "0-50000" = None
  /\ (exists out,
        gap_fill sum_left_fold no_baseline_data = Ok out
        /\ bin_at out "10" "1" "0xweth" "0-50000"
           = Some (generated_bin (PyFloat 10) (PyFloat 20) (PyFloat 30)
                     "weighted_interpolation")
        /\ bin_at out "10" "1" "0xweth" "100000-300000"
           = Some (generated_bin (PyFloat 21) (PyFloat 30) (PyFloat 39)
                     "baseline_scaling"))
  /\ (exists out,
        populate_missing_bins sum_left_fold no_baseline_data
          [("10", "1", "0xweth", ["0-50000"; "100000-300000"])] = Ok out
        /\ bin_at out "10" "1" "0xweth" "100000-300000"
           = Some (generated_bin (PyFloat 21) (PyFloat 30) (PyFloat 39)
                     "baseline_scaling"))
  /\ (exists out,
        populate_missing_bins sum_left_fold no_baseline_data
          [("10", "1", "0xweth", ["100000-300000"; "0-50000"])] = Ok out
        /\ bin_at out "10" "1" "0xweth" "100000-300000"
           = Some (generated_bin (PyFloat 10) (PyFloat 20) (PyFloat 30)
                     "weighted_interpolation")).
Proof.
  split; [reflexivity|].
  repeat split; eexists; (split; [vm_compute; reflexivity|]);
    repeat split; vm_compute; reflexivity.
Qed.

(** C2 (the code departs from it): on [empty_route_data], a dataset with
    zero bins and hence empty global statistics, the gap filler succeeds and
    the route holds all eight buckets afterwards, but only ["0-50000"]
    receives the [default_fallback] values; ["50000-100000"], for which the
    input offers neither a route ["0-50000"] bin nor global statistics, is
    generated by [baseline_scaling] from the generated fallback bin
    (1.2 x 15 = 18). *)
Theorem gap_fill_fallback_only_for_first_bucket (py_sum : list float -> float) :
  collect_bin_statistics empty_route_data = Ok []
  /\ route_at empty_route_data "10" "1" "0xweth" = Some []
  /\ exists out bins,
       gap_fill py_sum empty_route_data = Ok out
       /\ route_at out "10" "1" "0xweth" = Some bins
       /\ missing_bins_of bins = []
       /\ dict_get bins "0-50000"
          = Some (generated_bin (PyFloat 10) (PyFloat 15) (PyFloat 25)
                    "default_fallback")
       /\ dict_get bins "50000-100000"
          = Some (generated_bin (PyFloat 12.6) (PyFloat 18) (PyFloat 23.4)
                    "baseline_scaling").
Proof.
  split; [reflexivity|]. split; [reflexivity|].
  eexists. eexists. split; [vm_compute; reflexivity|].
  split; [vm_compute; reflexivity|].
  repeat split; vm_compute; reflexivity.
Qed.

(** C5: in a well-formed dataset, when a route holds a ["0-50000"] bin with
    median [m], the gap filler succeeds and every missing canonical bucket of
    that route is generated by [baseline_scaling]:
    p50 = round(m x multiplier, 2), p25 = round(p50_unrounded x 0.7, 2),
    p75 = round(p50_unrounded x 1.3, 2), sample size 0; the multipliers of
    the seven higher buckets are 1.2, 1.5, 1.8, 2.0, 2.5, 3.0, 4.0; for
    m = 10 and the target ["500000-700000"] the values are 25.0, 17.5 and
    32.5, and for m = 10.123 and the target ["50000-100000"] the products
    12.1476, 8.50332 and 15.79188 are stored as 12.15, 8.5 and 15.79. *)
Theorem baseline_scaling_fill (py_sum : list float -> float) (data : dataset)
    (o d t : string) (bins : route) (baseline_data : bin) (m : float)
    (target_bin : string) :
  well_formed data = true ->
  route_at data o d t = Some bins ->
  dict_get bins "0-50000" = Some baseline_data ->
  dict_get baseline_data P50 = Some (PyFloat m) ->
  In target_bin EXPECTED_BINS ->
  dict_get bins target_bin = None ->
  (exists out,
     gap_fill py_sum data = Ok out
     /\ bin_at out o d t target_bin
        = Some [ (P25, PyFloat (round2 (m * base_multiplier target_bin * 0.7)));
                 (P50, PyFloat (round2 (m * base_multiplier target_bin)));
                 (P75, PyFloat (round2 (m * base_multiplier target_bin * 1.3)));
                 ("sample_size", PyInt 0);
                 ("generated", PyBool true);
                 ("method", PyStr "baseline_scaling") ])
  /\ map base_multiplier (tl EXPECTED_BINS)
     = [1.2; 1.5; 1.8; 2.0; 2.5; 3.0; 4.0]%float
  /\ baseline_scaling_bin 10 "500000-700000"
     = generated_bin (PyFloat 17.5) (PyFloat 25) (PyFloat 32.5) "baseline_scaling"
  /\ baseline_scaling_bin 10.123 "50000-100000"
     = generated_bin (PyFloat 8.5) (PyFloat 12.15) (PyFloat 15.79) "baseline_scaling".
Proof.
  intros Hwf Hat H0 Hm Hcanon Hmiss. split; [|repeat split; vm_compute; reflexivity].
  destruct (gap_fill_baseline py_sum data o d t bins baseline_data m Hwf Hat H0 Hm)
    as (out & bins' & Hfill & Hat' & Hall).
  exists out. split; [exact Hfill|].
  unfold bin_at. rewrite Hat'.
  apply (Hall target_bin). apply missing_bins_of_spec. now split.
Qed.

Lemma baseline_scaling_fill_witness :
  (exists out,
     gap_fill sum_left_fold baseline_only_data = Ok out
     /\ bin_at out "10" "1" "0xweth" "500000-700000"
        = Some (generated_bin (PyFloat 17.5) (PyFloat 25) (PyFloat 32.5)
                  "baseline_scaling"))
  /\ (exists out,
        gap_fill sum_left_fold rounding_data = Ok out
        /\ bin_at out "10" "1" "0xweth" "50000-100000"
           = Some (generated_bin (PyFloat 8.5) (PyFloat 12.15) (PyFloat 15.79)
                     "baseline_scaling")).
Proof.
  split.
  - destruct (baseline_scaling_fill sum_left_fold baseline_only_data
                "10" "1" "0xweth" baseline_only_route
                (real_bin (PyFloat 7) (PyFloat 10) (PyFloat 13)) 10 "500000-700000")
      as [(out & Hfill & Hbin) _].
    + vm_compute; reflexivity.
    + reflexivity.
    + reflexivity.
    + reflexivity.
    + simpl; tauto.
    + reflexivity.
    + exists out. split; [exact Hfill|]. rewrite Hbin. vm_compute. reflexivity.
  - destruct (baseline_scaling_fill sum_left_fold rounding_data
                "10" "1" "0xweth" rounding_route
                (real_bin (PyFloat 7.5) (PyFloat 10.123) (PyFloat 13.25))
                10.123 "50000-100000")
      as [(out & Hfill & Hbin) _].
    + vm_compute; reflexivity.
    + reflexivity.
    + reflexivity.
    + reflexivity.
    + simpl; tauto.
    + reflexivity.
    + exists out. split; [exact Hfill|]. rewrite Hbin. vm_compute. reflexivity.
Defined.

(** A median stored as the JSON integer 10 scales to the same values. *)
Example baseline_scaling_int_median (py_sum : list float -> float) :
  interpolate_bin_data py_sum [] "500000-700000" ["0-50000"]
    [ ("0-50000", [ (P50, PyInt 10) ]) ]
  = Ok (generated_bin (PyFloat 17.5) (PyFloat 25) (PyFloat 32.5) "baseline_scaling").
Proof.
  vm_compute. reflexivity.
Qed.

(** C6: in a well-formed dataset, for a route that holds a ["0-50000"] bin
    and lacks the ["50000-100000"] bucket, the gap filler succeeds and the
    bin it stores for ["50000-100000"] is a generated one whose method is
    ["baseline_scaling"], not one of the later strategies. *)
Theorem strategy_precedence (py_sum : list float -> float) (data : dataset)
    (o d t : string) (bins : route) (baseline_data : bin) :
  well_formed data = true ->
  route_at data o d t = Some bins ->
  dict_get bins "0-50000" = Some baseline_data ->
  dict_get bins "50000-100000" = None ->
  exists out g,
    gap_fill py_sum data = Ok out
    /\ bin_at out o d t "50000-100000" = Some g
    /\ dict_get g "generated" = Some (PyBool true)
    /\ dict_get g "method" = Some (PyStr "baseline_scaling").
Proof.
  intros Hwf Hat H0 Hmiss.
  destruct (well_formed_base_ok data o d t bins Hwf Hat baseline_data H0) as [m Hm].
  destruct (gap_fill_baseline py_sum data o d t bins baseline_data m Hwf Hat H0 Hm)
    as (out & bins' & Hfill & Hat' & Hall).
  exists out, (baseline_scaling_bin m "50000-100000").
  split; [exact Hfill|]. split; [|split; reflexivity].
  unfold bin_at. rewrite Hat'. apply Hall.
  apply missing_bins_of_spec. split; [simpl; tauto|assumption].
Qed.

Lemma strategy_precedence_witness :
  exists out g,
    gap_fill sum_left_fold baseline_only_data = Ok out
    /\ bin_at out "10" "1" "0xweth" "50000-100000" = Some g
    /\ dict_get g "generated" = Some (PyBool true)
    /\ dict_get g "method" = Some (PyStr "baseline_scaling").
Proof.
  apply (strategy_precedence sum_left_fold baseline_only_data "10" "1" "0xweth"
           baseline_only_route (real_bin (PyFloat 7) (PyFloat 10) (PyFloat 13))).
  - vm_compute; reflexivity.
  - reflexivity.
  - reflexivity.
  - reflexivity.
Defined.

(** C7: on a dataset in which every route already holds all eight canonical
    buckets (each with its three statistics), the gap filler returns the
    dataset itself: no bin is added or removed and no field of any bin
    changes. *)
Theorem gap_fill_idempotent (py_sum : list float -> float) (data : dataset) :
  fully_populated data = true ->
  statistics_present data = true ->
  gap_fill py_sum data = Ok data.
Proof.
  apply gap_fill_fully_populated.
Qed.

Lemma gap_fill_idempotent_witness :
  gap_fill sum_left_fold (full_data (PyFloat 11)) = Ok (full_data (PyFloat 11)).
Proof.
  apply (gap_fill_idempotent sum_left_fold (full_data (PyFloat 11)));
    vm_compute; reflexivity.
Defined.

(** C8 (as stated, refuted): [full_data (PyStr "n/a")] contains a bin whose
    median is text, and the gap filler does not fail on it: it returns the
    dataset unchanged. *)
Lemma gap_fill_accepts_text_median :
  bin_at (full_data (PyStr "n/a")) "10" "1" "0xweth" "50000-100000"
  = Some (real_bin (PyFloat 8) (PyStr "n/a") (PyFloat 14))
  /\ non_numeric (PyStr "n/a") = true
  /\ gap_fill sum_left_fold (full_data (PyStr "n/a")) = Ok (full_data (PyStr "n/a")).
Proof.
  repeat split; vm_compute; reflexivity.
Qed.

(** C8 (amended): the gap filler does not validate the stored statistics and
    has no error that names a route or a bucket.  A dataset whose routes are
    all fully populated is returned unchanged whatever values its statistics
    hold, and when [baseline_scaling] reads a median that is text or null the
    failure is the plain [TypeError] of the multiplication. *)
Theorem non_numeric_statistic_not_validated (py_sum : list float -> float) :
  (forall data,
      fully_populated data = true -> statistics_present data = true ->
      gap_fill py_sum data = Ok data)
  /\ (forall (bs : bin_stats) (target_bin : string) (existing_bins : list string)
             (bins : route) (baseline_data : bin) (v : pyval),
        dict_get bins "0-50000" = Some baseline_data ->
        dict_get baseline_data P50 = Some v ->
        non_numeric v = true ->
        interpolate_bin_data py_sum bs target_bin existing_bins bins
        = Raise TypeError).
Proof.
  split; [apply gap_fill_fully_populated|].
  intros bs target_bin existing_bins bins baseline_data v H0 Hv Hnon.
  change (dict_get bins baseline_bin = Some baseline_data) in H0.
  unfold interpolate_bin_data, dict_mem, getitem.
  destruct bins as [|e bins']; [discriminate|]. rewrite H0.
  cbn [is_empty negb andb bind]. rewrite Hv. cbn [bind].
  destruct v; try discriminate; reflexivity.
Qed.

Lemma non_numeric_statistic_not_validated_witness :
  gap_fill sum_left_fold (full_data PyNone) = Ok (full_data PyNone)
  /\ interpolate_bin_data sum_left_fold [] "50000-100000" ["0-50000"]
       [ ("0-50000", real_bin (PyFloat 7) (PyStr "n/a") (PyFloat 13)) ]
     = Raise TypeError
  /\ gap_fill sum_left_fold text_median_data = Raise TypeError.
Proof.
  destruct (non_numeric_statistic_not_validated sum_left_fold) as [Hfull Hraise].
  split; [apply Hfull; vm_compute; reflexivity|].
  split; [|vm_compute; reflexivity].
  apply (Hraise [] "50000-100000" ["0-50000"] _
           (real_bin (PyFloat 7) (PyStr "n/a") (PyFloat 13)) (PyStr "n/a"));
    reflexivity.
Defined.

Lemma lookup_without_amount_range_witness :
  lookup_settlement_times baseline_only_data "10" "1" "0xweth" None
  = Some (mk_lookup_result "10" "1" "0xweth" "0-50000"
            (PyFloat 7) (PyFloat 10) (PyFloat 13) (PyInt 42)
            (PyBool false) (PyStr "N/A")).
Proof.
  apply (lookup_without_amount_range baseline_only_data "10" "1" "0xweth"
           "0-50000" (real_bin (PyFloat 7) (PyFloat 10) (PyFloat 13)) []).
  reflexivity.
Defined.

(** * Further properties of the code *)

(** ** Bucket indices *)

Lemma index_of_nth (x : string) (l : list string) (i : nat) :
  index_of x l = Some i -> nth_error l i = Some x.
Proof.
  revert i. induction l as [|y l IH]; intros i; simpl; [discriminate|].
  destruct (y =? x) eqn:E.
  - intros [= <-]. apply String.eqb_eq in E. now subst.
  - destruct (index_of x l) as [j|]; [|discriminate].
    intros [= <-]. simpl. now apply IH.
Qed.

Lemma index_of_None (x : string) (l : list string) :
  index_of x l = None <-> ~ In x l.
Proof.
  induction l as [|y l IH]; simpl; [tauto|].
  destruct (y =? x) eqn:E.
  - apply String.eqb_eq in E. split; [discriminate|]. intros H. destruct H. now left.
  - apply String.eqb_neq in E.
    destruct (index_of x l) as [j|].
    + split; [discriminate|]. intros H. exfalso. apply H. right.
      destruct (in_dec string_dec x l) as [Hin|Hnin]; [assumption|].
      apply IH in Hnin. discriminate.
    + split; [|reflexivity]. intros _ [H|H]; [congruence|]. now apply IH.
Qed.

(** X1: [get_bin_index] and the catalog are inverse to each other: the index of
    a canonical bucket is its position in [EXPECTED_BINS] (between 0 and 7),
    the bucket at a position has that position as its index, and [-1] is
    returned exactly for the names outside the catalog. *)
Theorem get_bin_index_round_trip (bin_name : string) :
  (get_bin_index bin_name = (-1)%Z <-> ~ In bin_name EXPECTED_BINS)
  /\ (In bin_name EXPECTED_BINS ->
      (0 <= get_bin_index bin_name < 8)%Z
      /\ nth_error EXPECTED_BINS (Z.to_nat (get_bin_index bin_name)) = Some bin_name)
  /\ (forall i, nth_error EXPECTED_BINS i = Some bin_name ->
                get_bin_index bin_name = Z.of_nat i).
Proof.
  unfold get_bin_index. split; [|split].
  - rewrite <- index_of_None. destruct (index_of bin_name EXPECTED_BINS); split;
      try discriminate; try reflexivity. lia.
  - intros Hin. destruct (index_of bin_name EXPECTED_BINS) as [i|] eqn:E.
    + pose proof (index_of_nth _ _ _ E) as Hnth. rewrite Nat2Z.id. split; [|exact Hnth].
      assert (i < List.length EXPECTED_BINS)%nat as Hlt
        by (apply nth_error_Some; congruence).
      simpl in Hlt. lia.
    + apply index_of_None in E. contradiction.
  - intros i Hnth.
    do 8 (destruct i as [|i]; [injection Hnth as <-; reflexivity|]).
    destruct i; discriminate.
Qed.

(** ** The statistics table *)

Lemma foldM_ok_invariant {A S : Type} (f : S -> A -> result S) (I : S -> Prop)
    (l : list A) :
  (forall s a s', In a l -> I s -> f s a = Ok s' -> I s') ->
  forall s s', I s -> foldM f l s = Ok s' -> I s'.
Proof.
  induction l as [|a l IH]; intros Hstep s s' Hs; simpl.
  - now intros [= <-].
  - destruct (f s a) as [s1|e] eqn:E; simpl; [|discriminate].
    apply IH.
    + intros s0 a0 s0' Hin. apply Hstep. now right.
    + exact (Hstep s a s1 (or_introl eq_refl) Hs E).
Qed.

Lemma foldM_ok_each {A S : Type} (f : S -> A -> result S) (l : list A) :
  forall s s', foldM f l s = Ok s' ->
    forall a, In a l -> exists s1 s2, f s1 a = Ok s2.
Proof.
  induction l as [|a l IH]; intros s s'; simpl; [intros _ x []|].
  destruct (f s a) as [s1|e] eqn:E; simpl; [|discriminate].
  intros Hrest x [<-|Hin]; [eauto|]. exact (IH _ _ Hrest x Hin).
Qed.

Lemma foldM_raise {A S : Type} (f : S -> A -> result S) (E : exn -> Prop)
    (l : list A) :
  (forall s a e, In a l -> f s a = Raise e -> E e) ->
  forall s e, foldM f l s = Raise e -> E e.
Proof.
  induction l as [|a l IH]; intros Hstep s e; simpl; [discriminate|].
  destruct (f s a) as [s1|e1] eqn:Ef; simpl.
  - apply IH. intros s0 a0 e0 Hin. apply Hstep. now right.
  - intros [= <-]. exact (Hstep s a e1 (or_introl eq_refl) Ef).
Qed.

Lemma collect_bin_cases (bs : bin_stats) (name : string) (b : bin) :
  (forall bs', collect_bin bs (name, b) = Ok bs' ->
     mem_string name EXPECTED_BINS = true -> has_statistics b = true)
  /\ (forall e, collect_bin bs (name, b) = Raise e -> statistic_key_error e).
Proof.
  unfold collect_bin, has_statistics, dict_mem, getitem, statistic_key_error.
  destruct (mem_string name EXPECTED_BINS); [|split; intros; discriminate].
  destruct (dict_get b P25); cbn [bind];
    [|split; [discriminate|intros e [= <-]; tauto]].
  destruct (dict_get b P50); cbn [bind];
    [|split; [discriminate|intros e [= <-]; tauto]].
  destruct (dict_get b P75); cbn [bind];
    [|split; [discriminate|intros e [= <-]; tauto]].
  split; [reflexivity|discriminate].
Qed.

Lemma collect_ok_present (data : dataset) (bs bs' : bin_stats) :
  foldM collect_origin data bs = Ok bs' -> statistics_present data = true.
Proof.
  intros H. unfold statistics_present, for_all_routes.
  apply forallb_forall. intros [o destinations] Ho.
  destruct (foldM_ok_each _ _ _ _ H _ Ho) as (s1 & s2 & H1).
  apply forallb_forall. intros [d tickerhashes] Hd.
  destruct (foldM_ok_each _ _ _ _ H1 _ Hd) as (s3 & s4 & H2).
  apply forallb_forall. intros [t bins] Ht.
  destruct (foldM_ok_each _ _ _ _ H2 _ Ht) as (s5 & s6 & H3).
  apply forallb_forall. intros [name b] Hb.
  destruct (foldM_ok_each _ _ _ _ H3 _ Hb) as (s7 & s8 & H4).
  cbn [fst snd]. destruct (mem_string name EXPECTED_BINS) eqn:E; [|reflexivity].
  exact (proj1 (collect_bin_cases s7 name b) s8 H4 E).
Qed.

(** X2: [collect_bin_statistics] succeeds exactly when every canonical bin of
    every route holds the three statistics; otherwise it raises the
    [KeyError] of one of the three statistic keys.  Bins under other names
    and the values themselves are not looked at. *)
Theorem collect_bin_statistics_succeeds_iff (data : dataset) :
  ((exists bs, collect_bin_statistics data = Ok bs) <-> statistics_present data = true)
  /\ (forall e, collect_bin_statistics data = Raise e -> statistic_key_error e).
Proof.
  split; [split|].
  - intros [bs H]. exact (collect_ok_present data [] bs H).
  - apply collect_bin_statistics_total.
  - unfold collect_bin_statistics. apply foldM_raise.
    intros s1 [o destinations] e1 _. apply foldM_raise.
    intros s2 [d tickerhashes] e2 _. apply foldM_raise.
    intros s3 [t bins] e3 _. apply foldM_raise.
    intros s4 [name b] e4 _. apply (proj2 (collect_bin_cases s4 name b)).
Qed.

Lemma Forall_dict_set_keyed {V : Type} (P : string * V -> Prop) (d : dict V)
    (k : string) (v : V) :
  Forall P d -> P (k, v) -> Forall P (dict_set d k v).
Proof.
  intros Hd Hv. induction d as [|[k0 v0] d IH]; simpl.
  - constructor; auto.
  - inversion Hd; subst. destruct (k0 =? k) eqn:E; constructor; auto.
    apply String.eqb_eq in E. now subst.
Qed.

Lemma mem_keys_dict_set {V : Type} (d : dict V) (k x : string) (v : V) :
  mem_string x (dict_keys (dict_set d k v))
  = mem_string x (dict_keys d) || (k =? x).
Proof.
  induction d as [|[k0 v0] d IH]; simpl.
  - now rewrite orb_false_r.
  - destruct (k0 =? k) eqn:E; simpl.
    + apply String.eqb_eq in E. subst k0.
      destruct (k =? x); simpl; [reflexivity|now rewrite orb_false_r].
    + rewrite IH. now rewrite orb_assoc.
Qed.

Lemma unique_keys_dict_set {V : Type} (d : dict V) (k : string) (v : V) :
  unique_keys d = true -> unique_keys (dict_set d k v) = true.
Proof.
  unfold unique_keys.
  induction d as [|[k0 v0] d IH]; simpl; [reflexivity|].
  rewrite andb_true_iff, negb_true_iff. intros [Hnot Huniq].
  destruct (k0 =? k) eqn:E; simpl.
  - now rewrite Hnot, Huniq.
  - rewrite mem_keys_dict_set, Hnot, (String.eqb_sym k k0), E, (IH Huniq).
    reflexivity.
Qed.

Lemma collect_ok_invariant (I : bin_stats -> Prop) (data : dataset) :
  (forall bs entry bs', I bs -> collect_bin bs entry = Ok bs' -> I bs') ->
  forall bs bs', I bs -> foldM collect_origin data bs = Ok bs' -> I bs'.
Proof.
  intros Hbin. apply (foldM_ok_invariant collect_origin I).
  intros s1 [o destinations] s1' _. unfold collect_origin. cbn [snd].
  apply (foldM_ok_invariant collect_destination I).
  intros s2 [d tickerhashes] s2' _. unfold collect_destination. cbn [snd].
  apply (foldM_ok_invariant collect_route I).
  intros s3 [t bins] s3' _. unfold collect_route. cbn [snd].
  apply (foldM_ok_invariant collect_bin I).
  intros s4 entry s4' _. apply Hbin.
Qed.

(** X3: In the table [collect_bin_statistics] returns, every key is a canonical
    bucket, no key occurs twice, and the three lists of a bucket are
    non-empty and of the same length. *)
Theorem collect_bin_statistics_table (data : dataset) (bs : bin_stats) :
  collect_bin_statistics data = Ok bs ->
  unique_keys bs = true
  /\ forall name st, dict_get bs name = Some st ->
       In name EXPECTED_BINS
       /\ p25 st <> []
       /\ List.length (p25 st) = List.length (p50 st)
       /\ List.length (p50 st) = List.length (p75 st).
Proof.
  intros H.
  assert (unique_keys bs = true /\ Forall table_entry_ok bs) as [Hu Hall].
  { revert H. unfold collect_bin_statistics.
    apply (collect_ok_invariant
             (fun bs => unique_keys bs = true /\ Forall table_entry_ok bs));
      [|split; [reflexivity|constructor]].
    intros s4 [name b] s4' [Hu4 H4]. unfold collect_bin.
    destruct (mem_string name EXPECTED_BINS) eqn:E; [|now intros [= <-]].
    destruct (getitem b P25) as [v25|]; cbn [bind]; [|discriminate].
    destruct (getitem b P50) as [v50|]; cbn [bind]; [|discriminate].
    destruct (getitem b P75) as [v75|]; cbn [bind]; [|discriminate].
    intros [= <-]. unfold stats_append. split; [now apply unique_keys_dict_set|].
    apply Forall_dict_set_keyed; [assumption|].
    unfold table_entry_ok. cbn [fst snd p25 p50 p75].
    split; [now apply mem_string_In|].
    unfold dict_get_default.
    destruct (dict_get s4 name) as [st|] eqn:Eg.
    - rewrite Forall_forall in H4.
      destruct (H4 _ (dict_get_In s4 name st Eg)) as (_ & _ & L1 & L2).
      cbn [fst snd] in L1, L2. rewrite !length_app, L1, L2.
      split; [destruct (p25 st); discriminate|split; reflexivity].
    - cbn [p25 p50 p75]. split; [discriminate|split; reflexivity]. }
  split; [exact Hu|]. intros name st Hget.
  rewrite Forall_forall in Hall.
  specialize (Hall _ (dict_get_In bs name st Hget)). exact Hall.
Qed.

(** ** The cascade of [interpolate_bin_data] *)

Lemma scaled_bin_shape (v : pyval) (multiplier : float) (method : string) (g : bin) :
  scaled_bin v multiplier method = Ok g ->
  exists v25 v50 v75, g = generated_bin v25 v50 v75 method.
Proof.
  unfold scaled_bin. destruct (py_mul_float v multiplier); cbn [bind]; [|discriminate].
  intros [= <-]. eauto.
Qed.

Lemma surrounding_empty (bs : bin_stats) (target_index : Z)
    (existing_bins : list string) (items : list surrounding_item) :
  surrounding bs target_index existing_bins = Ok items ->
  is_empty items = negb (existsb (contributes bs) existing_bins).
Proof.
  revert items. induction existing_bins as [|name rest IH]; intros items; simpl.
  - now intros [= <-].
  - unfold contributes at 1.
    destruct (stats_of bs name p25) as [st|]; cbn [bind].
    + destruct (get_bin_index name =? -1)%Z; cbn [bind negb orb].
      * destruct (surrounding bs target_index rest) as [items'|]; cbn [bind];
          [|discriminate].
        intros [= <-]. now apply IH.
      * destruct (py_mean (p25 st)); cbn [bind]; [|discriminate].
        destruct (py_mean (p50 st)); cbn [bind]; [|discriminate].
        destruct (py_mean (p75 st)); cbn [bind]; [|discriminate].
        destruct (surrounding bs target_index rest) as [items'|]; cbn [bind];
          [|discriminate].
        now intros [= <-].
    + destruct (surrounding bs target_index rest) as [items'|]; cbn [bind];
        [|discriminate].
      intros [= <-]. now apply IH.
Qed.

Lemma surrounding_none (bs : bin_stats) (target_index : Z) (existing_bins : list string) :
  existsb (contributes bs) existing_bins = false ->
  surrounding bs target_index existing_bins = Ok [].
Proof.
  induction existing_bins as [|name rest IH]; simpl; [reflexivity|].
  rewrite orb_false_iff. intros [Hname Hrest]. rewrite (IH Hrest).
  unfold contributes in Hname.
  destruct (stats_of bs name p25); [|reflexivity].
  apply negb_false_iff in Hname. now rewrite Hname.
Qed.

Lemma interpolate_bin_data_cases (py_sum : list float -> float) (bs : bin_stats)
    (target_bin : string) (existing_bins : list string) (route_data : route)
    (g : bin) :
  interpolate_bin_data py_sum bs target_bin existing_bins route_data = Ok g ->
  exists v25 v50 v75,
    g = generated_bin v25 v50 v75
          (selected_strategy bs target_bin existing_bins route_data).
Proof.
  unfold interpolate_bin_data, selected_strategy.
  assert (negb (is_empty route_data) && dict_mem baseline_bin route_data
          = dict_mem baseline_bin route_data) as ->.
  { destruct route_data; [reflexivity|]. reflexivity. }
  destruct (dict_mem baseline_bin route_data).
  - destruct (getitem route_data baseline_bin); cbn [bind]; [|discriminate].
    destruct (getitem a P50); cbn [bind]; [|discriminate].
    apply scaled_bin_shape.
  - destruct (stats_of bs baseline_bin p50) as [st|].
    + destruct (py_mean (p50 st)); cbn [bind]; [|discriminate].
      apply scaled_bin_shape.
    + destruct (surrounding bs (get_bin_index target_bin) existing_bins)
        as [items|] eqn:Es; cbn [bind]; [|discriminate].
      rewrite (surrounding_empty _ _ _ _ Es), negb_involutive.
      destruct (existsb (contributes bs) existing_bins).
      * destruct (weighted_average py_sum items avg_p25); cbn [bind]; [|discriminate].
        destruct (weighted_average py_sum items avg_p50); cbn [bind]; [|discriminate].
        destruct (weighted_average py_sum items avg_p75); cbn [bind]; [|discriminate].
        intros [= <-]. eauto.
      * destruct (stats_of bs target_bin p25) as [st|].
        -- destruct (py_mean (p25 st)); cbn [bind]; [|discriminate].
           destruct (py_mean (p50 st)); cbn [bind]; [|discriminate].
           destruct (py_mean (p75 st)); cbn [bind]; [|discriminate].
           intros [= <-]. eauto.
        -- intros [= <-]. eauto.
Qed.

Lemma selected_strategy_known (bs : bin_stats) (target_bin : string)
    (existing_bins : list string) (route_data : route) :
  In (selected_strategy bs target_bin existing_bins route_data) STRATEGIES.
Proof.
  unfold selected_strategy, STRATEGIES.
  destruct (dict_mem baseline_bin route_data); [simpl; tauto|].
  destruct (stats_of bs baseline_bin p50); [simpl; tauto|].
  destruct (existsb (contributes bs) existing_bins); [simpl; tauto|].
  destruct (stats_of bs target_bin p25); simpl; tauto.
Qed.

(** X4: Whatever [interpolate_bin_data] returns is a bin with exactly the keys
    p25, p50, p75, sample_size, generated and method, in that order, with
    sample size 0, the generated flag set and one of the five strategy names
    as its method. *)
Theorem interpolate_bin_data_generated_bin (py_sum : list float -> float)
    (bs : bin_stats) (target_bin : string) (existing_bins : list string)
    (route_data : route) (g : bin) :
  interpolate_bin_data py_sum bs target_bin existing_bins route_data = Ok g ->
  dict_keys g = [P25; P50; P75; "sample_size"; "generated"; "method"]
  /\ dict_get g "sample_size" = Some (PyInt 0)
  /\ dict_get g "generated" = Some (PyBool true)
  /\ exists method, dict_get g "method" = Some (PyStr method) /\ In method STRATEGIES.
Proof.
  intros H.
  destruct (interpolate_bin_data_cases _ _ _ _ _ _ H) as (v25 & v50 & v75 & ->).
  repeat split. eexists. split; [reflexivity|apply selected_strategy_known].
Qed.

(** X5: The method written into a generated bin is the first strategy that
    applies, in the fixed order: [baseline_scaling] when the route data hold a
    ["0-50000"] bin; else [baseline_scaling_global] when the table has
    ["0-50000"] values; else [weighted_interpolation] when some existing bucket
    of the route is a canonical one with values in the table; else
    [cross_combination_average] when the table has values for the target;
    else [default_fallback]. *)
Theorem interpolate_bin_data_strategy_order (py_sum : list float -> float)
    (bs : bin_stats) (target_bin : string) (existing_bins : list string)
    (route_data : route) (g : bin) :
  interpolate_bin_data py_sum bs target_bin existing_bins route_data = Ok g ->
  dict_get g "method"
  = Some (PyStr (selected_strategy bs target_bin existing_bins route_data)).
Proof.
  intros H.
  destruct (interpolate_bin_data_cases _ _ _ _ _ _ H) as (v25 & v50 & v75 & ->).
  reflexivity.
Qed.

(** X6: When the route data hold no ["0-50000"] bin and the statistics table has
    no values for ["0-50000"], for the target, or for any existing bucket of
    the route, [interpolate_bin_data] does not fail and returns the fallback
    constants 10.0, 15.0 and 25.0 with method [default_fallback]. *)
Theorem interpolate_bin_data_default_fallback (py_sum : list float -> float)
    (bs : bin_stats) (target_bin : string) (existing_bins : list string)
    (route_data : route) :
  dict_get route_data "0-50000" = None ->
  stats_of bs "0-50000" p50 = None ->
  stats_of bs target_bin p25 = None ->
  (forall b, In b existing_bins -> stats_of bs b p25 = None) ->
  interpolate_bin_data py_sum bs target_bin existing_bins route_data
  = Ok (generated_bin (PyFloat 10) (PyFloat 15) (PyFloat 25) "default_fallback").
Proof.
  intros Hroute Hbase Htarget Hexisting.
  unfold interpolate_bin_data, dict_mem.
  change baseline_bin with "0-50000". rewrite Hroute, andb_false_r, Hbase.
  rewrite surrounding_none; cbn [bind is_empty negb].
  - now rewrite Htarget.
  - apply not_true_is_false. intros Hex. apply existsb_exists in Hex.
    destruct Hex as (b & Hb & Hc). unfold contributes in Hc.
    now rewrite (Hexisting b Hb) in Hc.
Qed.

(** ** The gap filler, route by route *)

Lemma unique_routes_route_at (data : dataset) (o d t : string)
    (destinations : dict (dict route)) (tickerhashes : dict route) (bins : route) :
  unique_routes data = true ->
  In (o, destinations) data -> In (d, tickerhashes) destinations ->
  In (t, bins) tickerhashes -> route_at data o d t = Some bins.
Proof.
  unfold unique_routes. rewrite andb_true_iff, forallb_forall.
  intros [Hu1 Hu23] Ho Hd Ht.
  specialize (Hu23 _ Ho). cbn [snd] in Hu23.
  rewrite andb_true_iff, forallb_forall in Hu23. destruct Hu23 as [Hu2 Hu3].
  specialize (Hu3 _ Hd). cbn [snd] in Hu3.
  unfold route_at.
  rewrite (In_dict_get data o destinations Hu1 Ho).
  rewrite (In_dict_get destinations d tickerhashes Hu2 Hd).
  exact (In_dict_get tickerhashes t bins Hu3 Ht).
Qed.


Lemma NoDup_flat_map_keyed {A B : Type} (g : string * A -> list B)
    (pr : B -> string) (l : dict A) :
  unique_keys l = true ->
  (forall k a b, In b (g (k, a)) -> pr b = k) ->
  (forall e, In e l -> NoDup (g e)) ->
  NoDup (flat_map g l).
Proof.
  intros Hu Hpr Hg. induction l as [|[k a] l IH]; simpl; [constructor|].
  unfold unique_keys in Hu. simpl in Hu.
  rewrite andb_true_iff, negb_true_iff in Hu. destruct Hu as [Hnot Hu].
  apply NoDup_app.
  - apply Hg. now left.
  - apply IH; [exact Hu|]. intros e He. apply Hg. now right.
  - intros b Hb Hb'. apply in_flat_map in Hb'. destruct Hb' as ([k' a'] & Hin & Hb').
    pose proof (Hpr _ _ _ Hb) as E1. pose proof (Hpr _ _ _ Hb') as E2.
    assert (mem_string k (dict_keys l) = true) as Hmem.
    { apply mem_string_In. unfold dict_keys.
      apply (in_map fst) in Hin. simpl in Hin. congruence. }
    congruence.
Qed.

Lemma find_missing_bins_NoDup (data : dataset) :
  unique_routes data = true -> NoDup (find_missing_bins data).
Proof.
  unfold unique_routes. rewrite andb_true_iff, forallb_forall. intros [Hu1 Hu23].
  unfold find_missing_bins.
  apply (NoDup_flat_map_keyed _ (fun c : combination => fst (fst (fst c))));
    [exact Hu1| |].
  - intros o destinations c Hc. apply in_flat_map in Hc.
    destruct Hc as ([d tickerhashes] & _ & Hc). apply in_flat_map in Hc.
    destruct Hc as ([t bins] & _ & Hc).
    destruct (is_empty (missing_bins_of bins)); [destruct Hc|].
    destruct Hc as [<-|[]]. reflexivity.
  - intros [o destinations] Ho. specialize (Hu23 _ Ho). cbn [snd] in Hu23.
    rewrite andb_true_iff, forallb_forall in Hu23. destruct Hu23 as [Hu2 Hu3].
    apply (NoDup_flat_map_keyed _ (fun c : combination => snd (fst (fst c))));
      [exact Hu2| |].
    + intros d tickerhashes c Hc. apply in_flat_map in Hc.
      destruct Hc as ([t bins] & _ & Hc).
      destruct (is_empty (missing_bins_of bins)); [destruct Hc|].
      destruct Hc as [<-|[]]. reflexivity.
    + intros [d tickerhashes] Hd. specialize (Hu3 _ Hd). cbn [snd] in Hu3.
      apply (NoDup_flat_map_keyed _ (fun c : combination => snd (fst c)));
        [exact Hu3| |].
      * intros t bins c Hc.
        destruct (is_empty (missing_bins_of bins)); [destruct Hc|].
        destruct Hc as [<-|[]]. reflexivity.
      * intros [t bins] _.
        destruct (is_empty (missing_bins_of bins)); repeat constructor. intros [].
Qed.

Lemma find_missing_bins_route (data : dataset) (o d t : string) (ms : list string) :
  unique_routes data = true ->
  In (o, d, t, ms) (find_missing_bins data) <->
  exists bins, route_at data o d t = Some bins
               /\ ms = missing_bins_of bins /\ ms <> [].
Proof.
  intros Hu. rewrite in_find_missing_bins. split.
  - intros (ds & ts & bins & Ho & Hd & Ht & Hms & Hne).
    exists bins. split; [|now split].
    exact (unique_routes_route_at data o d t ds ts bins Hu Ho Hd Ht).
  - intros (bins & Hat & Hms & Hne).
    destruct (route_at_In data o d t bins Hat) as (ds & ts & Ho & Hd & Ht).
    exists ds, ts, bins. auto.
Qed.

Lemma get_route_ok (pd : dataset) (o d t : string) (bins : route) :
  get_route pd o d t = Ok bins -> route_at pd o d t = Some bins.
Proof.
  unfold route_at, get_route, getitem.
  destruct (dict_get pd o) as [destinations|]; cbn [bind]; [|discriminate].
  destruct (dict_get destinations d) as [tickerhashes|]; cbn [bind]; [|discriminate].
  destruct (dict_get tickerhashes t); [now intros [= ->]|discriminate].
Qed.

Lemma fill_combination_ok (py_sum : list float -> float) (bs : bin_stats)
    (pd pd' : dataset) (o d t : string) (ms : list string) :
  fill_combination py_sum bs pd (o, d, t, ms) = Ok pd' ->
  exists bins bins',
    route_at pd o d t = Some bins
    /\ fill_route py_sum bs (dict_keys bins) ms bins = Ok bins'
    /\ pd' = put_route pd o d t bins'.
Proof.
  intros H.
  assert (exists bins, route_at pd o d t = Some bins) as [bins Hat].
  { unfold fill_combination in H.
    destruct (get_route pd o d t) as [bins|] eqn:E; [|cbn in H; discriminate].
    exists bins. now apply get_route_ok. }
  rewrite (fill_combination_fill_route py_sum bs pd o d t ms bins Hat) in H.
  destruct (fill_route py_sum bs (dict_keys bins) ms bins) as [bins'|] eqn:Ef;
    cbn [bind] in H; [|discriminate].
  injection H as <-. eauto.
Qed.

(** What the outer loop makes of one route, when no route occurs in two
    combinations. *)
Lemma populate_loop_route (py_sum : list float -> float) (bs : bin_stats)
    (o d t : string) (mc : list combination) :
  forall pd out,
    NoDup mc ->
    (forall o' d' t' ms ms',
        In (o', d', t', ms) mc -> In (o', d', t', ms') mc -> ms = ms') ->
    foldM (fill_combination py_sum bs) mc pd = Ok out ->
    (forall ms, In (o, d, t, ms) mc ->
       exists bins bins',
         route_at pd o d t = Some bins
         /\ fill_route py_sum bs (dict_keys bins) ms bins = Ok bins'
         /\ route_at out o d t = Some bins')
    /\ ((forall ms, ~ In (o, d, t, ms) mc) -> route_at out o d t = route_at pd o d t).
Proof.
  induction mc as [|[[[o1 d1] t1] ms1] mc IH]; intros pd out Hnd Hfun; cbn [foldM].
  - intros [= <-]. split; [intros ms []|reflexivity].
  - destruct (fill_combination py_sum bs pd (o1, d1, t1, ms1)) as [pd1|] eqn:E1;
      cbn [bind]; [|discriminate].
    intros Hrest.
    destruct (fill_combination_ok _ _ _ _ _ _ _ _ E1) as (r1 & r1' & Hat1 & Hfill1 & ->).
    inversion Hnd as [|c l Hnotin Hnd']; subst.
    assert (forall ms, ~ In (o1, d1, t1, ms) mc) as Hfresh.
    { intros ms Hin.
      assert (ms1 = ms) as <-
        by (apply (Hfun o1 d1 t1); [now left|now right]).
      contradiction. }
    destruct (IH (put_route pd o1 d1 t1 r1') out Hnd') as [Hin Hout]; auto.
    { intros o' d' t' ms ms' H1 H2. apply (Hfun o' d' t'); now right. }
    pose proof (route_at_put_route pd o1 d1 t1 o d t r1 r1' Hat1) as Hput.
    destruct (same_route o1 d1 t1 o d t) eqn:Esame.
    + apply same_route_true in Esame. destruct Esame as (-> & -> & ->).
      rewrite (Hout Hfresh), Hput. split.
      * intros ms [Heq|Hms]; [|now destruct (Hfresh ms)].
        injection Heq as <-. eauto.
      * intros Hno. destruct (Hno ms1). now left.
    + rewrite Hput in Hin, Hout. split.
      * intros ms [Heq|Hms]; [|now apply Hin].
        injection Heq as -> -> -> _.
        assert (same_route o d t o d t = true) by now apply same_route_true.
        congruence.
      * intros Hno. apply Hout. intros ms Hms. apply (Hno ms). now right.
Qed.

(* In the dataset the gap filler returns, the bins of a route are those the
   inner loop produces from the route's own input bins, its own missing
   buckets and the global table; no route is added or removed. *)
Lemma gap_fill_fill_route (py_sum : list float -> float) (data out : dataset)
    (o d t : string) :
  unique_routes data = true ->
  gap_fill py_sum data = Ok out ->
  exists bs,
    collect_bin_statistics data = Ok bs
    /\ match route_at data o d t with
       | Some bins =>
           exists bins',
             fill_route py_sum bs (dict_keys bins) (missing_bins_of bins) bins
             = Ok bins'
             /\ route_at out o d t = Some bins'
       | None => route_at out o d t = None
       end.
Proof.
  intros Hu. unfold gap_fill, populate_missing_bins.
  destruct (collect_bin_statistics data) as [bs|]; cbn [bind]; [|discriminate].
  intros Hloop. exists bs. split; [reflexivity|].
  destruct (populate_loop_route py_sum bs o d t (find_missing_bins data) data out)
    as [Hin Hout]; auto.
  { now apply find_missing_bins_NoDup. }
  { intros o' d' t' ms ms' H1 H2.
    apply (find_missing_bins_route data o' d' t' ms Hu) in H1.
    apply (find_missing_bins_route data o' d' t' ms' Hu) in H2.
    destruct H1 as (b1 & Hb1 & -> & _), H2 as (b2 & Hb2 & -> & _). congruence. }
  destruct (route_at data o d t) as [bins|] eqn:Hat.
  - destruct (missing_bins_of bins) as [|m ms] eqn:Em.
    + exists bins. split; [reflexivity|]. apply Hout.
      intros ms Hms. apply (find_missing_bins_route data o d t ms Hu) in Hms.
      destruct Hms as (b & Hb & -> & Hne). congruence.
    + destruct (Hin (m :: ms)) as (b & b' & Hb & Hfill & Hb').
      { apply (find_missing_bins_route data o d t _ Hu). exists bins.
        rewrite Em. repeat split; auto. discriminate. }
      exists b'. assert (b = bins) as -> by congruence. now split.
  - apply Hout. intros ms Hms.
    apply (find_missing_bins_route data o d t ms Hu) in Hms.
    destruct Hms as (b & Hb & _). congruence.
Qed.

(** X7: Gap filling is local to each route: what the gap filler returns for a
    route depends only on the bins the route holds in the input and on the
    statistics table.  Two datasets with the same table that agree on a
    route get the same bins for it, whatever their other routes are. *)
Theorem gap_fill_route_local (py_sum : list float -> float)
    (data1 data2 out1 out2 : dataset) (o d t : string) :
  unique_routes data1 = true ->
  unique_routes data2 = true ->
  gap_fill py_sum data1 = Ok out1 ->
  gap_fill py_sum data2 = Ok out2 ->
  collect_bin_statistics data1 = collect_bin_statistics data2 ->
  route_at data1 o d t = route_at data2 o d t ->
  route_at out1 o d t = route_at out2 o d t.
Proof.
  intros Hu1 Hu2 Hfill1 Hfill2 Hstats Hroute.
  destruct (gap_fill_fill_route py_sum data1 out1 o d t Hu1 Hfill1) as (bs1 & Hbs1 & H1).
  destruct (gap_fill_fill_route py_sum data2 out2 o d t Hu2 Hfill2) as (bs2 & Hbs2 & H2).
  assert (bs1 = bs2) as -> by congruence.
  rewrite <- Hroute in H2.
  destruct (route_at data1 o d t) as [bins|]; [|congruence].
  destruct H1 as (b1 & Hb1 & ->), H2 as (b2 & Hb2 & ->). congruence.
Qed.

Lemma fill_route_other (py_sum : list float -> float) (bs : bin_stats)
    (existing_bins missing_bins : list string) :
  forall bins bins',
    fill_route py_sum bs existing_bins missing_bins bins = Ok bins' ->
    forall b, ~ In b missing_bins -> dict_get bins' b = dict_get bins b.
Proof.
  induction missing_bins as [|bin_name rest IH]; intros bins bins'; cbn [fill_route].
  - now intros [= <-].
  - destruct (interpolate_bin_data py_sum bs bin_name existing_bins bins) as [g|];
      cbn [bind]; [|discriminate].
    intros Hfill b Hb. rewrite (IH _ _ Hfill) by (intros H; apply Hb; now right).
    apply dict_get_set_other. intros ->. apply Hb. now left.
Qed.

Lemma fill_route_generated (py_sum : list float -> float) (bs : bin_stats)
    (existing_bins missing_bins : list string) :
  forall bins bins',
    fill_route py_sum bs existing_bins missing_bins bins = Ok bins' ->
    forall b, In b missing_bins ->
      exists v25 v50 v75 method,
        dict_get bins' b = Some (generated_bin v25 v50 v75 method)
        /\ In method STRATEGIES.
Proof.
  induction missing_bins as [|bin_name rest IH]; intros bins bins'; cbn [fill_route].
  - intros _ b [].
  - destruct (interpolate_bin_data py_sum bs bin_name existing_bins bins) as [g|] eqn:Eg;
      cbn [bind]; [|discriminate].
    intros Hfill b Hb.
    destruct (in_dec string_dec b rest) as [Hin|Hnin]; [exact (IH _ _ Hfill b Hin)|].
    destruct Hb as [<-|Hb]; [|contradiction].
    rewrite (fill_route_other _ _ _ _ _ _ Hfill bin_name Hnin), dict_get_set_same.
    destruct (interpolate_bin_data_cases _ _ _ _ _ _ Eg) as (v25 & v50 & v75 & ->).
    do 4 eexists. split; [reflexivity|apply selected_strategy_known].
Qed.

Lemma dict_keys_set_present {V : Type} (d : dict V) (k : string) (v : V) :
  dict_get d k <> None -> dict_keys (dict_set d k v) = dict_keys d.
Proof.
  induction d as [|[k0 v0] d IH]; simpl; [congruence|].
  destruct (k0 =? k); simpl; [reflexivity|]. intros H. now rewrite IH.
Qed.





Lemma gap_fill_route_complete (py_sum : list float -> float) (data out : dataset)
    (o d t : string) (bins : route) :
  unique_routes data = true ->
  gap_fill py_sum data = Ok out ->
  route_at data o d t = Some bins ->
  exists bins', route_at out o d t = Some bins' /\ missing_bins_of bins' = [].
Proof.
  intros Hu Hfill Hat.
  destruct (gap_fill_fill_route py_sum data out o d t Hu Hfill) as (bs & _ & H).
  rewrite Hat in H. destruct H as (bins' & Hroute & Hout).
  exists bins'. split; [exact Hout|].
  apply missing_bins_of_nil. intros b Hb.
  destruct (fill_route_covers _ _ _ _ _ _ Hroute) as [Hin Hmono].
  destruct (dict_get bins b) eqn:Eb.
  - apply Hmono. congruence.
  - apply Hin. apply missing_bins_of_spec. now split.
Qed.

(** X8: The gap filler does not alter what is stored: a bin that a route holds
    in the input is the same bin in the output, and a route exists in the
    output exactly when it exists in the input. *)
Theorem gap_fill_keeps_existing_bins (py_sum : list float -> float)
    (data out : dataset) (o d t : string) :
  unique_routes data = true ->
  gap_fill py_sum data = Ok out ->
  (route_at out o d t = None <-> route_at data o d t = None)
  /\ forall bin_name b,
       bin_at data o d t bin_name = Some b -> bin_at out o d t bin_name = Some b.
Proof.
  intros Hu Hfill.
  destruct (gap_fill_fill_route py_sum data out o d t Hu Hfill) as (bs & _ & H).
  unfold bin_at. destruct (route_at data o d t) as [bins|].
  - destruct H as (bins' & Hroute & ->). split; [split; discriminate|].
    intros bin_name b Hb.
    rewrite (fill_route_other _ _ _ _ _ _ Hroute); [exact Hb|].
    rewrite missing_bins_of_spec. intros [_ Hnone]. congruence.
  - rewrite H. split; [tauto|discriminate].
Qed.


(** X10: Every bin the gap filler adds, that is every canonical bucket the input
    route lacks, is written with the keys p25, p50, p75, sample_size,
    generated and method, with sample size 0, the generated flag set and one
    of the five strategy names as method. *)
Theorem gap_fill_added_bins_generated (py_sum : list float -> float)
    (data out : dataset) (o d t : string) (bins : route) (bin_name : string) :
  unique_routes data = true ->
  gap_fill py_sum data = Ok out ->
  route_at data o d t = Some bins ->
  In bin_name EXPECTED_BINS ->
  dict_get bins bin_name = None ->
  exists g method,
    bin_at out o d t bin_name = Some g
    /\ dict_keys g = [P25; P50; P75; "sample_size"; "generated"; "method"]
    /\ dict_get g "sample_size" = Some (PyInt 0)
    /\ dict_get g "generated" = Some (PyBool true)
    /\ dict_get g "method" = Some (PyStr method)
    /\ In method STRATEGIES.
Proof.
  intros Hu Hfill Hat Hcanon Hnone.
  destruct (gap_fill_fill_route py_sum data out o d t Hu Hfill) as (bs & _ & H).
  rewrite Hat in H. destruct H as (bins' & Hroute & Hout).
  destruct (fill_route_generated _ _ _ _ _ _ Hroute bin_name)
    as (v25 & v50 & v75 & method & Hg & Hm).
  { apply missing_bins_of_spec. now split. }
  exists (generated_bin v25 v50 v75 method), method.
  unfold bin_at. rewrite Hout. repeat split; auto.
Qed.

Lemma forallb_dict_set_keyed {V : Type} (q : string * V -> bool) (d : dict V)
    (k : string) (v : V) :
  forallb q d = true -> q (k, v) = true -> forallb q (dict_set d k v) = true.
Proof.
  intros Hd Hv. induction d as [|[k0 v0] d IH]; simpl.
  - now rewrite Hv.
  - simpl in Hd. rewrite andb_true_iff in Hd. destruct Hd as [H0 Hd].
    destruct (k0 =? k) eqn:E; simpl.
    + apply String.eqb_eq in E. subst k0. now rewrite Hv, Hd.
    + now rewrite H0, IH.
Qed.

Lemma unique_routes_put_route (pd : dataset) (o d t : string) (bins : route) :
  unique_routes pd = true -> unique_routes (put_route pd o d t bins) = true.
Proof.
  unfold unique_routes, put_route. rewrite andb_true_iff. intros [Hu1 Hu23].
  destruct (dict_get pd o) as [destinations|] eqn:Eo;
    [|now rewrite Hu1, Hu23].
  destruct (dict_get destinations d) as [tickerhashes|] eqn:Ed;
    [|now rewrite Hu1, Hu23].
  pose proof Hu23 as Hall. rewrite forallb_forall in Hall.
  specialize (Hall _ (dict_get_In pd o destinations Eo)). cbn [snd] in Hall.
  rewrite andb_true_iff in Hall. destruct Hall as [Hu2 Hu3].
  pose proof Hu3 as Hall3. rewrite forallb_forall in Hall3.
  specialize (Hall3 _ (dict_get_In destinations d tickerhashes Ed)). cbn [snd] in Hall3.
  rewrite unique_keys_dict_set by assumption. cbn [andb].
  apply forallb_dict_set_keyed; [assumption|]. cbn [snd].
  rewrite unique_keys_dict_set by assumption. cbn [andb].
  apply forallb_dict_set_keyed; [assumption|]. cbn [snd].
  now apply unique_keys_dict_set.
Qed.

Lemma gap_fill_unique_routes (py_sum : list float -> float) (data out : dataset) :
  unique_routes data = true ->
  gap_fill py_sum data = Ok out ->
  unique_routes out = true.
Proof.
  intros Hu. unfold gap_fill, populate_missing_bins.
  destruct (collect_bin_statistics data) as [bs|]; cbn [bind]; [|discriminate].
  apply (foldM_ok_invariant (fill_combination py_sum bs)
           (fun pd => unique_routes pd = true)); [|exact Hu].
  intros pd [[[o d] t] ms] pd' _ Hpd Hstep.
  destruct (fill_combination_ok _ _ _ _ _ _ _ _ Hstep) as (r & r' & _ & _ & ->).
  now apply unique_routes_put_route.
Qed.

Lemma for_all_routes_route_at (p : route -> bool) (data : dataset) :
  unique_routes data = true ->
  (forall o d t bins, route_at data o d t = Some bins -> p bins = true) ->
  for_all_routes p data = true.
Proof.
  intros Hu Hp. unfold for_all_routes.
  apply forallb_forall. intros [o destinations] Ho.
  apply forallb_forall. intros [d tickerhashes] Hd.
  apply forallb_forall. intros [t bins] Ht. cbn [snd] in *.
  apply (Hp o d t). exact (unique_routes_route_at data o d t _ _ bins Hu Ho Hd Ht).
Qed.

Lemma fill_route_statistics (py_sum : list float -> float) (bs : bin_stats)
    (existing_bins missing_bins : list string) :
  forall bins bins',
    for_all_canonical_bins has_statistics bins = true ->
    fill_route py_sum bs existing_bins missing_bins bins = Ok bins' ->
    for_all_canonical_bins has_statistics bins' = true.
Proof.
  induction missing_bins as [|bin_name rest IH]; intros bins bins' Hbins;
    cbn [fill_route].
  - now intros [= <-].
  - destruct (interpolate_bin_data py_sum bs bin_name existing_bins bins) as [g|] eqn:Eg;
      cbn [bind]; [|discriminate].
    apply IH. unfold for_all_canonical_bins.
    apply forallb_dict_set_keyed; [exact Hbins|]. cbn [fst snd].
    destruct (interpolate_bin_data_cases _ _ _ _ _ _ Eg) as (v25 & v50 & v75 & ->).
    apply orb_true_r.
Qed.

(** X11: Running the gap filler on its own output changes nothing: the output
    has unique route keys, [find_missing_bins] finds nothing missing in it,
    and a second run returns it as it is. *)
Theorem gap_fill_second_run (py_sum py_sum' : list float -> float)
    (data out : dataset) :
  unique_routes data = true ->
  gap_fill py_sum data = Ok out ->
  unique_routes out = true
  /\ find_missing_bins out = []
  /\ gap_fill py_sum' out = Ok out.
Proof.
  intros Hu Hfill.
  pose proof (gap_fill_unique_routes py_sum data out Hu Hfill) as Hu'.
  assert (forall o d t bins', route_at out o d t = Some bins' ->
            exists bs bins,
              collect_bin_statistics data = Ok bs
              /\ route_at data o d t = Some bins
              /\ fill_route py_sum bs (dict_keys bins) (missing_bins_of bins) bins
                 = Ok bins') as Hroutes.
  { intros o d t bins' Hout.
    destruct (gap_fill_fill_route py_sum data out o d t Hu Hfill) as (bs & Hbs & H).
    destruct (route_at data o d t) as [bins|]; [|congruence].
    destruct H as (b' & Hroute & Hout'). exists bs, bins.
    repeat split; auto. congruence. }
  assert (fully_populated out = true) as Hfull.
  { apply for_all_routes_route_at; [exact Hu'|].
    intros o d t bins' Hout.
    destruct (Hroutes o d t bins' Hout) as (bs & bins & _ & Hat & _).
    destruct (gap_fill_route_complete py_sum data out o d t bins Hu Hfill Hat)
      as (b' & Hb' & Hnil).
    assert (b' = bins') as -> by congruence. now rewrite Hnil. }
  assert (statistics_present out = true) as Hstats.
  { apply for_all_routes_route_at; [exact Hu'|].
    intros o d t bins' Hout.
    destruct (Hroutes o d t bins' Hout) as (bs & bins & Hbs & Hat & Hroute).
    apply (fill_route_statistics py_sum bs (dict_keys bins) (missing_bins_of bins)
             bins bins'); [|exact Hroute].
    destruct (route_at_In data o d t bins Hat) as (ds & ts & Ho & Hd & Ht).
    apply (for_all_routes_In _ data o d t ds ts bins); auto.
    exact (collect_ok_present data [] bs Hbs). }
  split; [exact Hu'|]. split.
  - now apply find_missing_bins_fully_populated.
  - now apply gap_fill_fully_populated.
Qed.

(** X12: A combination that names a route the dataset does not hold makes
    [populate_missing_bins] raise the [KeyError] of the origin, destination
    or asset key, before anything is generated for it. *)
Theorem populate_missing_bins_unknown_route (py_sum : list float -> float)
    (data : dataset) (bs : bin_stats) (o d t : string) (ms : list string)
    (rest : list combination) :
  collect_bin_statistics data = Ok bs ->
  route_at data o d t = None ->
  exists k,
    In k [o; d; t]
    /\ populate_missing_bins py_sum data ((o, d, t, ms) :: rest) = Raise (KeyError k).
Proof.
  intros Hbs Hat. unfold populate_missing_bins. rewrite Hbs.
  cbn [bind foldM]. unfold fill_combination, get_route, getitem.
  unfold route_at in Hat.
  destruct (dict_get data o) as [destinations|]; cbn [bind];
    [|exists o; split; [simpl; tauto|reflexivity]].
  destruct (dict_get destinations d) as [tickerhashes|]; cbn [bind];
    [|exists d; split; [simpl; tauto|reflexivity]].
  rewrite Hat. cbn [bind]. exists t. split; [simpl; tauto|reflexivity].
Qed.

(** ** Chain names *)

Lemma lower_ascii_ignoring_case (a b : ascii) :
  Ascii.eqb (lower_ascii a) (lower_ascii b) = same_char_ignoring_case a b.
Proof.
  assert (forallb (fun x =>
            forallb (fun y =>
              Bool.eqb (Ascii.eqb (lower_ascii x) (lower_ascii y))
                       (same_char_ignoring_case x y))
              (map ascii_of_nat (seq 0 256)))
            (map ascii_of_nat (seq 0 256)) = true) as H
    by (vm_compute; reflexivity).
  rewrite forallb_forall in H. specialize (H a (ascii_enumerated a)).
  rewrite forallb_forall in H. specialize (H b (ascii_enumerated b)).
  now apply Bool.eqb_prop.
Qed.

Lemma lower_eqb_ignoring_case (a b : string) :
  (lower a =? lower b) = equal_ignoring_case a b.
Proof.
  revert b. induction a as [|x a IH]; intros [|y b]; try reflexivity.
  cbn [lower String.eqb equal_ignoring_case].
  now rewrite IH, lower_ascii_ignoring_case.
Qed.

(* The names of [chain_mapping] are in lower case, and no id is a name. *)
Lemma chain_mapping_entry (k id : string) :
  dict_get chain_mapping k = Some id ->
  lower k = k /\ dict_get chain_mapping (lower id) = None.
Proof.
  intros E. apply dict_get_In in E. simpl in E.
  repeat (destruct E as [E|E]; [injection E as <- <-; split; reflexivity|]).
  destruct E.
Qed.

(** X13: on ASCII text, [get_chain_id_from_name] is idempotent (a resolved
    id, resolved again, is the same id), passes through unchanged a text
    that is none of the known chain names up to letter case, and resolves a
    known chain name to its id whatever the case of its letters. *)
Theorem get_chain_id_from_name_idempotent (chain_name : string) :
  is_ascii chain_name = true ->
  get_chain_id_from_name (get_chain_id_from_name chain_name)
  = get_chain_id_from_name chain_name
  /\ ((forall k, In k (dict_keys chain_mapping) ->
                 equal_ignoring_case k chain_name = false) ->
      get_chain_id_from_name chain_name = chain_name)
  /\ (forall k id,
        dict_get chain_mapping k = Some id ->
        equal_ignoring_case k chain_name = true ->
        get_chain_id_from_name chain_name = id).
Proof.
  intros _. unfold get_chain_id_from_name, dict_get_default.
  split; [|split].
  - destruct (dict_get chain_mapping (lower chain_name)) as [id|] eqn:E.
    + now rewrite (proj2 (chain_mapping_entry _ _ E)).
    + now rewrite E.
  - intros Hnone.
    destruct (dict_get chain_mapping (lower chain_name)) as [id|] eqn:E;
      [|reflexivity].
    exfalso. pose proof (proj1 (chain_mapping_entry _ _ E)) as Hlow.
    assert (equal_ignoring_case (lower chain_name) chain_name = false) as Hne.
    { apply Hnone. apply dict_get_In in E.
      exact (in_map fst _ _ E). }
    rewrite <- lower_eqb_ignoring_case, Hlow, String.eqb_refl in Hne.
    discriminate.
  - intros k id Hk Heq.
    rewrite <- lower_eqb_ignoring_case in Heq. apply String.eqb_eq in Heq.
    rewrite (proj1 (chain_mapping_entry _ _ Hk)) in Heq.
    now rewrite <- Heq, Hk.
Qed.

(** ** Token amounts *)

Lemma string_app_assoc (a b c : string) : (a ++ b) ++ c = a ++ b ++ c.
Proof.
  induction a as [|x a IH]; simpl; [reflexivity|now rewrite IH].
Qed.

Lemma string_app_nil_r (a : string) : a ++ "" = a.
Proof.
  induction a as [|x a IH]; simpl; [reflexivity|now rewrite IH].
Qed.

Lemma span_spec (p : ascii -> bool) (s a b : string) :
  span p s = (a, b) ->
  s = a ++ b /\ all_chars p a = true
  /\ match b with
     | EmptyString => True
     | String c _ => p c = false
     end.
Proof.
  revert a b. induction s as [|c s IH]; intros a b; simpl.
  - intros [= <- <-]. auto.
  - destruct (p c) eqn:Ec.
    + destruct (span p s) as [a' b'] eqn:Es. intros [= <- <-].
      destruct (IH a' b' eq_refl) as (-> & Ha & Hb). simpl. rewrite Ec. auto.
    + intros [= <- <-]. simpl. auto.
Qed.

Lemma span_app (p : ascii -> bool) (a b : string) :
  all_chars p a = true ->
  match b with
  | EmptyString => True
  | String c _ => p c = false
  end ->
  span p (a ++ b) = (a, b).
Proof.
  intros Ha Hb. induction a as [|c a IH]; simpl in *.
  - destruct b as [|c b]; [reflexivity|]. simpl. now rewrite Hb.
  - rewrite andb_true_iff in Ha. destruct Ha as [Hc Ha].
    now rewrite Hc, (IH Ha).
Qed.

Lemma upper_ascii_letter (c : ascii) :
  is_letter c = true ->
  is_upper_letter (upper_ascii c) = true
  /\ upper_ascii (upper_ascii c) = upper_ascii c.
Proof.
  destruct c as [[] [] [] [] [] [] [] []]; vm_compute;
    intros H; try discriminate H; split; reflexivity.
Qed.

Lemma upper_letters (s : string) :
  all_chars is_letter s = true ->
  all_chars is_upper_letter (upper s) = true /\ upper (upper s) = upper s.
Proof.
  induction s as [|c s IH]; simpl; [auto|].
  rewrite andb_true_iff. intros [Hc Hs]. destruct (IH Hs) as [H1 H2].
  destruct (upper_ascii_letter c Hc) as [H3 H4].
  now rewrite H1, H2, H3, H4.
Qed.

Lemma append_empty_iff (a b : string) :
  is_empty_string (a ++ b) = is_empty_string a && is_empty_string b.
Proof.
  destruct a; reflexivity.
Qed.

Lemma match_token_amount_shape (s int_part frac_part letters : string) :
  match_token_amount s = Some (int_part, frac_part, letters) ->
  exists spaces tail,
    s = decimal_text int_part frac_part ++ spaces ++ letters ++ tail
    /\ (tail = "" \/ tail = String "010"%char "")
    /\ all_chars is_digit int_part = true /\ int_part <> ""
    /\ all_chars is_digit frac_part = true
    /\ all_chars is_space spaces = true /\ spaces <> ""
    /\ all_chars is_letter letters = true /\ letters <> "".
Proof.
  unfold match_token_amount.
  destruct (span is_digit s) as [i after_int] eqn:Ei.
  destruct (span_spec _ _ _ _ Ei) as (-> & Hi & _).
  destruct (is_empty_string i) eqn:Ne; [discriminate|].
  assert (exists f after_number,
    match after_int with
    | String "."%char rest =>
        let '(digits, after_frac) := span is_digit rest in
        if is_empty_string digits then (EmptyString, after_int)
        else (digits, after_frac)
    | _ => (EmptyString, after_int)
    end = (f, after_number)
    /\ all_chars is_digit f = true
    /\ (i ++ after_int = decimal_text i f ++ after_number)) as (f & after_number & -> & Hf & Heq).
  { destruct after_int as [|c rest]; [exists "", ""; auto|].
    destruct (Ascii.eqb_spec c "."%char) as [->|Hc].
    - destruct (span is_digit rest) as [digits after_frac] eqn:Ef.
      destruct (span_spec _ _ _ _ Ef) as (-> & Hd & _).
      destruct (is_empty_string digits) eqn:Nd.
      + exists "", (String "."%char (digits ++ after_frac)). auto.
      + exists digits, after_frac. repeat split; auto.
        unfold decimal_text. rewrite Nd.
        now rewrite !string_app_assoc.
    - exists "", (String c rest). repeat split.
      destruct c as [[] [] [] [] [] [] [] []]; try reflexivity. now destruct Hc. }
  rewrite Heq.
  destruct (span is_space after_number) as [ws after_spaces] eqn:Ew.
  destruct (span_spec _ _ _ _ Ew) as (-> & Hw & _).
  destruct (is_empty_string ws) eqn:Nw; [discriminate|].
  destruct (span is_letter after_spaces) as [l after_letters] eqn:El.
  destruct (span_spec _ _ _ _ El) as (-> & Hl & _).
  destruct (is_empty_string l) eqn:Nl; [discriminate|].
  destruct (is_empty_string after_letters || (after_letters =? String "010"%char ""))
    eqn:Et; [|discriminate].
  intros [= <- <- <-]. exists ws, after_letters.
  repeat split; auto.
  - apply orb_true_iff in Et. destruct Et as [Et|Et].
    + left. now destruct after_letters.
    + right. now apply String.eqb_eq.
  - intros ->. discriminate.
  - intros ->. discriminate.
  - intros ->. discriminate.
Qed.

Lemma parse_token_amount_symbol (amount_string : string) (amount : float)
    (asset_symbol : string) :
  parse_token_amount amount_string = Some (amount, asset_symbol) ->
  asset_symbol <> "" /\ all_chars is_upper_letter asset_symbol = true.
Proof.
  unfold parse_token_amount.
  destruct (match_token_amount (strip amount_string)) as [[[i f] l]|] eqn:E;
    [|discriminate].
  intros [= <- <-].
  destruct (match_token_amount_shape _ _ _ _ E)
    as (ws & tail & _ & _ & _ & _ & _ & _ & _ & Hl & Nl).
  split; [destruct l; [congruence|discriminate]|apply upper_letters, Hl].
Qed.

(** X14: An ASCII text that [parse_token_amount] accepts is, once stripped,
    a run of digits, optionally a point and more digits, at least one
    whitespace character and a run of letters; the amount is the float
    nearest to that decimal number and the symbol is the letters in upper
    case, so it is never empty and holds only the letters A to Z. *)
Theorem parse_token_amount_shape (amount_string : string) (amount : float)
    (asset_symbol : string) :
  is_ascii amount_string = true ->
  parse_token_amount amount_string = Some (amount, asset_symbol) ->
  exists int_part frac_part spaces letters tail,
    strip amount_string
    = decimal_text int_part frac_part ++ spaces ++ letters ++ tail
    /\ (tail = "" \/ tail = String "010"%char "")
    /\ all_chars is_digit int_part = true /\ int_part <> ""
    /\ all_chars is_digit frac_part = true
    /\ all_chars is_space spaces = true /\ spaces <> ""
    /\ all_chars is_letter letters = true /\ letters <> ""
    /\ amount = float_of_decimal int_part frac_part
    /\ asset_symbol = upper letters
    /\ asset_symbol <> ""
    /\ all_chars is_upper_letter asset_symbol = true.
Proof.
  intros _. unfold parse_token_amount.
  destruct (match_token_amount (strip amount_string)) as [[[i f] l]|] eqn:E;
    [|discriminate].
  intros [= <- <-].
  destruct (match_token_amount_shape _ _ _ _ E)
    as (ws & tail & Hs & Ht & Hi & Ni & Hf & Hw & Nw & Hl & Nl).
  exists i, f, ws, l, tail. repeat split; auto.
  - destruct l; [congruence|discriminate].
  - apply upper_letters, Hl.
Qed.

Lemma char_classes (c : ascii) :
  (is_digit c = true -> is_space c = false)
  /\ (is_space c = true -> is_digit c = false /\ is_letter c = false /\ c <> "."%char)
  /\ (is_letter c = true -> is_space c = false).
Proof.
  destruct c as [[] [] [] [] [] [] [] []]; vm_compute;
    repeat split; try reflexivity; try discriminate.
Qed.

Lemma rstrip_letters (l : string) :
  all_chars is_letter l = true -> rstrip l = l.
Proof.
  induction l as [|c l IH]; simpl; [reflexivity|].
  rewrite andb_true_iff. intros [Hc Hl]. rewrite (IH Hl).
  destruct (char_classes c) as (_ & _ & H). rewrite (H Hc), andb_false_r.
  reflexivity.
Qed.

Lemma rstrip_app_kept (x l : string) :
  rstrip l = l -> l <> "" -> rstrip (x ++ l) = x ++ l.
Proof.
  intros Hl Hne. induction x as [|c x IH]; simpl; [exact Hl|].
  rewrite IH, append_empty_iff.
  destruct l; [congruence|]. simpl. now rewrite andb_false_r.
Qed.

(** X15: [parse_token_amount] accepts every text made of a run of digits,
    optionally a point and more digits, at least one whitespace character and
    a run of letters, and returns the float nearest to the decimal number
    with the letters in upper case. *)
Theorem parse_token_amount_accepts (int_part frac_part spaces letters : string) :
  all_chars is_digit int_part = true -> int_part <> "" ->
  all_chars is_digit frac_part = true ->
  all_chars is_space spaces = true -> spaces <> "" ->
  all_chars is_letter letters = true -> letters <> "" ->
  parse_token_amount (decimal_text int_part frac_part ++ spaces ++ letters)
  = Some (float_of_decimal int_part frac_part, upper letters).
Proof.
  intros Hi Ni Hf Hw Nw Hl Nl.
  destruct int_part as [|ci i]; [congruence|].
  destruct spaces as [|cw ws]; [congruence|].
  destruct letters as [|cl l]; [congruence|].
  simpl in Hi, Hw, Hl. rewrite andb_true_iff in Hi, Hw, Hl.
  destruct Hi as [Hci Hi], Hw as [Hcw Hw], Hl as [Hcl Hl].
  destruct (char_classes ci) as (Hds & _ & _).
  destruct (char_classes cw) as (_ & Hsp & _). destruct (Hsp Hcw) as (Hsd & Hsl & Hdot).
  destruct (char_classes cl) as (_ & _ & Hls).
  set (text := decimal_text (String ci i) frac_part ++ String cw ws ++ String cl l).
  assert (strip text = text) as Hstrip.
  { unfold strip.
    assert (lstrip text = text) as ->.
    { unfold text, decimal_text. destruct (is_empty_string frac_part); simpl;
        now rewrite (Hds Hci). }
    unfold text. rewrite <- !string_app_assoc.
    apply rstrip_app_kept; [|discriminate].
    apply rstrip_letters. simpl. now rewrite Hcl, Hl. }
  unfold parse_token_amount. rewrite Hstrip.
  assert (match_token_amount text = Some (String ci i, frac_part, String cl l)) as ->;
    [|reflexivity].
  assert (span is_space (String cw ws ++ String cl l) = (String cw ws, String cl l))
    as Hspaces.
  { apply span_app; [simpl; now rewrite Hcw, Hw|]. exact (Hls Hcl). }
  assert (span is_letter (String cl l) = (String cl l, "")) as Hletters.
  { rewrite <- (string_app_nil_r (String cl l)) at 1.
    apply span_app; [simpl; now rewrite Hcl, Hl|exact I]. }
  unfold match_token_amount, text, decimal_text.
  destruct frac_part as [|cf f]; cbn [is_empty_string].
  - rewrite (span_app is_digit (String ci i) (String cw ws ++ String cl l));
      [|simpl; now rewrite Hci, Hi|exact Hsd].
    cbn [is_empty_string append].
    destruct (Ascii.eqb_spec cw "."%char) as [E|_]; [contradiction|].
    assert (match cw with
            | "."%char =>
                let '(digits, after_frac) := span is_digit (ws ++ String cl l) in
                if is_empty_string digits
                then ("", String cw (ws ++ String cl l))
                else (digits, after_frac)
            | _ => ("", String cw (ws ++ String cl l))
            end = ("", String cw (ws ++ String cl l))) as ->.
    { destruct cw as [[] [] [] [] [] [] [] []]; try reflexivity. now destruct Hdot. }
    change (String cw (ws ++ String cl l)) with (String cw ws ++ String cl l).
    rewrite Hspaces. cbn [is_empty_string]. rewrite Hletters. reflexivity.
  - rewrite !string_app_assoc.
    rewrite (span_app is_digit (String ci i)
               ("." ++ String cf f ++ String cw ws ++ String cl l));
      [|simpl; now rewrite Hci, Hi|reflexivity].
    cbn [is_empty_string append].
    change (String cf (f ++ String cw (ws ++ String cl l)))
      with (String cf f ++ String cw ws ++ String cl l).
    rewrite (span_app is_digit (String cf f) (String cw ws ++ String cl l));
      [|exact Hf|exact Hsd].
    cbn [is_empty_string]. rewrite Hspaces. cbn [is_empty_string].
    rewrite Hletters. reflexivity.
Qed.

(** X16: A symbol that [parse_token_amount] returns is in upper case, so the
    entries [cbBTC] and [xPufETH] of the price table are never found for it:
    a token amount of either asset, in any letter case, is converted at one
    dollar per unit. *)
Theorem parsed_symbol_misses_mixed_case_prices (amount_string : string)
    (amount : float) (asset_symbol : string) :
  parse_token_amount amount_string = Some (amount, asset_symbol) ->
  asset_symbol <> "cbBTC" /\ asset_symbol <> "xPufETH"
  /\ (asset_symbol = "CBBTC" \/ asset_symbol = "XPUFETH" ->
      convert_to_usd amount asset_symbol = amount).
Proof.
  intros H.
  destruct (parse_token_amount_symbol _ _ _ H) as [_ Hup].
  repeat split.
  - intros ->. discriminate Hup.
  - intros ->. discriminate Hup.
  - intros [-> | ->]; reflexivity.
Qed.

(** ** Lookups *)


(** X17: With an explicit amount range [lookup_settlement_times] succeeds exactly
    when the route holds a bin under that very name, and then returns that
    bin's statistics under the names it was asked for; a statistic the bin
    lacks is [None], a missing generated flag is [False] and a missing method
    is ["N/A"].  No other bucket is ever substituted. *)
Theorem lookup_explicit_range (data : dataset) (o d t amount_range : string) :
  amount_range <> "" ->
  lookup_settlement_times data o d t (Some amount_range)
  = match bin_at data o d t amount_range with
    | Some b =>
        Some (mk_lookup_result o d t amount_range
                (dict_get_default b P25 PyNone)
                (dict_get_default b P50 PyNone)
                (dict_get_default b P75 PyNone)
                (dict_get_default b "sample_size" PyNone)
                (dict_get_default b "generated" (PyBool false))
                (dict_get_default b "method" (PyStr "N/A")))
    | None => None
    end.
Proof.
  intros Hne. unfold lookup_settlement_times, bin_at, route_at, dict_mem.
  destruct (dict_get data o) as [destinations|]; [|reflexivity].
  destruct (dict_get destinations d) as [tickerhashes|]; [|reflexivity].
  destruct (dict_get tickerhashes t) as [asset_data|]; [|reflexivity].
  apply String.eqb_neq in Hne. rewrite Hne. cbn [negb].
  destruct (dict_get asset_data amount_range) as [b|] eqn:E; [|reflexivity].
  now rewrite E.
Qed.




(** ** The command line of the lookup script *)

Lemma amount_argument_bucket (b : string) :
  In b EXPECTED_BINS -> amount_argument (Some b) = (Some b, None).
Proof.
  simpl. intros H.
  repeat (destruct H as [<-|H]; [vm_compute; reflexivity|]). destruct H.
Qed.

Lemma parse_token_amount_not_empty (text : string) (a : float) (sym : string) :
  parse_token_amount text = Some (a, sym) -> is_empty_string text = false.
Proof.
  destruct text; [discriminate|reflexivity].
Qed.


(** X20: A token amount of zero is not converted: [main] looks its text up as if
    it were the name of a bucket, for the asset of the [--asset] argument.
    The same holds for a canonical bucket name and for no amount at all; an
    asset that begins with ["0x"] is used as the key without consulting the
    catalog. *)
Theorem lookup_main_literal_range (data : dataset) (catalog : option chain_data)
    (origin destination asset : string) (amount : option string) :
  starts_with "0x" asset = true ->
  amount = None
  \/ (exists b, In b EXPECTED_BINS /\ amount = Some b)
  \/ (exists text a sym,
        amount = Some text /\ parse_token_amount text = Some (a, sym)
        /\ is_zero a = true) ->
  lookup_main data catalog origin destination asset amount
  = lookup_settlement_times data origin destination asset amount.
Proof.
  intros Hhash Hamount. unfold lookup_main.
  assert (amount_argument amount = (amount, None)) as ->.
  { destruct Hamount as [->|[(b & Hb & ->)|(text & a & sym & -> & Hparse & Hzero)]].
    - reflexivity.
    - now apply amount_argument_bucket.
    - unfold amount_argument.
      now rewrite (parse_token_amount_not_empty _ _ _ Hparse), Hparse, Hzero. }
  now rewrite Hhash.
Qed.

(** ** The test runner *)

Section TestRunnerFacts.

Variable test_case : Type.
Variable run_single_test : test_case -> option bool.

Lemma tally_counts (cases : list test_case) :
  forall acc,
    let r := fold_left (count_test test_case run_single_test) cases acc in
    passed r = (passed acc
                + List.length (filter (test_passes test_case run_single_test) cases))%nat
    /\ total_tests r
       = (total_tests acc
          + List.length (filter (test_ran test_case run_single_test) cases))%nat
    /\ (passed r + failed r = passed acc + failed acc + List.length cases)%nat.
Proof.
  induction cases as [|tc cases IH]; intros acc; cbn [fold_left filter List.length].
  - cbv zeta. lia.
  - specialize (IH (count_test test_case run_single_test acc tc)).
    cbv zeta in *. destruct IH as (H1 & H2 & H3). rewrite H1, H2.
    assert (passed (count_test test_case run_single_test acc tc)
            = (passed acc
               + (if test_passes test_case run_single_test tc then 1 else 0))%nat
            /\ total_tests (count_test test_case run_single_test acc tc)
              = (total_tests acc
                 + (if test_ran test_case run_single_test tc then 1 else 0))%nat
            /\ (passed (count_test test_case run_single_test acc tc)
                + failed (count_test test_case run_single_test acc tc)
                = passed acc + failed acc + 1)%nat) as (E1 & E2 & E3).
    { unfold count_test, test_passes, test_ran.
      destruct (run_single_test tc) as [[]|]; cbn [passed failed total_tests]; lia. }
    destruct (test_passes test_case run_single_test tc),
             (test_ran test_case run_single_test tc);
      cbn [List.length]; lia.
Qed.


(** X22: The [--max-tests] bound: a positive bound runs the first cases up to
    that number, a bound of zero is no bound at all, and a negative bound
    leaves out that many cases at the end. *)
Theorem run_all_tests_max_tests (test_cases : list test_case) (n : Z)
    (results : summary) :
  run_all_tests test_case run_single_test test_cases (Some n) = Some results ->
  ((0 < n)%Z ->
   (passed results + failed results
    = Nat.min (Z.to_nat n) (List.length test_cases))%nat)
  /\ (n = 0%Z ->
      (passed results + failed results = List.length test_cases)%nat)
  /\ ((n < 0)%Z ->
      (passed results + failed results
       = List.length test_cases - Z.to_nat (- n))%nat).
Proof.
  unfold run_all_tests.
  destruct (is_empty test_cases); [discriminate|]. intros [= <-].
  destruct (tally_counts (take_tests test_cases (Some n)) (mk_summary 0 0 0))
    as (_ & _ & H3).
  cbn [passed failed total_tests] in H3. cbv zeta in H3.
  unfold take_tests in *. rewrite H3. clear H3. cbn [Nat.add].
  split; [|split]; intros Hn.
  - destruct (n =? 0)%Z eqn:E0; [lia|].
    destruct (0 <? n)%Z eqn:E1; [|lia]. apply length_firstn.
  - subst n. reflexivity.
  - destruct (n =? 0)%Z eqn:E0; [lia|].
    destruct (0 <? n)%Z eqn:E1; [lia|]. rewrite length_firstn. lia.
Qed.

End TestRunnerFacts.

(** ** The statistics table, value by value *)

Lemma foldM_accumulates {A B S : Type} (f : S -> A -> result S) (g : A -> list B)
    (m : S -> list B) (l : list A) :
  (forall s a s', f s a = Ok s' -> m s' = (m s ++ g a)%list) ->
  forall s s', foldM f l s = Ok s' -> m s' = (m s ++ flat_map g l)%list.
Proof.
  intros Hstep. induction l as [|a l IH]; intros s s'; simpl.
  - intros [= <-]. now rewrite app_nil_r.
  - destruct (f s a) as [s1|e] eqn:E; simpl; [|discriminate].
    intros Hrest. rewrite (IH _ _ Hrest), (Hstep _ _ _ E). now rewrite app_assoc.
Qed.

Lemma collect_accumulates {B : Type} (g : string * bin -> list B)
    (m : bin_stats -> list B) (data : dataset) :
  (forall s e s', collect_bin s e = Ok s' -> m s' = (m s ++ g e)%list) ->
  forall s s', foldM collect_origin data s = Ok s' ->
    m s' = (m s ++ flat_map g (all_bins data))%list.
Proof.
  intros Hbin. unfold all_bins.
  induction data as [|[o destinations] data IH]; intros s s'; simpl.
  - intros [= <-]. now rewrite app_nil_r.
  - unfold collect_origin at 1. cbn [snd].
    destruct (foldM collect_destination destinations s) as [s1|] eqn:E1; simpl;
      [|discriminate].
    intros Hrest. rewrite flat_map_app, app_assoc.
    rewrite (IH _ _ Hrest). f_equal. clear IH Hrest.
    revert s s1 E1.
    induction destinations as [|[d tickerhashes] destinations IH]; intros s s1; simpl.
    + intros [= <-]. now rewrite app_nil_r.
    + unfold collect_destination at 1. cbn [snd].
      destruct (foldM collect_route tickerhashes s) as [s2|] eqn:E2; simpl;
        [|discriminate].
      intros Hrest. rewrite flat_map_app, app_assoc.
      rewrite (IH _ _ Hrest). f_equal. clear IH Hrest.
      revert s s2 E2.
      induction tickerhashes as [|[t bins] tickerhashes IH]; intros s s2; simpl.
      * intros [= <-]. now rewrite app_nil_r.
      * unfold collect_route at 1. cbn [snd].
        destruct (foldM collect_bin bins s) as [s3|] eqn:E3; simpl; [|discriminate].
        intros Hrest. rewrite flat_map_app, app_assoc.
        rewrite (IH _ _ Hrest). f_equal.
        exact (foldM_accumulates collect_bin g m bins Hbin s s3 E3).
Qed.

Lemma collect_bin_appends (bin_name : string) (s : bin_stats) (e : string * bin)
    (s' : bin_stats) :
  In bin_name EXPECTED_BINS ->
  collect_bin s e = Ok s' ->
  let value metric :=
    if fst e =? bin_name then
      match dict_get (snd e) metric with
      | Some v => [v]
      | None => []
      end
    else [] in
  p25 (table_lists s' bin_name) = (p25 (table_lists s bin_name) ++ value P25)%list
  /\ p50 (table_lists s' bin_name) = (p50 (table_lists s bin_name) ++ value P50)%list
  /\ p75 (table_lists s' bin_name) = (p75 (table_lists s bin_name) ++ value P75)%list.
Proof.
  intros Hcanon. destruct e as [name b]. unfold collect_bin, getitem. cbn [fst snd].
  destruct (mem_string name EXPECTED_BINS) eqn:E.
  - destruct (dict_get b P25) as [v25|]; cbn [bind]; [|discriminate].
    destruct (dict_get b P50) as [v50|]; cbn [bind]; [|discriminate].
    destruct (dict_get b P75) as [v75|]; cbn [bind]; [|discriminate].
    intros [= <-]. unfold stats_append, table_lists, dict_get_default.
    destruct (name =? bin_name) eqn:En.
    + apply String.eqb_eq in En. subst name.
      rewrite dict_get_set_same. cbn [p25 p50 p75]. auto.
    + apply String.eqb_neq in En.
      rewrite (dict_get_set_other _ _ _ _ En). now rewrite !app_nil_r.
  - intros [= <-].
    destruct (name =? bin_name) eqn:En; [|now rewrite !app_nil_r].
    apply String.eqb_eq in En. subst name.
    apply mem_string_In in Hcanon. congruence.
Qed.

(** X23: The table [collect_bin_statistics] returns holds, for every canonical
    bucket and each of the three statistics, exactly the values of that
    statistic in the bins stored under the bucket's name, one per bin, in the
    order the dataset is traversed; a bucket that no route holds has no
    values. *)
Theorem collect_bin_statistics_values (data : dataset) (bs : bin_stats)
    (bin_name : string) :
  collect_bin_statistics data = Ok bs ->
  In bin_name EXPECTED_BINS ->
  p25 (table_lists bs bin_name) = values_of P25 bin_name data
  /\ p50 (table_lists bs bin_name) = values_of P50 bin_name data
  /\ p75 (table_lists bs bin_name) = values_of P75 bin_name data.
Proof.
  unfold collect_bin_statistics, values_of. intros H Hcanon.
  pose (value := fun (metric : string) (e : string * bin) =>
    if fst e =? bin_name then
      match dict_get (snd e) metric with
      | Some v => [v]
      | None => []
      end
    else []).
  split; [|split].
  - apply (collect_accumulates (value P25)
             (fun s => p25 (table_lists s bin_name)) data) in H; [exact H|].
    intros s e s' Hs. exact (proj1 (collect_bin_appends bin_name s e s' Hcanon Hs)).
  - apply (collect_accumulates (value P50)
             (fun s => p50 (table_lists s bin_name)) data) in H; [exact H|].
    intros s e s' Hs.
    exact (proj1 (proj2 (collect_bin_appends bin_name s e s' Hcanon Hs))).
  - apply (collect_accumulates (value P75)
             (fun s => p75 (table_lists s bin_name)) data) in H; [exact H|].
    intros s e s' Hs.
    exact (proj2 (proj2 (collect_bin_appends bin_name s e s' Hcanon Hs))).
Qed.

(** ** Missing buckets *)

(** X24: [find_missing_bins] reports exactly the routes that lack a canonical
    bucket, each once, with the canonical buckets it lacks in catalog order:
    a reported bucket is canonical and absent from the route, and a route
    that holds all eight is not reported. *)
Theorem find_missing_bins_exact (data : dataset) :
  unique_routes data = true ->
  NoDup (find_missing_bins data)
  /\ forall o d t ms,
       In (o, d, t, ms) (find_missing_bins data) <->
       exists bins,
         route_at data o d t = Some bins
         /\ ms = filter (fun b => negb (dict_mem b bins)) EXPECTED_BINS
         /\ ms <> [].
Proof.
  intros Hu. split; [now apply find_missing_bins_NoDup|].
  intros o d t ms. rewrite (find_missing_bins_route data o d t ms Hu).
  assert (forall bins : route,
            missing_bins_of bins
            = filter (fun b => negb (dict_mem b bins)) EXPECTED_BINS) as Heq.
  { intros bins. unfold missing_bins_of. apply filter_ext. intros b.
    now rewrite dict_get_keys. }
  split; intros (bins & Hat & Hms & Hne); exists bins; rewrite Heq in *; auto.
Qed.


(** ** Buckets in order *)

(** X26: [find_amount_bucket] is monotone: a larger amount never falls into an
    earlier bucket of the catalog. *)
Theorem find_amount_bucket_monotone (a b : Q) :
  (a <= b)%Q ->
  (get_bin_index (find_amount_bucket a) <= get_bin_index (find_amount_bucket b))%Z.
Proof.
  intros Hab. bucket_cases a; bucket_cases b;
    try (vm_compute; discriminate); exfalso; lra.
Qed.

(** ** Asset names *)

Lemma upper_ascii_cases (c : ascii) :
  upper_ascii (upper_ascii c) = upper_ascii c
  /\ upper_ascii (lower_ascii c) = upper_ascii c.
Proof.
  destruct c as [[] [] [] [] [] [] [] []]; vm_compute; split; reflexivity.
Qed.

Lemma upper_cases (s : string) :
  upper (upper s) = upper s /\ upper (lower s) = upper s.
Proof.
  induction s as [|c s [IH1 IH2]]; simpl; [auto|].
  destruct (upper_ascii_cases c) as [H1 H2]. now rewrite IH1, IH2, H1, H2.
Qed.

Lemma search_assets_upper (entries : assets) (a a' : string) :
  upper a' = upper a -> search_assets entries a' = search_assets entries a.
Proof.
  intros H. induction entries as [|[symbol info] entries IH]; simpl; [reflexivity|].
  now rewrite H, IH.
Qed.

Lemma search_chains_upper (cs : dict chain_info) (a a' : string) :
  upper a' = upper a -> search_chains cs a' = search_chains cs a.
Proof.
  intros H. induction cs as [|[chain_id chain] cs IH]; simpl; [reflexivity|].
  rewrite IH. destruct (chain_assets chain) as [entries|]; [|reflexivity].
  now rewrite (search_assets_upper entries a a' H).
Qed.

(** X27: ASCII asset names are resolved without regard to letter case: two
    names that are equal up to the case of their letters resolve alike, and
    so do a name, its upper-case form and its lower-case form. *)
Theorem get_ticker_hash_case_insensitive (catalog : option chain_data)
    (asset_name : string) (origin_chain : option string) :
  is_ascii asset_name = true ->
  (forall other,
     is_ascii other = true ->
     equal_ignoring_case other asset_name = true ->
     get_ticker_hash_from_asset_name catalog other origin_chain
     = get_ticker_hash_from_asset_name catalog asset_name origin_chain)
  /\ get_ticker_hash_from_asset_name catalog (upper asset_name) origin_chain
     = get_ticker_hash_from_asset_name catalog asset_name origin_chain
  /\ get_ticker_hash_from_asset_name catalog (lower asset_name) origin_chain
     = get_ticker_hash_from_asset_name catalog asset_name origin_chain.
Proof.
  intros _.
  assert (forall other, upper other = upper asset_name ->
            get_ticker_hash_from_asset_name catalog other origin_chain
            = get_ticker_hash_from_asset_name catalog asset_name origin_chain) as H.
  { intros other Hup. unfold get_ticker_hash_from_asset_name.
    destruct catalog as [cd|]; [|reflexivity].
    rewrite (search_chains_upper _ asset_name other Hup).
    destruct (hub cd) as [[entries|]|];
      rewrite ?(search_assets_upper entries asset_name other Hup);
      destruct origin_chain as [oc|]; try reflexivity;
      destruct (negb (oc =? "")); try reflexivity;
      destruct (dict_get match chains cd with Some cs => cs | None => [] end oc)
        as [chain|]; try reflexivity;
      destruct (chain_assets chain) as [chain_entries|]; try reflexivity;
      now rewrite (search_assets_upper chain_entries asset_name other Hup). }
  split; [|split; apply H; apply upper_cases].
  intros other _ Heq. apply H.
  rewrite <- upper_eqb_ignoring_case in Heq. now apply String.eqb_eq.
Qed.

(** ** The gap filler on well-formed data *)


(** ** Instances on the example data *)

Lemma collect_bin_statistics_table_witness :
  unique_keys baseline_only_table = true
  /\ forall name st, dict_get baseline_only_table name = Some st ->
       In name EXPECTED_BINS
       /\ p25 st <> []
       /\ List.length (p25 st) = List.length (p50 st)
       /\ List.length (p50 st) = List.length (p75 st).
Proof.
  apply (collect_bin_statistics_table baseline_only_data baseline_only_table).
  reflexivity.
Defined.

Lemma collect_bin_statistics_values_witness :
  p25 (table_lists baseline_only_table "0-50000")
  = values_of P25 "0-50000" baseline_only_data
  /\ p50 (table_lists baseline_only_table "0-50000")
     = values_of P50 "0-50000" baseline_only_data
  /\ p75 (table_lists baseline_only_table "0-50000")
     = values_of P75 "0-50000" baseline_only_data.
Proof.
  apply (collect_bin_statistics_values baseline_only_data baseline_only_table
           "0-50000"); [reflexivity|simpl; tauto].
Defined.

Lemma interpolate_bin_data_generated_bin_witness :
  let g := generated_bin (PyFloat 10) (PyFloat 15) (PyFloat 25) "default_fallback" in
  dict_keys g = [P25; P50; P75; "sample_size"; "generated"; "method"]
  /\ dict_get g "sample_size" = Some (PyInt 0)
  /\ dict_get g "generated" = Some (PyBool true)
  /\ exists method, dict_get g "method" = Some (PyStr method) /\ In method STRATEGIES.
Proof.
  apply (interpolate_bin_data_generated_bin sum_left_fold [] "50000-100000" [] []).
  reflexivity.
Defined.

Lemma interpolate_bin_data_strategy_order_witness :
  dict_get (generated_bin (PyFloat 10) (PyFloat 15) (PyFloat 25) "default_fallback")
    "method"
  = Some (PyStr (selected_strategy [] "50000-100000" ["custom"] custom_route)).
Proof.
  apply (interpolate_bin_data_strategy_order sum_left_fold [] "50000-100000"
           ["custom"] custom_route).
  reflexivity.
Defined.

Lemma interpolate_bin_data_default_fallback_witness :
  interpolate_bin_data sum_left_fold [] "50000-100000" ["custom"] custom_route
  = Ok (generated_bin (PyFloat 10) (PyFloat 15) (PyFloat 25) "default_fallback").
Proof.
  apply (interpolate_bin_data_default_fallback sum_left_fold [] "50000-100000"
           ["custom"] custom_route); reflexivity.
Defined.

Lemma gap_fill_route_local_witness :
  route_at baseline_only_filled "10" "1" "0xweth"
  = route_at two_route_filled "10" "1" "0xweth".
Proof.
  apply (gap_fill_route_local sum_left_fold baseline_only_data two_route_data);
    vm_compute; reflexivity.
Defined.

Lemma gap_fill_keeps_existing_bins_witness :
  (route_at baseline_only_filled "10" "1" "0xweth" = None
   <-> route_at baseline_only_data "10" "1" "0xweth" = None)
  /\ forall bin_name b,
       bin_at baseline_only_data "10" "1" "0xweth" bin_name = Some b ->
       bin_at baseline_only_filled "10" "1" "0xweth" bin_name = Some b.
Proof.
  apply (gap_fill_keeps_existing_bins sum_left_fold baseline_only_data
           baseline_only_filled "10" "1" "0xweth"); vm_compute; reflexivity.
Defined.


Lemma gap_fill_added_bins_generated_witness :
  exists g method,
    bin_at baseline_only_filled "10" "1" "0xweth" "1000000+" = Some g
    /\ dict_keys g = [P25; P50; P75; "sample_size"; "generated"; "method"]
    /\ dict_get g "sample_size" = Some (PyInt 0)
    /\ dict_get g "generated" = Some (PyBool true)
    /\ dict_get g "method" = Some (PyStr method)
    /\ In method STRATEGIES.
Proof.
  apply (gap_fill_added_bins_generated sum_left_fold baseline_only_data
           baseline_only_filled "10" "1" "0xweth" baseline_only_route "1000000+");
    first [vm_compute; reflexivity | simpl; tauto].
Defined.

Lemma gap_fill_second_run_witness :
  unique_routes two_route_filled = true
  /\ find_missing_bins two_route_filled = []
  /\ gap_fill sum_left_fold two_route_filled = Ok two_route_filled.
Proof.
  apply (gap_fill_second_run sum_left_fold sum_left_fold two_route_data
           two_route_filled); vm_compute; reflexivity.
Defined.

Lemma populate_missing_bins_unknown_route_witness :
  exists k,
    In k ["999"; "1"; "0xweth"]
    /\ populate_missing_bins sum_left_fold baseline_only_data
         [("999", "1", "0xweth", ["0-50000"])]
       = Raise (KeyError k).
Proof.
  apply (populate_missing_bins_unknown_route sum_left_fold baseline_only_data
           baseline_only_table "999" "1" "0xweth" ["0-50000"] []); reflexivity.
Defined.


Lemma find_missing_bins_exact_witness :
  NoDup (find_missing_bins two_route_data)
  /\ forall o d t ms,
       In (o, d, t, ms) (find_missing_bins two_route_data) <->
       exists bins,
         route_at two_route_data o d t = Some bins
         /\ ms = filter (fun b => negb (dict_mem b bins)) EXPECTED_BINS
         /\ ms <> [].
Proof.
  apply (find_missing_bins_exact two_route_data). reflexivity.
Defined.

Lemma find_amount_bucket_monotone_witness :
  (10 <= 60000)%Q
  /\ (get_bin_index (find_amount_bucket 10)
      <= get_bin_index (find_amount_bucket 60000))%Z.
Proof.
  split; [lra|]. apply (find_amount_bucket_monotone 10 60000). lra.
Defined.

Lemma parse_token_amount_shape_witness :
  exists int_part frac_part spaces letters tail,
    strip " 10.5 weth "
    = decimal_text int_part frac_part ++ spaces ++ letters ++ tail
    /\ (tail = "" \/ tail = String "010"%char "")
    /\ all_chars is_digit int_part = true /\ int_part <> ""
    /\ all_chars is_digit frac_part = true
    /\ all_chars is_space spaces = true /\ spaces <> ""
    /\ all_chars is_letter letters = true /\ letters <> ""
    /\ 10.5%float = float_of_decimal int_part frac_part
    /\ "WETH" = upper letters
    /\ "WETH" <> ""
    /\ all_chars is_upper_letter "WETH" = true.
Proof.
  apply (parse_token_amount_shape " 10.5 weth " 10.5%float "WETH");
    vm_compute; reflexivity.
Defined.

Lemma parse_token_amount_accepts_witness :
  parse_token_amount (decimal_text "10" "5" ++ " " ++ "weth")
  = Some (float_of_decimal "10" "5", upper "weth").
Proof.
  apply (parse_token_amount_accepts "10" "5" " " "weth");
    first [reflexivity | discriminate].
Defined.

Lemma parsed_symbol_misses_mixed_case_prices_witness :
  "CBBTC" <> "cbBTC" /\ "CBBTC" <> "xPufETH"
  /\ ("CBBTC" = "CBBTC" \/ "CBBTC" = "XPUFETH" ->
      convert_to_usd 2%float "CBBTC" = 2%float).
Proof.
  apply (parsed_symbol_misses_mixed_case_prices "2 cbBTC" 2%float "CBBTC").
  vm_compute; reflexivity.
Defined.

Lemma lookup_explicit_range_witness :
  lookup_settlement_times baseline_only_data "10" "1" "0xweth" (Some "0-50000")
  = match bin_at baseline_only_data "10" "1" "0xweth" "0-50000" with
    | Some b =>
        Some (mk_lookup_result "10" "1" "0xweth" "0-50000"
                (dict_get_default b P25 PyNone)
                (dict_get_default b P50 PyNone)
                (dict_get_default b P75 PyNone)
                (dict_get_default b "sample_size" PyNone)
                (dict_get_default b "generated" (PyBool false))
                (dict_get_default b "method" (PyStr "N/A")))
    | None => None
    end.
Proof.
  apply (lookup_explicit_range baseline_only_data "10" "1" "0xweth" "0-50000").
  discriminate.
Defined.



Lemma lookup_main_literal_range_witness :
  lookup_main baseline_only_filled None "10" "1" "0xweth" (Some "0 WETH")
  = lookup_settlement_times baseline_only_filled "10" "1" "0xweth" (Some "0 WETH").
Proof.
  apply (lookup_main_literal_range baseline_only_filled None "10" "1" "0xweth"
           (Some "0 WETH")); [reflexivity|].
  right. right. exists "0 WETH", 0%float, "WETH".
  repeat split; vm_compute; reflexivity.
Defined.


Lemma run_all_tests_max_tests_witness :
  let cases := [Some true; Some false; None; Some true] in
  let results := mk_summary 2 1 1 in
  ((0 < 2)%Z ->
   (passed results + failed results = Nat.min (Z.to_nat 2) (List.length cases))%nat)
  /\ (2%Z = 0%Z -> (passed results + failed results = List.length cases)%nat)
  /\ ((2 < 0)%Z ->
      (passed results + failed results = List.length cases - Z.to_nat (- 2))%nat).
Proof.
  apply (run_all_tests_max_tests (option bool) (fun tc => tc)
           [Some true; Some false; None; Some true] 2 (mk_summary 2 1 1)).
  reflexivity.
Defined.

Lemma get_chain_id_from_name_idempotent_witness :
  get_chain_id_from_name (get_chain_id_from_name "OptiMism")
  = get_chain_id_from_name "OptiMism"
  /\ ((forall k, In k (dict_keys chain_mapping) ->
                 equal_ignoring_case k "OptiMism" = false) ->
      get_chain_id_from_name "OptiMism" = "OptiMism")
  /\ (forall k id,
        dict_get chain_mapping k = Some id ->
        equal_ignoring_case k "OptiMism" = true ->
        get_chain_id_from_name "OptiMism" = id).
Proof.
  apply (get_chain_id_from_name_idempotent "OptiMism"). reflexivity.
Defined.

(** Chain names on examples: a known name in any letter case gives its id,
    an id and an unknown name are returned as they are. *)
Example get_chain_id_from_name_examples :
  get_chain_id_from_name "OptiMism" = "10"
  /\ get_chain_id_from_name "ETHEREUM" = "1"
  /\ get_chain_id_from_name "10" = "10"
  /\ get_chain_id_from_name "Gnosis" = "Gnosis".
Proof.
  repeat split; reflexivity.
Qed.

Lemma get_ticker_hash_case_insensitive_witness :
  (forall other,
     is_ascii other = true ->
     equal_ignoring_case other "WeTh" = true ->
     get_ticker_hash_from_asset_name (Some layered_catalog) other (Some "10")
     = get_ticker_hash_from_asset_name (Some layered_catalog) "WeTh" (Some "10"))
  /\ get_ticker_hash_from_asset_name (Some layered_catalog) (upper "WeTh") (Some "10")
     = get_ticker_hash_from_asset_name (Some layered_catalog) "WeTh" (Some "10")
  /\ get_ticker_hash_from_asset_name (Some layered_catalog) (lower "WeTh") (Some "10")
     = get_ticker_hash_from_asset_name (Some layered_catalog) "WeTh" (Some "10").
Proof.
  apply (get_ticker_hash_case_insensitive (Some layered_catalog) "WeTh" (Some "10")).
  reflexivity.
Defined.
